(** * Customer-orders dashboard: the query and pagination layer

    A shallow embedding of the Express route handlers of the backend
    (orders, customers, dashboard and charts routers) and of the derived
    metrics of the Dashboard component, together with a model of the
    PostgreSQL server the handlers talk to through [pool.query].  The
    client is embedded where it meets the server: the requests of the API
    service, the footers of the two tables, the insight cards of the
    dashboard.

    The handlers are embedded as they are written: they build SQL text by
    string concatenation, push bound parameters, run the statements and
    assemble the JSON answer.  The server side is modelled by a reader for
    the statements this application issues ([Pg.pg_parse]) and their
    evaluation over a store of customers and orders ([Pg.exec]).

    Conventions of the model
    - JavaScript numbers that hold integers are [Z]; the model is exact in
      the safe-integer range of IEEE doubles.  Decimal amounts
      (NUMERIC with two fraction digits) are integers counting hundredths;
      where JavaScript divides them they are rationals ([Q]).
    - Calendar dates are day numbers, timestamps are instants, both [Z].
    - A query-string value is an optional string (absent or present).
    - The connection itself never fails: a statement fails only for what
      it says (a value the server cannot read, a negative LIMIT or OFFSET,
      a wrong number of parameters).
    - Both statements of a listing, and the four of the summary, see the
      same store.

    Where the model stops
    - Numbers are exact integers, JavaScript's are doubles: the two agree
      on the safe integers ([safe_integer]).
    - The white space of the model is ASCII; JavaScript skips more beyond
      ASCII.  The two agree on ASCII texts ([ascii_only]).
    - The server of the model accepts any text as a parameter and any
      number of days; PostgreSQL refuses a text that holds a NUL
      character ([no_nul]) and dates outside its calendar
      ([within_calendar]).
    The statements that depend on it carry these as hypotheses. *)

From Stdlib Require Import ZArith List String Ascii Bool Lia.
From Stdlib Require Import QArith Qround Qabs.
From Stdlib Require Import Permutation Sorted.
From Stdlib Require Import DecimalString DecimalZ.
Import ListNotations.

Local Open Scope Z_scope.

(* ================================================================= *)
(** ** JavaScript primitives used by the handlers *)

Module JS.

(** What [parseInt] returns: an integer or NaN. *)
Inductive num : Type :=
| NaN
| Int (z : Z).

(** Decimal rendering of an integer, as a template literal prints it. *)
Definition show (z : Z) : string := NilEmpty.string_of_int (Z.to_int z).

(** White space skipped by [parseInt] (the ASCII part of StrWhiteSpaceChar). *)
Definition is_space (c : ascii) : bool :=
  let n := nat_of_ascii c in
  (Nat.eqb n 32 || (Nat.leb 9 n && Nat.leb n 13))%bool.

Fixpoint skip_spaces (s : string) : string :=
  match s with
  | String c r => if is_space c then skip_spaces r else s
  | EmptyString => s
  end.

(** Value of a digit in the given radix, if it is one. *)
Definition digit_val (radix : Z) (c : ascii) : option Z :=
  let n := Z.of_nat (nat_of_ascii c) in
  let v :=
    if (48 <=? n) && (n <=? 57) then Some (n - 48)
    else if (97 <=? n) && (n <=? 122) then Some (n - 87)
    else if (65 <=? n) && (n <=? 90) then Some (n - 55)
    else None in
  match v with
  | Some d => if d <? radix then Some d else None
  | None => None
  end.

(** Longest prefix of digits; [None] when there is no digit at all. *)
Fixpoint read_digits (radix : Z) (acc : option Z) (s : string) : option Z :=
  match s with
  | String c r =>
      match digit_val radix c with
      | Some d =>
          read_digits radix
            (Some (radix * match acc with Some a => a | None => 0 end + d)) r
      | None => acc
      end
  | EmptyString => acc
  end.

Definition is_x (c : ascii) : bool :=
  (Ascii.eqb c "x" || Ascii.eqb c "X")%bool.

(** [parseInt(v)] with no radix argument.  An absent query value is
    [undefined], which parses to NaN. *)
Definition parseInt (v : option string) : num :=
  match v with
  | None => NaN
  | Some s0 =>
      let s1 := skip_spaces s0 in
      let '(sign, s2) :=
        match s1 with
        | String c r =>
            if Ascii.eqb c "-" then (-1, r)
            else if Ascii.eqb c "+" then (1, r)
            else (1, s1)
        | EmptyString => (1, s1)
        end in
      let '(radix, s3) :=
        match s2 with
        | String c (String x r) =>
            if (Ascii.eqb c "0" && is_x x)%bool then (16, r) else (10, s2)
        | _ => (10, s2)
        end in
      match read_digits radix None s3 with
      | Some n => Int (sign * n)
      | None => NaN
      end
  end.

(** [n || d] on a number: NaN and 0 are falsy. *)
Definition or_num (n : num) (d : Z) : Z :=
  match n with
  | Int z => if z =? 0 then d else z
  | NaN => d
  end.

(** [v || ''] on a query value. *)
Definition or_empty (v : option string) : string :=
  match v with
  | Some s => s
  | None => EmptyString
  end.

(** Truthiness of a string: every string but the empty one. *)
Definition truthy (s : string) : bool :=
  match s with
  | EmptyString => false
  | String _ _ => true
  end.

(** [Math.ceil(a / b)] on numbers: real division, then the ceiling.
    A NaN operand gives NaN.  [b = 0] would give an infinity or NaN in
    JavaScript; the handlers never divide by zero (see [or_num]), and the
    model answers NaN there. *)
Definition ceil_div (a : num) (b : Z) : num :=
  match a with
  | NaN => NaN
  | Int x =>
      if b =? 0 then NaN
      else Int (Qceiling (inject_Z x / inject_Z b))
  end.

(** [page < n]: a comparison with NaN is false. *)
Definition lt_num (p : Z) (n : num) : bool :=
  match n with
  | NaN => false
  | Int z => p <? z
  end.

(** [a.slice(0, -2)]: all but the last two elements. *)
Definition slice_0_m2 {A : Type} (a : list A) : list A :=
  firstn (List.length a - 2) a.

End JS.

(* ================================================================= *)
(** ** The store: customers and orders *)

(** Modelled from the spec: the schema file (customer-order.sql) is not
    among the sources.  The columns are those of the seed statements and of
    the [Customer] interface of the client; their types are those of the
    data model: an integer key, free text, timestamps.  [name] and [email]
    are required text, the other text columns are optional. *)
Record Customer : Type := {
  c_id : Z;
  c_name : string;
  c_email : string;
  c_phone : option string;
  c_address : option string;
  c_city : option string;
  c_country : option string;
  c_created_at : Z;
  c_updated_at : Z
}.

(** Modelled from the spec: the columns of [orders], from the seed
    statements and the [Order] interface of the client, with the types of
    the data model.  [o_customer_id] is the integer key of a customer,
    [o_order_date] a calendar date (day number), [o_total] a decimal amount
    in hundredths, [o_status] free text. *)
Record Order : Type := {
  o_id : Z;
  o_customer_id : Z;
  o_order_date : Z;
  o_total : Z;
  o_status : string;
  o_shipping_address : option string;
  o_payment_method : option string;
  o_created_at : Z;
  o_updated_at : Z
}.

Record Store : Type := {
  customers : list Customer;
  orders : list Order
}.

(** Primary key of [customers]. *)
Definition customer_ids (st : Store) : list Z := map c_id (customers st).

(* ================================================================= *)
(** ** Result rows *)

(** A column value as the driver hands it over. *)
Inductive Value : Type :=
| VNull
| VInt (n : Z)
| VDec (hundredths : Z)
| VText (s : string)
| VDate (day : Z)
| VTime (instant : Z).

(** A result row: an object from column name to value. *)
Definition Row : Type := list (string * Value).

Fixpoint field (name : string) (r : Row) : option Value :=
  match r with
  | (k, v) :: r' => if String.eqb k name then Some v else field name r'
  | [] => None
  end.

Definition opt_text (s : option string) : Value :=
  match s with
  | Some t => VText t
  | None => VNull
  end.

(** The columns of [c.*]. *)
Definition customer_columns (c : Customer) : Row :=
  [ ("id"%string, VInt (c_id c));
    ("name"%string, VText (c_name c));
    ("email"%string, VText (c_email c));
    ("phone"%string, opt_text (c_phone c));
    ("address"%string, opt_text (c_address c));
    ("city"%string, opt_text (c_city c));
    ("country"%string, opt_text (c_country c));
    ("created_at"%string, VTime (c_created_at c));
    ("updated_at"%string, VTime (c_updated_at c)) ].

(** The columns of [o.*]. *)
Definition order_columns (o : Order) : Row :=
  [ ("id"%string, VInt (o_id o));
    ("customer_id"%string, VInt (o_customer_id o));
    ("order_date"%string, VDate (o_order_date o));
    ("total"%string, VDec (o_total o));
    ("status"%string, VText (o_status o));
    ("shipping_address"%string, opt_text (o_shipping_address o));
    ("payment_method"%string, opt_text (o_payment_method o));
    ("created_at"%string, VTime (o_created_at o));
    ("updated_at"%string, VTime (o_updated_at o)) ].

(** [parseInt(row.col)] and [parseFloat(row.col)]: the driver hands integers
    and decimals over as their decimal text, which parses back to the
    number; anything else (a missing column, a NULL) gives NaN. *)
Definition parseInt_field (r : Row) (col : string) : JS.num :=
  match field col r with
  | Some (VInt n) => JS.Int n
  | Some (VDec h) => JS.Int (Z.quot h 100)
  | _ => JS.NaN
  end.

Definition parseFloat_field (r : Row) (col : string) : option Q :=
  match field col r with
  | Some (VInt n) => Some (inject_Z n)
  | Some (VDec h) => Some (Qmake h 100)
  | _ => None
  end.

(* ================================================================= *)
(** ** The PostgreSQL side *)

Module Pg.

(** A bound parameter as the driver receives it from JavaScript. *)
Inductive Param : Type :=
| PText (s : string)
| PNum (n : Z).

(** The server behind the pool: its data, its clock ([CURRENT_DATE]),
    its input functions for integer and date literals, and the order in
    which it happens to emit rows that compare equal under ORDER BY
    (SQL leaves that order to the implementation). *)
Record Server : Type := {
  store : Store;
  today : Z;
  int_in : string -> option Z;
  date_in : string -> option Z;
  tie : Row -> Row -> bool
}.

Inductive Result : Type :=
| Error
| Rows (rows : list Row).

(* --------------------------------------------------------------- *)
(** *** LIKE and ILIKE *)

Definition backslash : ascii := "092"%char.

(** [like p t]: the text [t] matches the LIKE pattern [p].  [%] matches
    any run of characters, [_] any one character, a backslash makes the
    next character literal.  A pattern that ends in a lone backslash is
    an error in PostgreSQL; no pattern built by the handlers ends so
    (each ends in [%]) and the model answers [false] there. *)
Fixpoint like (p : string) : string -> bool :=
  match p with
  | EmptyString =>
      fun t => match t with EmptyString => true | String _ _ => false end
  | String c p' =>
      if Ascii.eqb c "%" then
        fix any (t : string) : bool :=
          (like p' t ||
           match t with
           | EmptyString => false
           | String _ t' => any t'
           end)%bool
      else if Ascii.eqb c "_" then
        fun t =>
          match t with
          | EmptyString => false
          | String _ t' => like p' t'
          end
      else if Ascii.eqb c backslash then
        match p' with
        | EmptyString => fun _ => false
        | String e p'' =>
            fun t =>
              match t with
              | EmptyString => false
              | String d t' => (Ascii.eqb e d && like p'' t')%bool
              end
        end
      else
        fun t =>
          match t with
          | EmptyString => false
          | String d t' => (Ascii.eqb c d && like p' t')%bool
          end
  end.

(** Lower case of an ASCII letter. *)
Definition lower (c : ascii) : ascii :=
  let n := nat_of_ascii c in
  if (Nat.leb 65 n && Nat.leb n 90)%bool then ascii_of_nat (n + 32) else c.

Fixpoint lower_string (s : string) : string :=
  match s with
  | EmptyString => EmptyString
  | String c r => String (lower c) (lower_string r)
  end.

(** [t ILIKE p]: LIKE on the lower-cased text and pattern. *)
Definition ilike (t p : string) : bool :=
  like (lower_string p) (lower_string t).

(* --------------------------------------------------------------- *)
(** *** Reading the statements *)

(** White space between the words of a statement. *)
Definition is_blank (c : ascii) : bool :=
  let n := nat_of_ascii c in
  (Nat.eqb n 32 || Nat.eqb n 10 || Nat.eqb n 9 || Nat.eqb n 13)%bool.

Definition flush (cur : string) : list string :=
  match cur with
  | EmptyString => []
  | String _ _ => [cur]
  end.

(** The words of a statement, split at white space. *)
Fixpoint words_from (cur : string) (s : string) : list string :=
  match s with
  | EmptyString => flush cur
  | String c r =>
      if is_blank c then flush cur ++ words_from EmptyString r
      else words_from (cur ++ String c EmptyString) r
  end.

Definition words (s : string) : list string := words_from EmptyString s.

(** [expect pre ws]: [ws] starts with the words [pre]; what follows. *)
Fixpoint expect (pre ws : list string) : option (list string) :=
  match pre with
  | [] => Some ws
  | p :: pre' =>
      match ws with
      | w :: ws' => if String.eqb p w then expect pre' ws' else None
      | [] => None
      end
  end.

(** A placeholder [$n], [n >= 1]. *)
Definition placeholder (w : string) : option nat :=
  match w with
  | String c ds =>
      if Ascii.eqb c "$" then
        match NilEmpty.uint_of_string ds with
        | Some u => match Nat.of_uint u with O => None | S k => Some (S k) end
        | None => None
        end
      else None
  | EmptyString => None
  end.

(** The filter predicates of the order listing. *)
Inductive Filter : Type :=
| StatusEq (ph : nat)
| CustomerIdEq (ph : nat)
| OrderDateGe (ph : nat)
| OrderDateLe (ph : nat).

Definition filter_of (col op : string) (ph : nat) : option Filter :=
  if (String.eqb col "o.status" && String.eqb op "=")%bool
  then Some (StatusEq ph)
  else if (String.eqb col "o.customer_id" && String.eqb op "=")%bool
  then Some (CustomerIdEq ph)
  else if (String.eqb col "o.order_date" && String.eqb op ">=")%bool
  then Some (OrderDateGe ph)
  else if (String.eqb col "o.order_date" && String.eqb op "<=")%bool
  then Some (OrderDateLe ph)
  else None.

(** A run of [AND o.col op $n]; what follows it. *)
Fixpoint read_filters (ws : list string) : list Filter * list string :=
  match ws with
  | a :: col :: op :: ph :: rest =>
      if String.eqb a "AND" then
        match placeholder ph with
        | Some n =>
            match filter_of col op n with
            | Some f =>
                let (fs, rest') := read_filters rest in (f :: fs, rest')
            | None => ([], ws)
            end
        | None => ([], ws)
        end
      else ([], ws)
  | _ => ([], ws)
  end.

(** [LIMIT $a OFFSET $b] at the end of a statement. *)
Definition read_window (ws : list string) : option (nat * nat) :=
  match ws with
  | [l; a; o; b] =>
      if (String.eqb l "LIMIT" && String.eqb o "OFFSET")%bool then
        match placeholder a, placeholder b with
        | Some i, Some j => Some (i, j)
        | _, _ => None
        end
      else None
  | _ => None
  end.

(** [WHERE c.name ILIKE $i OR c.email ILIKE $j], when the statement has
    it; what follows. *)
Definition read_search (ws : list string)
  : option (option (nat * nat) * list string) :=
  match ws with
  | w :: n :: l1 :: a :: o :: e :: l2 :: b :: rest =>
      if String.eqb w "WHERE" then
        if (String.eqb n "c.name" && String.eqb l1 "ILIKE" &&
            String.eqb o "OR" && String.eqb e "c.email" &&
            String.eqb l2 "ILIKE")%bool then
          match placeholder a, placeholder b with
          | Some i, Some j => Some (Some (i, j), rest)
          | _, _ => None
          end
        else None
      else Some (None, ws)
  | w :: _ => if String.eqb w "WHERE" then None else Some (None, ws)
  | [] => Some (None, ws)
  end.

(** The tables a plain [COUNT] runs over. *)
Inductive Table : Type :=
| TOrders
| TCustomers.

Definition table_of (w : string) : option Table :=
  if String.eqb w "orders" then Some TOrders
  else if String.eqb w "customers" then Some TCustomers
  else None.

(** The statements of the application. *)
Inductive Stmt : Type :=
| SelectOrders (fs : list Filter) (ordered : bool) (win : option (nat * nat))
| CountOrders (fs : list Filter)
| SelectCustomers (search : option (nat * nat)) (win : nat * nat)
| CountCustomers (search : option (nat * nat))
| CountAll (alias : string) (t : Table)
| SumTotalStatusIn (alias : string) (ph1 ph2 : nat)
| CountStatusEq (alias : string) (ph : nat)
| OrdersOverTime (days : Z)
| RevenueByCustomer (ph : nat).

Definition orders_join : list string :=
  ["FROM"; "orders"; "o"; "JOIN"; "customers"; "c";
   "ON"; "o.customer_id"; "="; "c.id"; "WHERE"; "1=1"]%string.

Definition read_select_orders (ws : list string) : option Stmt :=
  match expect (["SELECT"; "o.*,"; "c.name"; "as"; "customer_name,";
                 "c.email"; "as"; "customer_email"]%string ++ orders_join) ws with
  | Some ws1 =>
      let (fs, ws2) := read_filters ws1 in
      match ws2 with
      | [] => Some (SelectOrders fs false None)
      | _ =>
          match expect ["ORDER"; "BY"; "o.created_at"; "DESC"]%string ws2 with
          | Some [] => Some (SelectOrders fs true None)
          | Some ws3 =>
              match read_window ws3 with
              | Some w => Some (SelectOrders fs true (Some w))
              | None => None
              end
          | None => None
          end
      end
  | None => None
  end.

Definition read_count_orders (ws : list string) : option Stmt :=
  match expect (["SELECT"; "COUNT(*)"]%string ++ orders_join) ws with
  | Some ws1 =>
      match read_filters ws1 with
      | (fs, []) => Some (CountOrders fs)
      | (_, _ :: _) => None
      end
  | None => None
  end.

Definition read_select_customers (ws : list string) : option Stmt :=
  match expect ["SELECT"; "c.*,"; "COUNT(o.id)"; "as"; "order_count,";
                "COALESCE(SUM(o.total),"; "0)"; "as"; "total_spent";
                "FROM"; "customers"; "c"; "LEFT"; "JOIN"; "orders"; "o";
                "ON"; "c.id"; "="; "o.customer_id"]%string ws with
  | Some ws1 =>
      match read_search ws1 with
      | Some (se, ws2) =>
          match expect ["GROUP"; "BY"; "c.id";
                        "ORDER"; "BY"; "c.created_at"; "DESC"]%string ws2 with
          | Some ws3 =>
              match read_window ws3 with
              | Some w => Some (SelectCustomers se w)
              | None => None
              end
          | None => None
          end
      | None => None
      end
  | None => None
  end.

Definition read_count_customers (ws : list string) : option Stmt :=
  match expect ["SELECT"; "COUNT(*)"; "FROM"; "customers"; "c"]%string ws with
  | Some ws1 =>
      match read_search ws1 with
      | Some (se, []) => Some (CountCustomers se)
      | _ => None
      end
  | None => None
  end.

(** A count under an alias: over a whole table, or over the orders of
    one status ([WHERE status = $n]). *)
Definition read_count_as (ws : list string) : option Stmt :=
  match expect ["SELECT"; "COUNT(*)"; "as"]%string ws with
  | Some [a; f; t] =>
      if String.eqb f "FROM" then
        match table_of t with
        | Some tb => Some (CountAll a tb)
        | None => None
        end
      else None
  | Some (a :: ws1) =>
      match expect ["FROM"; "orders"; "WHERE"; "status"; "="]%string ws1 with
      | Some [ph] =>
          match placeholder ph with
          | Some n => Some (CountStatusEq a n)
          | None => None
          end
      | _ => None
      end
  | _ => None
  end.

Definition read_sum_total (ws : list string) : option Stmt :=
  match expect ["SELECT"; "COALESCE(SUM(total),"; "0)"; "as"]%string ws with
  | Some (a :: ws1) =>
      match expect ["FROM"; "orders"; "WHERE"; "status"; "IN";
                    "($1,"; "$2)"]%string ws1 with
      | Some [] => Some (SumTotalStatusIn a 1 2)
      | _ => None
      end
  | _ => None
  end.

(** The interval literal ['N days'] arrives as the two words ['N] and
    [days']. *)
Definition read_interval_days (w : string) : option Z :=
  match w with
  | String q ds =>
      if Ascii.eqb q "'" then
        match NilEmpty.int_of_string ds with
        | Some d => Some (Z.of_int d)
        | None => None
        end
      else None
  | EmptyString => None
  end.

Definition read_orders_over_time (ws : list string) : option Stmt :=
  match expect ["SELECT"; "DATE(order_date)"; "as"; "date,";
                "COUNT(*)"; "as"; "order_count,";
                "SUM(total)"; "as"; "revenue";
                "FROM"; "orders"; "WHERE"; "order_date"; ">=";
                "CURRENT_DATE"; "-"; "INTERVAL"]%string ws with
  | Some (n :: ws1) =>
      match read_interval_days n with
      | Some d =>
          match expect ["days'"; "GROUP"; "BY"; "DATE(order_date)";
                        "ORDER"; "BY"; "date"; "ASC"]%string ws1 with
          | Some [] => Some (OrdersOverTime d)
          | _ => None
          end
      | None => None
      end
  | _ => None
  end.

Definition read_revenue_by_customer (ws : list string) : option Stmt :=
  match expect ["SELECT"; "c.name,"; "SUM(o.total)"; "as"; "total_revenue,";
                "COUNT(o.id)"; "as"; "order_count";
                "FROM"; "customers"; "c"; "JOIN"; "orders"; "o";
                "ON"; "c.id"; "="; "o.customer_id";
                "WHERE"; "o.status"; "="; "'completed'";
                "GROUP"; "BY"; "c.id,"; "c.name";
                "ORDER"; "BY"; "total_revenue"; "DESC"; "LIMIT"]%string ws with
  | Some [ph] =>
      match placeholder ph with
      | Some n => Some (RevenueByCustomer n)
      | None => None
      end
  | _ => None
  end.

Definition first_some {A : Type} (a b : option A) : option A :=
  match a with
  | Some _ => a
  | None => b
  end.

(** The statement a text denotes, when it is one of the application's. *)
Definition pg_parse (sql : string) : option Stmt :=
  let ws := words sql in
  first_some (read_select_orders ws)
    (first_some (read_count_orders ws)
    (first_some (read_select_customers ws)
    (first_some (read_count_customers ws)
    (first_some (read_count_as ws)
    (first_some (read_sum_total ws)
    (first_some (read_orders_over_time ws)
                (read_revenue_by_customer ws))))))).

(* --------------------------------------------------------------- *)
(** *** Binding parameters *)

(** The value bound to [$n]. *)
Definition param (ps : list Param) (n : nat) : option Param :=
  nth_error ps (Nat.pred n).

(** The driver sends every parameter as text. *)
Definition as_text (p : Param) : string :=
  match p with
  | PText s => s
  | PNum n => JS.show n
  end.

(** A parameter compared with the integer key [customer_id]. *)
Definition as_int (srv : Server) (p : Param) : option Z :=
  int_in srv (as_text p).

(** A parameter compared with the date [order_date]. *)
Definition as_date (srv : Server) (p : Param) : option Z :=
  date_in srv (as_text p).

Definition int8_max : Z := 9223372036854775807.

(** A parameter of LIMIT or OFFSET: a bigint that must not be negative.
    The handlers always send these two as numbers. *)
Definition as_count (srv : Server) (p : Param) : option nat :=
  let v :=
    match p with
    | PNum n => if (- int8_max - 1 <=? n) && (n <=? int8_max) then Some n else None
    | PText s => int_in srv s
    end in
  match v with
  | Some n => if 0 <=? n then Some (Z.to_nat n) else None
  | None => None
  end.

Definition filter_ph (f : Filter) : nat :=
  match f with
  | StatusEq n | CustomerIdEq n | OrderDateGe n | OrderDateLe n => n
  end.

Definition max_ph (l : list nat) : nat := fold_right Nat.max O l.

Definition search_phs (se : option (nat * nat)) : list nat :=
  match se with
  | Some (i, j) => [i; j]
  | None => []
  end.

(** The number of parameters a statement takes: its highest placeholder. *)
Definition arity (s : Stmt) : nat :=
  match s with
  | SelectOrders fs _ win =>
      max_ph (map filter_ph fs ++ search_phs win)
  | CountOrders fs => max_ph (map filter_ph fs)
  | SelectCustomers se (i, j) => max_ph (search_phs se ++ [i; j])
  | CountCustomers se => max_ph (search_phs se)
  | CountAll _ _ => O
  | SumTotalStatusIn _ i j => Nat.max i j
  | CountStatusEq _ i => i
  | OrdersOverTime _ => O
  | RevenueByCustomer i => i
  end.

Definition bind_filter (srv : Server) (ps : list Param) (f : Filter)
  : option (Order -> bool) :=
  match f with
  | StatusEq n =>
      match param ps n with
      | Some p => Some (fun o => String.eqb (o_status o) (as_text p))
      | None => None
      end
  | CustomerIdEq n =>
      match param ps n with
      | Some p =>
          match as_int srv p with
          | Some k => Some (fun o => o_customer_id o =? k)
          | None => None
          end
      | None => None
      end
  | OrderDateGe n =>
      match param ps n with
      | Some p =>
          match as_date srv p with
          | Some d => Some (fun o => d <=? o_order_date o)
          | None => None
          end
      | None => None
      end
  | OrderDateLe n =>
      match param ps n with
      | Some p =>
          match as_date srv p with
          | Some d => Some (fun o => o_order_date o <=? d)
          | None => None
          end
      | None => None
      end
  end.

(** The conjunction of the filters, [WHERE 1=1 AND ... AND ...]. *)
Fixpoint bind_filters (srv : Server) (ps : list Param) (fs : list Filter)
  : option (Order -> bool) :=
  match fs with
  | [] => Some (fun _ => true)
  | f :: fs' =>
      match bind_filter srv ps f, bind_filters srv ps fs' with
      | Some p, Some q => Some (fun o => (p o && q o)%bool)
      | _, _ => None
      end
  end.

Definition bind_window (srv : Server) (ps : list Param) (win : nat * nat)
  : option (nat * nat) :=
  match param ps (fst win), param ps (snd win) with
  | Some l, Some f =>
      match as_count srv l, as_count srv f with
      | Some lim, Some off => Some (lim, off)
      | _, _ => None
      end
  | _, _ => None
  end.

Definition bind_search (ps : list Param) (se : option (nat * nat))
  : option (Customer -> bool) :=
  match se with
  | None => Some (fun _ => true)
  | Some (i, j) =>
      match param ps i, param ps j with
      | Some p, Some q =>
          Some (fun c => (ilike (c_name c) (as_text p)
                          || ilike (c_email c) (as_text q))%bool)
      | _, _ => None
      end
  end.

(* --------------------------------------------------------------- *)
(** *** Relational operators *)

(** [orders o JOIN customers c ON o.customer_id = c.id]. *)
Definition orders_join_customers (st : Store) : list (Order * Customer) :=
  flat_map
    (fun o => map (fun c => (o, c))
                  (filter (fun c => o_customer_id o =? c_id c) (customers st)))
    (orders st).

(** [customers c JOIN orders o ON c.id = o.customer_id]. *)
Definition customers_join_orders (st : Store) : list (Customer * Order) :=
  flat_map
    (fun c => map (fun o => (c, o))
                  (filter (fun o => c_id c =? o_customer_id o) (orders st)))
    (customers st).

(** [customers c LEFT JOIN orders o ON c.id = o.customer_id]: a customer
    without orders keeps one row, with NULLs for the order. *)
Definition customers_left_join_orders (st : Store)
  : list (Customer * option Order) :=
  flat_map
    (fun c =>
       match filter (fun o => c_id c =? o_customer_id o) (orders st) with
       | [] => [(c, None)]
       | os => map (fun o => (c, Some o)) os
       end)
    (customers st).

(** GROUP BY: the rows of each distinct key. *)
Definition groups {A K : Type} (dec : forall x y : K, {x = y} + {x <> y})
    (key : A -> K) (l : list A) : list (list A) :=
  map (fun k => filter (fun x => if dec (key x) k then true else false) l)
      (nodup dec (map key l)).

Definition sum_total (os : list Order) : Z :=
  fold_right (fun o acc => o_total o + acc) 0 os.

(** [SUM(total)]: NULL over no rows. *)
Definition sql_sum (os : list Order) : option Z :=
  match os with
  | [] => None
  | _ :: _ => Some (sum_total os)
  end.

(** [COALESCE(x, d)]. *)
Definition coalesce (x : option Z) (d : Z) : Z :=
  match x with
  | Some v => v
  | None => d
  end.

Definition opt_dec (x : option Z) : Value :=
  match x with
  | Some v => VDec v
  | None => VNull
  end.

(** The orders of a joined group that are not NULL: what [COUNT(o.id)]
    and [SUM(o.total)] range over. *)
Definition present (g : list (Customer * option Order)) : list Order :=
  flat_map (fun co => match snd co with Some o => [o] | None => [] end) g.

(** ORDER BY on one integer key.  Rows whose keys differ are ordered by
    the key; rows whose keys are equal are ordered as the server
    pleases ([tie]). *)
Definition before (desc : bool) (tb : Row -> Row -> bool)
    (a b : Z * Row) : bool :=
  if fst a =? fst b then tb (snd a) (snd b)
  else if desc then fst b <? fst a else fst a <? fst b.

Fixpoint insert_row (desc : bool) (tb : Row -> Row -> bool)
    (x : Z * Row) (l : list (Z * Row)) : list (Z * Row) :=
  match l with
  | [] => [x]
  | y :: l' =>
      if before desc tb x y then x :: l else y :: insert_row desc tb x l'
  end.

Fixpoint sort_rows (desc : bool) (tb : Row -> Row -> bool)
    (l : list (Z * Row)) : list (Z * Row) :=
  match l with
  | [] => []
  | x :: l' => insert_row desc tb x (sort_rows desc tb l')
  end.

Definition order_by (desc : bool) (tb : Row -> Row -> bool)
    (l : list (Z * Row)) : list Row :=
  map snd (sort_rows desc tb l).

(** LIMIT lim OFFSET off. *)
Definition window {A : Type} (lim off : nat) (l : list A) : list A :=
  firstn lim (skipn off l).

(* --------------------------------------------------------------- *)
(** *** Result rows of the statements *)

Definition order_row (oc : Order * Customer) : Row :=
  order_columns (fst oc) ++
  [ ("customer_name"%string, VText (c_name (snd oc)));
    ("customer_email"%string, VText (c_email (snd oc))) ].

Definition customer_row (c : Customer) (os : list Order) : Row :=
  customer_columns c ++
  [ ("order_count"%string, VInt (Z.of_nat (List.length os)));
    ("total_spent"%string, VDec (coalesce (sql_sum os) 0)) ].

Definition day_row (d : Z) (os : list Order) : Row :=
  [ ("date"%string, VDate d);
    ("order_count"%string, VInt (Z.of_nat (List.length os)));
    ("revenue"%string, opt_dec (sql_sum os)) ].

Definition revenue_row (name : string) (os : list Order) : Row :=
  [ ("name"%string, VText name);
    ("total_revenue"%string, opt_dec (sql_sum os));
    ("order_count"%string, VInt (Z.of_nat (List.length os))) ].

Definition count_row (alias : string) (n : nat) : Row :=
  [ (alias, VInt (Z.of_nat n)) ].

Definition key_dec : forall x y : Z * string, {x = y} + {x <> y}.
Proof.
  decide equality; [apply string_dec | apply Z.eq_dec].
Defined.

(** One row per group of the customer listing: the customer's columns
    and the aggregates over the orders joined to it. *)
Definition customer_groups (sel : list (Customer * option Order))
  : list (Z * Row) :=
  flat_map
    (fun g =>
       match g with
       | [] => []
       | (c, _) :: _ => [(c_created_at c, customer_row c (present g))]
       end)
    (groups Z.eq_dec (fun co => c_id (fst co)) sel).

(** One row per calendar date. *)
Definition day_groups (sel : list Order) : list (Z * Row) :=
  flat_map
    (fun g =>
       match g with
       | [] => []
       | o :: _ => [(o_order_date o, day_row (o_order_date o) g)]
       end)
    (groups Z.eq_dec o_order_date sel).

(** One row per customer (id, name), keyed by the revenue it is
    ordered by. *)
Definition revenue_groups (sel : list (Customer * Order)) : list (Z * Row) :=
  flat_map
    (fun g =>
       match g with
       | [] => []
       | (c, _) :: _ =>
           [(sum_total (map snd g), revenue_row (c_name c) (map snd g))]
       end)
    (groups key_dec (fun co => (c_id (fst co), c_name (fst co))) sel).

(* --------------------------------------------------------------- *)
(** *** Running a statement *)

Definition exec (srv : Server) (s : Stmt) (ps : list Param) : Result :=
  let st := store srv in
  if negb (Nat.eqb (List.length ps) (arity s)) then Error
  else
    match s with
    | SelectOrders fs ordered win =>
        match bind_filters srv ps fs with
        | Some pred =>
            let sel := filter (fun oc => pred (fst oc))
                              (orders_join_customers st) in
            let keyed :=
              map (fun oc => (o_created_at (fst oc), order_row oc)) sel in
            let rows :=
              if ordered then order_by true (tie srv) keyed
              else map snd keyed in
            match win with
            | None => Rows rows
            | Some w =>
                match bind_window srv ps w with
                | Some (lim, off) => Rows (window lim off rows)
                | None => Error
                end
            end
        | None => Error
        end
    | CountOrders fs =>
        match bind_filters srv ps fs with
        | Some pred =>
            let sel := filter (fun oc => pred (fst oc))
                              (orders_join_customers st) in
            Rows [count_row "count" (List.length sel)]
        | None => Error
        end
    | SelectCustomers se w =>
        match bind_search ps se, bind_window srv ps w with
        | Some pred, Some (lim, off) =>
            let sel := filter (fun co => pred (fst co))
                              (customers_left_join_orders st) in
            Rows (window lim off
                    (order_by true (tie srv) (customer_groups sel)))
        | _, _ => Error
        end
    | CountCustomers se =>
        match bind_search ps se with
        | Some pred =>
            Rows [count_row "count"
                    (List.length (filter pred (customers st)))]
        | None => Error
        end
    | CountAll a TOrders => Rows [count_row a (List.length (orders st))]
    | CountAll a TCustomers => Rows [count_row a (List.length (customers st))]
    | SumTotalStatusIn a i j =>
        match param ps i, param ps j with
        | Some p, Some q =>
            let sel :=
              filter (fun o => (String.eqb (o_status o) (as_text p)
                                || String.eqb (o_status o) (as_text q))%bool)
                     (orders st) in
            Rows [[(a, VDec (coalesce (sql_sum sel) 0))]]
        | _, _ => Error
        end
    | CountStatusEq a i =>
        match param ps i with
        | Some p =>
            Rows [count_row a
                    (List.length
                       (filter (fun o => String.eqb (o_status o) (as_text p))
                               (orders st)))]
        | None => Error
        end
    | OrdersOverTime days =>
        let sel := filter (fun o => today srv - days <=? o_order_date o)
                          (orders st) in
        Rows (order_by false (tie srv) (day_groups sel))
    | RevenueByCustomer i =>
        match param ps i with
        | Some p =>
            match as_count srv p with
            | Some lim =>
                let sel :=
                  filter (fun co => String.eqb (o_status (snd co)) "completed")
                         (customers_join_orders st) in
                Rows (firstn lim
                        (order_by true (tie srv) (revenue_groups sel)))
            | None => Error
            end
        | None => Error
        end
    end.

(** [pool.query(text, params)]: a text outside the statements read by
    [pg_parse] is outside the model and answers [Error]. *)
Definition pool_query (srv : Server) (sql : string) (ps : list Param)
  : Result :=
  match pg_parse sql with
  | Some s => exec srv s ps
  | None => Error
  end.

End Pg.

(* ================================================================= *)
(** ** The HTTP side *)

(** [req.query]: the value of each query-string parameter, if present. *)
Definition Query : Type := string -> option string.

(** The query object of a list of [name=value] pairs. *)
Fixpoint query_of (l : list (string * string)) : Query :=
  fun name =>
    match l with
    | (k, v) :: l' => if String.eqb k name then Some v else query_of l' name
    | [] => None
    end.

Record Pagination : Type := {
  currentPage : Z;
  totalPages : JS.num;
  totalCount : JS.num;
  hasNext : bool;
  hasPrev : bool
}.

(** The body of the dashboard summary.  [totalRevenue] comes from
    [parseFloat]; [None] stands for NaN. *)
Record Metrics : Type := {
  totalOrders : JS.num;
  totalCustomers : JS.num;
  totalRevenue : option Q;
  pendingOrders : JS.num
}.

(** What a handler sends: [res.json(...)] with status 200, or
    [res.status(500).json({ error })]. *)
Inductive Response : Type :=
| Listing (key : string) (rows : list Row) (pagination : Pagination)
| Series (rows : list Row)
| Summary (metrics : Metrics)
| Failure (status : Z) (error : string).

(** The pagination envelope both listings build from the parsed page, the
    parsed limit and the count the server answered. *)
Definition envelope (page limit : Z) (totalCount : JS.num) : Pagination :=
  let totalPages := JS.ceil_div totalCount limit in
  {| currentPage := page;
     totalPages := totalPages;
     totalCount := totalCount;
     hasNext := JS.lt_num page totalPages;
     hasPrev := 1 <? page |}.

(* ----------------------------------------------------------------- *)
(** *** Orders router *)

Module Orders.

Import Pg.

Definition select_text : string :=
  "
      SELECT o.*, c.name as customer_name, c.email as customer_email
      FROM orders o
      JOIN customers c ON o.customer_id = c.id
      WHERE 1=1
    ".

Definition count_text : string :=
  "
      SELECT COUNT(*)
      FROM orders o
      JOIN customers c ON o.customer_id = c.id
      WHERE 1=1
    ".

(** The locals the handler updates while it adds filters. *)
Record Build : Type := {
  query : string;
  countQuery : string;
  queryParams : list Param;
  paramIndex : Z
}.

(** One [if (v) { ... }] block: the clause goes to both texts with the
    current placeholder, the value is pushed, the index advances. *)
Definition add_filter (v : string) (clause : string) (b : Build) : Build :=
  if JS.truthy v then
    {| query := (query b ++ clause ++ JS.show (paramIndex b))%string;
       countQuery := (countQuery b ++ clause ++ JS.show (paramIndex b))%string;
       queryParams := queryParams b ++ [PText v];
       paramIndex := paramIndex b + 1 |}
  else b.

Definition page_of (q : Query) : Z := JS.or_num (JS.parseInt (q "page"%string)) 1.
Definition limit_of (q : Query) : Z := JS.or_num (JS.parseInt (q "limit"%string)) 10.

(** The filters accumulated, before the ordering and the window. *)
Definition filters (q : Query) : Build :=
  let status := JS.or_empty (q "status"%string) in
  let customerId := JS.or_empty (q "customer_id"%string) in
  let startDate := JS.or_empty (q "start_date"%string) in
  let endDate := JS.or_empty (q "end_date"%string) in
  let b0 := {| query := select_text; countQuery := count_text;
               queryParams := []; paramIndex := 1 |} in
  let b1 := add_filter status " AND o.status = $" b0 in
  let b2 := add_filter customerId " AND o.customer_id = $" b1 in
  let b3 := add_filter startDate " AND o.order_date >= $" b2 in
  add_filter endDate " AND o.order_date <= $" b3.

(** The two statements the handler runs, each with its parameters. *)
Definition statements (q : Query)
  : (string * list Param) * (string * list Param) :=
  let page := page_of q in
  let limit := limit_of q in
  let offset := (page - 1) * limit in
  let b := filters q in
  let query' :=
    (query b ++ " ORDER BY o.created_at DESC LIMIT $" ++ JS.show (paramIndex b)
             ++ " OFFSET $" ++ JS.show (paramIndex b + 1))%string in
  let queryParams' := queryParams b ++ [PNum limit; PNum offset] in
  ((query', queryParams'), (countQuery b, JS.slice_0_m2 queryParams')).

(** [router.get('/')] of the orders router. *)
Definition handler (srv : Server) (q : Query) : Response :=
  let page := page_of q in
  let limit := limit_of q in
  let '((query', queryParams'), (countQuery', countParams)) := statements q in
  match pool_query srv query' queryParams',
        pool_query srv countQuery' countParams with
  | Rows ordersRows, Rows (row0 :: _) =>
      let totalCount := parseInt_field row0 "count" in
      Listing "orders" ordersRows (envelope page limit totalCount)
  | _, _ => Failure 500 "Failed to fetch orders"
  end.

End Orders.

(* ----------------------------------------------------------------- *)
(** *** Customers router *)

Module Customers.

Import Pg.

Definition select_text : string :=
  "
      SELECT c.*, 
             COUNT(o.id) as order_count,
             COALESCE(SUM(o.total), 0) as total_spent
      FROM customers c
      LEFT JOIN orders o ON c.id = o.customer_id
    ".

Definition page_of (q : Query) : Z := JS.or_num (JS.parseInt (q "page"%string)) 1.
Definition limit_of (q : Query) : Z := JS.or_num (JS.parseInt (q "limit"%string)) 10.

(** The two statements the handler runs, each with its parameters. *)
Definition statements (q : Query)
  : (string * list Param) * (string * list Param) :=
  let page := page_of q in
  let limit := limit_of q in
  let offset := (page - 1) * limit in
  let search := JS.or_empty (q "search"%string) in
  let query := select_text in
  let countQuery := "SELECT COUNT(*) FROM customers c"%string in
  let '(query, countQuery, queryParams, countParams) :=
    if JS.truthy search then
      ((query ++ " WHERE c.name ILIKE $1 OR c.email ILIKE $1")%string,
       (countQuery ++ " WHERE c.name ILIKE $1 OR c.email ILIKE $1")%string,
       [PText ("%" ++ search ++ "%")%string],
       [PText ("%" ++ search ++ "%")%string])
    else (query, countQuery, [], []) in
  let query :=
    (query ++ " GROUP BY c.id ORDER BY c.created_at DESC LIMIT $"
           ++ JS.show (Z.of_nat (List.length queryParams) + 1)
           ++ " OFFSET $"
           ++ JS.show (Z.of_nat (List.length queryParams) + 2))%string in
  let queryParams := queryParams ++ [PNum limit; PNum offset] in
  ((query, queryParams), (countQuery, countParams)).

(** [router.get('/')] of the customers router. *)
Definition handler (srv : Server) (q : Query) : Response :=
  let page := page_of q in
  let limit := limit_of q in
  let '((query, queryParams), (countQuery, countParams)) := statements q in
  match pool_query srv query queryParams,
        pool_query srv countQuery countParams with
  | Rows customersRows, Rows (row0 :: _) =>
      let totalCount := parseInt_field row0 "count" in
      Listing "customers" customersRows (envelope page limit totalCount)
  | _, _ => Failure 500 "Failed to fetch customers"
  end.

End Customers.

(* ----------------------------------------------------------------- *)
(** *** Dashboard router *)

Module Dashboard.

Import Pg.

Definition queries : list string :=
  [ "SELECT COUNT(*) as total_orders FROM orders";
    "SELECT COUNT(*) as total_customers FROM customers";
    "SELECT COALESCE(SUM(total), 0) as total_revenue FROM orders WHERE status IN ($1, $2)";
    "SELECT COUNT(*) as pending_orders FROM orders WHERE status = $1"
  ]%string.

Definition queries_at (i : nat) : string := nth i queries EmptyString.

(** [router.get('/')] of the dashboard router. *)
Definition handler (srv : Server) : Response :=
  match pool_query srv (queries_at 0) [],
        pool_query srv (queries_at 1) [],
        pool_query srv (queries_at 2) [PText "completed"; PText "shipped"],
        pool_query srv (queries_at 3) [PText "pending"] with
  | Rows (o0 :: _), Rows (c0 :: _), Rows (r0 :: _), Rows (p0 :: _) =>
      Summary
        {| totalOrders := parseInt_field o0 "total_orders";
           totalCustomers := parseInt_field c0 "total_customers";
           totalRevenue := parseFloat_field r0 "total_revenue";
           pendingOrders := parseInt_field p0 "pending_orders" |}
  | _, _, _, _ => Failure 500 "Failed to fetch dashboard metrics"
  end.

End Dashboard.

(* ----------------------------------------------------------------- *)
(** *** Charts router *)

Module Charts.

Import Pg.

Definition days_of (q : Query) : Z := JS.or_num (JS.parseInt (q "days"%string)) 30.

Definition orders_over_time_text (days : Z) : string :=
  ("
      SELECT 
        DATE(order_date) as date,
        COUNT(*) as order_count,
        SUM(total) as revenue
      FROM orders 
      WHERE order_date >= CURRENT_DATE - INTERVAL '" ++ JS.show days ++ " days'
      GROUP BY DATE(order_date)
      ORDER BY date ASC
    ")%string.

(** [router.get('/orders-over-time')]. *)
Definition orders_over_time (srv : Server) (q : Query) : Response :=
  let days := days_of q in
  match pool_query srv (orders_over_time_text days) [] with
  | Rows rows => Series rows
  | Error => Failure 500 "Failed to fetch orders over time data"
  end.

Definition limit_of (q : Query) : Z := JS.or_num (JS.parseInt (q "limit"%string)) 10.

Definition revenue_by_customer_text : string :=
  "
      SELECT 
        c.name,
        SUM(o.total) as total_revenue,
        COUNT(o.id) as order_count
      FROM customers c
      JOIN orders o ON c.id = o.customer_id
      WHERE o.status = 'completed'
      GROUP BY c.id, c.name
      ORDER BY total_revenue DESC
      LIMIT $1
    ".

(** [router.get('/revenue-by-customer')]. *)
Definition revenue_by_customer (srv : Server) (q : Query) : Response :=
  let limit := limit_of q in
  match pool_query srv revenue_by_customer_text [PNum limit] with
  | Rows rows => Series rows
  | Error => Failure 500 "Failed to fetch revenue by customer data"
  end.

End Charts.

(* ----------------------------------------------------------------- *)
(** *** Dashboard component: derived metrics *)

Module DashboardView.

(** [DashboardMetrics] as the component receives it. *)
Record DashboardMetrics : Type := {
  totalOrders : Z;
  totalCustomers : Z;
  totalRevenue : Q;
  pendingOrders : Z
}.

(** The JSON body of the summary read back by the client; a NaN is
    serialised as [null] and is not a number. *)
Definition of_summary (m : Metrics) : option DashboardMetrics :=
  match m with
  | Build_Metrics (JS.Int o) (JS.Int c) (Some r) (JS.Int p) =>
      Some {| totalOrders := o; totalCustomers := c;
              totalRevenue := r; pendingOrders := p |}
  | _ => None
  end.

(** [metrics.totalOrders || 1]. *)
Definition denominator (metrics : DashboardMetrics) : Z :=
  JS.or_num (JS.Int (totalOrders metrics)) 1.

Definition averageOrderValue (metrics : DashboardMetrics) : Q :=
  totalRevenue metrics / inject_Z (denominator metrics).

Definition completionRate (metrics : DashboardMetrics) : Q :=
  (inject_Z (totalOrders metrics - pendingOrders metrics)
   / inject_Z (denominator metrics)) * inject_Z 100.

End DashboardView.

(* ================================================================= *)
(** ** JavaScript strings *)

Module JSString.

(** [s.trim()]: white space removed at both ends (the ASCII part of the
    white space and line terminators of JavaScript). *)
Definition trimStart (s : string) : string := JS.skip_spaces s.

Fixpoint trimEnd (s : string) : string :=
  match s with
  | EmptyString => EmptyString
  | String c r =>
      match trimEnd r with
      | EmptyString =>
          if JS.is_space c then EmptyString else String c EmptyString
      | String _ _ as r' => String c r'
      end
  end.

Definition trim (s : string) : string := trimEnd (trimStart s).

(** [s.split(sep)] for a separator of one character: the pieces between
    the separators, at least one. *)
Fixpoint split_from (sep : ascii) (cur : string) (s : string) : list string :=
  match s with
  | EmptyString => [cur]
  | String c r =>
      if Ascii.eqb c sep then cur :: split_from sep EmptyString r
      else split_from sep (cur ++ String c EmptyString) r
  end.

Definition split (sep : ascii) (s : string) : list string :=
  split_from sep EmptyString s.

(** [parts.join(sep)]. *)
Fixpoint join (sep : ascii) (parts : list string) : string :=
  match parts with
  | [] => EmptyString
  | x :: rest =>
      match rest with
      | [] => x
      | _ :: _ => (x ++ String sep (join sep rest))%string
      end
  end.

(** [s.startsWith(p)]. *)
Fixpoint startsWith (p s : string) : bool :=
  match p with
  | EmptyString => true
  | String a p' =>
      match s with
      | EmptyString => false
      | String b s' => Ascii.eqb a b && startsWith p' s'
      end
  end.

(** [s.endsWith(p)] for a [p] of one character. *)
Fixpoint endsWith (p : ascii) (s : string) : bool :=
  match s with
  | EmptyString => false
  | String c EmptyString => Ascii.eqb c p
  | String _ r => endsWith p r
  end.

(** [t.slice(1, -1)]: without the first and the last character. *)
Fixpoint drop_last (s : string) : string :=
  match s with
  | EmptyString => EmptyString
  | String _ EmptyString => EmptyString
  | String c r => String c (drop_last r)
  end.

Definition slice_1_m1 (t : string) : string :=
  match t with
  | EmptyString => EmptyString
  | String _ r => drop_last r
  end.

End JSString.

(* ================================================================= *)
(** ** The statements grouped by status *)

Module StatusGroups.

Import Pg.

(** The two statements that group the orders by status: the revenue
    breakdown of the dashboard router and the status distribution of the
    charts router. *)
Inductive Stmt : Type :=
| RevenueBreakdown
| OrderStatus.

Definition read_revenue_breakdown (ws : list string) : option Stmt :=
  match expect ["SELECT"; "status,"; "COUNT(*)"; "as"; "order_count,";
                "COALESCE(SUM(total),"; "0)"; "as"; "total_revenue";
                "FROM"; "orders"; "GROUP"; "BY"; "status";
                "ORDER"; "BY"; "total_revenue"; "DESC"]%string ws with
  | Some [] => Some RevenueBreakdown
  | _ => None
  end.

Definition read_order_status (ws : list string) : option Stmt :=
  match expect ["SELECT"; "status,"; "COUNT(*)"; "as"; "count,";
                "SUM(total)"; "as"; "total_value";
                "FROM"; "orders"; "GROUP"; "BY"; "status";
                "ORDER"; "BY"; "count"; "DESC"]%string ws with
  | Some [] => Some OrderStatus
  | _ => None
  end.

Definition parse (sql : string) : option Stmt :=
  let ws := words sql in
  first_some (read_revenue_breakdown ws) (read_order_status ws).

(** One row per status of the revenue breakdown, keyed by the revenue it
    is ordered by. *)
Definition revenue_breakdown_groups (os : list Order) : list (Z * Row) :=
  flat_map
    (fun g =>
       match g with
       | [] => []
       | o :: _ =>
           [(coalesce (sql_sum g) 0,
             [ ("status"%string, VText (o_status o));
               ("order_count"%string, VInt (Z.of_nat (List.length g)));
               ("total_revenue"%string, VDec (coalesce (sql_sum g) 0)) ])]
       end)
    (groups string_dec o_status os).

(** One row per status of the status distribution, keyed by the count it
    is ordered by. *)
Definition order_status_groups (os : list Order) : list (Z * Row) :=
  flat_map
    (fun g =>
       match g with
       | [] => []
       | o :: _ =>
           [(Z.of_nat (List.length g),
             [ ("status"%string, VText (o_status o));
               ("count"%string, VInt (Z.of_nat (List.length g)));
               ("total_value"%string, opt_dec (sql_sum g)) ])]
       end)
    (groups string_dec o_status os).

(** Neither statement has a placeholder. *)
Definition exec (srv : Server) (s : Stmt) (ps : list Param) : Result :=
  match ps with
  | _ :: _ => Error
  | [] =>
      match s with
      | RevenueBreakdown =>
          Rows (order_by true (tie srv)
                  (revenue_breakdown_groups (orders (store srv))))
      | OrderStatus =>
          Rows (order_by true (tie srv)
                  (order_status_groups (orders (store srv))))
      end
  end.

(** [pool.query(text, params)] of a server that also reads the two
    statements grouped by status. *)
Definition pool_query (srv : Server) (sql : string) (ps : list Param)
  : Result :=
  match pg_parse sql with
  | Some s => Pg.exec srv s ps
  | None =>
      match parse sql with
      | Some s => exec srv s ps
      | None => Error
      end
  end.

End StatusGroups.

(* ----------------------------------------------------------------- *)
(** *** Dashboard and charts routers: the routes grouped by status *)

Module Breakdown.

Import Pg.

Definition revenue_breakdown_text : string :=
  "
      SELECT 
        status,
        COUNT(*) as order_count,
        COALESCE(SUM(total), 0) as total_revenue
      FROM orders 
      GROUP BY status 
      ORDER BY total_revenue DESC
    ".

(** [router.get('/revenue-breakdown')] of the dashboard router. *)
Definition revenue_breakdown (srv : Server) : Response :=
  match StatusGroups.pool_query srv revenue_breakdown_text [] with
  | Rows rows => Series rows
  | Error => Failure 500 "Failed to fetch revenue breakdown"
  end.

Definition order_status_text : string :=
  "
      SELECT 
        status,
        COUNT(*) as count,
        SUM(total) as total_value
      FROM orders
      GROUP BY status
      ORDER BY count DESC
    ".

(** [router.get('/order-status')] of the charts router. *)
Definition order_status (srv : Server) : Response :=
  match StatusGroups.pool_query srv order_status_text [] with
  | Rows rows => Series rows
  | Error => Failure 500 "Failed to fetch order status data"
  end.

End Breakdown.

(* ================================================================= *)
(** ** The client *)

(* ----------------------------------------------------------------- *)
(** *** API service *)

Module Api.

(** [OrderFilters]: every field is optional; an absent field is
    [undefined]. *)
Record OrderFilters : Type := {
  status : option string;
  customer_id : option string;
  start_date : option string;
  end_date : option string;
  page : option Z;
  limit : option Z
}.

(** [PaginationInfo] as the tables receive it. *)
Record PaginationInfo : Type := {
  currentPage : Z;
  totalPages : Z;
  totalCount : Z;
  hasNext : bool;
  hasPrev : bool
}.

(** The JSON body of a pagination envelope read back by the client; a
    NaN is serialised as [null] and is not a number. *)
Definition paginationInfo (pg : Pagination) : option PaginationInfo :=
  match pg with
  | Build_Pagination p (JS.Int tp) (JS.Int tc) n v =>
      Some {| currentPage := p; totalPages := tp; totalCount := tc;
              hasNext := n; hasPrev := v |}
  | _ => None
  end.

(** What [getOrders] appends for a text field: nothing when the value is
    [undefined] or ['']. *)
Definition text_entry (key : string) (value : option string)
  : list (string * string) :=
  match value with
  | Some s => if String.eqb s EmptyString then [] else [(key, s)]
  | None => []
  end.

(** What [getOrders] appends for a number field: its [toString()]. *)
Definition number_entry (key : string) (value : option Z)
  : list (string * string) :=
  match value with
  | Some n => [(key, JS.show n)]
  | None => []
  end.

(** The parameters [getOrders] sends.  The order of the entries of the
    filters object does not show in the query object the server reads. *)
Definition getOrders_params (filters : OrderFilters)
  : list (string * string) :=
  text_entry "status" (status filters)
  ++ text_entry "customer_id" (customer_id filters)
  ++ text_entry "start_date" (start_date filters)
  ++ text_entry "end_date" (end_date filters)
  ++ number_entry "page" (page filters)
  ++ number_entry "limit" (limit filters).

(** [getOrders(filters)]: the answer of the orders router to the query
    string built from the filters.  The query string is given by its
    parameters: each value is encoded by [URLSearchParams] and decoded
    back by the server. *)
Definition getOrders (srv : Pg.Server) (filters : OrderFilters) : Response :=
  Orders.handler srv (query_of (getOrders_params filters)).

(** A parameter with a default value: [undefined] takes the default. *)
Definition default {A : Type} (d : A) (v : option A) : A :=
  match v with
  | Some x => x
  | None => d
  end.

(** The parameters [getCustomers(page = 1, limit = 10, search = '')]
    sends: [search] only when it is not empty. *)
Definition getCustomers_params (page limit : option Z) (search : option string)
  : list (string * string) :=
  let page := default 1 page in
  let limit := default 10 limit in
  let search := default EmptyString search in
  [("page"%string, JS.show page); ("limit"%string, JS.show limit)]
  ++ (if JS.truthy search then [("search"%string, search)] else []).

Definition getCustomers (srv : Pg.Server) (page limit : option Z)
    (search : option string) : Response :=
  Customers.handler srv (query_of (getCustomers_params page limit search)).

(** The parameter [getOrdersOverTime(days = 30)] sends. *)
Definition getOrdersOverTime_params (days : option Z)
  : list (string * string) :=
  let days := default 30 days in
  [("days"%string, JS.show days)].

Definition getOrdersOverTime (srv : Pg.Server) (days : option Z) : Response :=
  Charts.orders_over_time srv (query_of (getOrdersOverTime_params days)).

(** The parameter [getRevenueByCustomer(limit = 10)] sends. *)
Definition getRevenueByCustomer_params (limit : option Z)
  : list (string * string) :=
  let limit := default 10 limit in
  [("limit"%string, JS.show limit)].

Definition getRevenueByCustomer (srv : Pg.Server) (limit : option Z)
  : Response :=
  Charts.revenue_by_customer srv (query_of (getRevenueByCustomer_params limit)).

End Api.

(* ----------------------------------------------------------------- *)
(** *** Orders table *)

Module OrdersTable.

(** [filters.limit || 10]. *)
Definition activePageSize (filters : Api.OrderFilters) : Z :=
  match Api.limit filters with
  | Some n => JS.or_num (JS.Int n) 10
  | None => 10
  end.

(** The range the footer shows: "Showing [from] to [to] of
    [totalCount] results". *)
Definition showing_from (pagination : Api.PaginationInfo)
    (activePageSize : Z) : Z :=
  ((Api.currentPage pagination - 1) * activePageSize) + 1.

Definition showing_to (pagination : Api.PaginationInfo)
    (activePageSize : Z) : Z :=
  Z.min (Api.currentPage pagination * activePageSize)
        (Api.totalCount pagination).

(** The status of an order and the order itself, as the type [Order]
    declares them. *)
Inductive Status : Type :=
| Pending
| Completed
| Shipped
| Cancelled.


Record Order : Type := {
  id : Z;
  customer_id : Z;
  customer_name : option string;
  customer_email : option string;
  order_date : string;
  total : Q;
  status : Status;
  shipping_address : option string;
  payment_method : option string;
  created_at : string;
  updated_at : string
}.

(** A [Record<string, number>]: its own properties in the order they
    were created. *)
Fixpoint get (summary : list (string * Z)) (key : string) : option Z :=
  match summary with
  | [] => None
  | (k, v) :: rest => if String.eqb k key then Some v else get rest key
  end.

Fixpoint set (summary : list (string * Z)) (key : string) (value : Z)
  : list (string * Z) :=
  match summary with
  | [] => [(key, value)]
  | (k, v) :: rest =>
      if String.eqb k key then (k, value) :: rest
      else (k, v) :: set rest key value
  end.




End OrdersTable.

(* ----------------------------------------------------------------- *)
(** *** Customers table *)

Module CustomersTable.

(** [fetchCustomers(page = 1, searchTerm = '')]: always ten per page. *)
Definition fetchCustomers (srv : Pg.Server) (page : option Z)
    (searchTerm : option string) : Response :=
  let page := Api.default 1 page in
  let searchTerm := Api.default EmptyString searchTerm in
  Api.getCustomers srv (Some page) (Some 10) (Some searchTerm).

(** The state of the component the requests depend on. *)
Record State : Type := {
  searchInput : string;
  searchQuery : string;
  currentPage : Z
}.

(** [handleSearch]: back to page 1, with the trimmed input as the
    search. *)
Definition handleSearch (st : State) : State :=
  {| searchInput := searchInput st;
     searchQuery := JSString.trim (searchInput st);
     currentPage := 1 |}.

(** The parameters of the request the effect sends for a state:
    [fetchCustomers(currentPage, searchQuery)]. *)
Definition request (st : State) : list (string * string) :=
  Api.getCustomers_params (Some (currentPage st)) (Some 10)
    (Some (searchQuery st)).

Definition showing_from (pagination : Api.PaginationInfo) : Z :=
  ((Api.currentPage pagination - 1) * 10) + 1.

Definition showing_to (pagination : Api.PaginationInfo) : Z :=
  Z.min (Api.currentPage pagination * 10) (Api.totalCount pagination).

End CustomersTable.

(* ----------------------------------------------------------------- *)
(** *** Dashboard component: the insight cards *)

Module DashboardTrend.

(** [OrdersOverTimeData], with its fields as the type declares them: a
    day of the series once its count and revenue are numbers. *)
Record OrdersOverTimeData : Type := {
  date : string;
  order_count : Z;
  revenue : Q
}.

(** The trend the cards are built from ([ordersTrend] of the component,
    taken here as given). *)
Record Trend : Type := {
  orderDiff : Z;
  percentChange : Q;
  projectedMonthlyRevenue : Q;
  bestDay : OrdersOverTimeData
}.

Inductive Icon : Type :=
| Lightbulb
| Sparkles
| AlertTriangle
| TrendingUp.

Inductive Tone : Type :=
| Positive
| Warning
| Info.

Record Insight : Type := {
  icon : Icon;
  tone : Tone;
  title : string;
  description : string
}.

Section Component.

(** The two formatters imported from [utils/formatters], and
    [Number.prototype.toFixed]. *)
Variable formatDate : string -> string.
Variable formatCurrency : Q -> string.
Variable toFixed : Q -> nat -> string.

Definition collecting : Insight :=
  {| icon := Lightbulb;
     tone := Info;
     title := "Collecting more signal";
     description := "We need a few more days of order history before we can surface trend insights. Keep an eye on your performance this week." |}.

(** [metrics.pendingOrders / (metrics.totalOrders || 1)]. *)
Definition pendingRatio (metrics : DashboardView.DashboardMetrics) : Q :=
  (inject_Z (DashboardView.pendingOrders metrics)
   / inject_Z (DashboardView.denominator metrics))%Q.

(** The card about the trend of the orders. *)
Definition trend_card (ordersTrend : option Trend) (trendRange : Z)
  : Insight :=
  match ordersTrend with
  | Some t =>
      if Qle_bool (inject_Z 10) (percentChange t) then
        {| icon := Sparkles;
           tone := Positive;
           title := "Momentum is building";
           description :=
             ("Orders grew " ++ toFixed (percentChange t) 1
              ++ "% across the last " ++ JS.show trendRange
              ++ " days. Keep pushing the current campaigns.")%string |}
      else if Qle_bool (percentChange t) (inject_Z (-5)) then
        {| icon := AlertTriangle;
           tone := Warning;
           title := "Order volume softened";
           description :=
             ("Orders dipped " ++ toFixed (Qabs (percentChange t)) 1
              ++ "% over the last " ++ JS.show trendRange
              ++ " days. Consider nudging upcoming promotions.")%string |}
      else
        {| icon := Lightbulb;
           tone := Info;
           title := "Orders holding steady";
           description :=
             ("Order volume is mostly flat versus the start of the "
              ++ JS.show trendRange
              ++ "-day window, so this is a good time to experiment.")%string |}
  | None => collecting
  end.

(** The card about the best day, when there is a trend. *)
Definition best_day_card (ordersTrend : option Trend) : list Insight :=
  match ordersTrend with
  | Some t =>
      [{| icon := TrendingUp;
          tone := Positive;
          title := "Top-performing day spotted";
          description :=
            (formatDate (date (bestDay t)) ++ " delivered "
             ++ JS.show (order_count (bestDay t)) ++ " orders and "
             ++ formatCurrency (revenue (bestDay t))
             ++ " in revenue. Mirror what worked.")%string |}]
  | None => []
  end.

(** The card about the orders that wait. *)
Definition fulfillment_card (metrics : DashboardView.DashboardMetrics)
  : Insight :=
  let pendingRatio := pendingRatio metrics in
  if Qle_bool (25 # 100) pendingRatio then
    {| icon := AlertTriangle;
       tone := Warning;
       title := "Fulfillment queue is growing";
       description :=
         (JS.show (DashboardView.pendingOrders metrics)
          ++ " orders are still waiting ("
          ++ toFixed (pendingRatio * inject_Z 100) 0
          ++ "% of all orders). Triage high-value customers first.")%string |}
  else
    {| icon := Sparkles;
       tone := Positive;
       title := "Fulfillment running smooth";
       description :=
         ("Only " ++ JS.show (DashboardView.pendingOrders metrics)
          ++ " orders pending ("
          ++ toFixed (pendingRatio * inject_Z 100) 0
          ++ "% of the total). Great job keeping customers happy!")%string |}.

(** The [insights] of the component: the cards pushed one after the
    other, cut to three by [items.slice(0, 3)]. *)
Definition insights (metrics : option DashboardView.DashboardMetrics)
    (ordersTrend : option Trend) (trendRange : Z) : list Insight :=
  match metrics with
  | None =>
      match ordersTrend with
      | Some _ => []
      | None => [collecting]
      end
  | Some m =>
      let items :=
        [trend_card ordersTrend trendRange]
        ++ best_day_card ordersTrend
        ++ [fulfillment_card m] in
      firstn 3 items
  end.

End Component.

End DashboardTrend.

(* ----------------------------------------------------------------- *)
(** *** Charts component: the series and its averages *)

Module ChartsView.

(** What the component keeps of a row of the orders-over-time series:
    the row with its count and its revenue read by [Number].  The count
    arrives as a decimal string, the revenue as a decimal string with two
    fraction digits, the date as the JSON text of the date
    ([date_json]).  Rows of another shape are not rows of the series. *)
Definition load_day (date_json : Z -> string) (item : Row)
  : option DashboardTrend.OrdersOverTimeData :=
  match field "date" item, field "order_count" item, field "revenue" item with
  | Some (VDate d), Some (VInt n), Some (VDec r) =>
      Some {| DashboardTrend.date := date_json d;
              DashboardTrend.order_count := n;
              DashboardTrend.revenue := r # 100 |}
  | _, _, _ => None
  end.

(** The accumulator of the [reduce], and the averages. *)
Record Totals : Type := {
  orders : Q;
  revenue : Q
}.

Definition averageOrders
    (ordersOverTime : list DashboardTrend.OrdersOverTimeData)
  : option Totals :=
  match ordersOverTime with
  | [] => None
  | _ :: _ =>
      let totals :=
        fold_left
          (fun acc item =>
             {| orders :=
                  (orders acc
                   + inject_Z (DashboardTrend.order_count item))%Q;
                revenue :=
                  (revenue acc + DashboardTrend.revenue item)%Q |})
          ordersOverTime
          {| orders := 0%Q; revenue := 0%Q |} in
      let days := inject_Z (Z.of_nat (List.length ordersOverTime)) in
      Some {| orders := (orders totals / days)%Q;
              revenue := (revenue totals / days)%Q |}
  end.

End ChartsView.

(* ================================================================= *)
(** ** Reading the environment file *)

Module Env.

Import JSString.

(** [envVars]: the own properties of the object, in the order they were
    created.  Keys are taken to differ from [__proto__], whose
    assignment JavaScript treats apart. *)
Definition Vars : Type := list (string * string).

Fixpoint get (envVars : Vars) (key : string) : option string :=
  match envVars with
  | [] => None
  | (k, v) :: rest => if String.eqb k key then Some v else get rest key
  end.

(** [envVars[key] = value]. *)
Fixpoint set (envVars : Vars) (key value : string) : Vars :=
  match envVars with
  | [] => [(key, value)]
  | (k, v) :: rest =>
      if String.eqb k key then (k, value) :: rest
      else (k, v) :: set rest key value
  end.

Definition newline : ascii := "010"%char.

(** The body of the [forEach] over the lines, in [server.cjs] and
    [connection.cjs]. *)
Definition parse_line (envVars : Vars) (line : string) : Vars :=
  let trimmed := trim line in
  if JS.truthy trimmed && negb (startsWith "#" trimmed) then
    match split "=" trimmed with
    | key :: valueParts =>
        if JS.truthy key && (0 <? List.length valueParts)%nat then
          set envVars key (join "=" valueParts)
        else envVars
    | [] => envVars
    end
  else envVars.

Definition parse (envContent : string) : Vars :=
  fold_left parse_line (split newline envContent) [].

(** The variant that trims the key and the value. *)
Definition parse_line_trimmed (envVars : Vars) (line : string) : Vars :=
  let trimmed := trim line in
  if JS.truthy trimmed && negb (startsWith "#" trimmed) then
    match split "=" trimmed with
    | key :: valueParts =>
        let k := if JS.truthy key then trim key else key in
        if JS.truthy k && (0 <? List.length valueParts)%nat then
          set envVars k (trim (join "=" valueParts))
        else envVars
    | [] => envVars
    end
  else envVars.

Definition double_quote : ascii := "034"%char.
Definition single_quote : ascii := "039"%char.

(** [stripQuotes(s)] on a string: one pair of surrounding quotes of the
    same kind is removed. *)
Definition stripQuotes (s : string) : string :=
  let t := trim s in
  if (startsWith (String double_quote EmptyString) t
      && endsWith double_quote t)
     || (startsWith (String single_quote EmptyString) t
         && endsWith single_quote t)
  then slice_1_m1 t
  else t.

End Env.

(* ================================================================= *)
(** ** A concrete server for examples *)

Module Fixture.

Import Pg.

(** One or more decimal digits. *)
Definition digits (s : string) : option Z :=
  match s with
  | EmptyString => None
  | String _ _ =>
      match NilEmpty.uint_of_string s with
      | Some u => Some (Z.of_uint u)
      | None => None
      end
  end.

(** Integer literals in decimal: white space around, an optional sign,
    at least one digit, within the range of a 32-bit integer. *)
Definition decimal_in (s : string) : option Z :=
  let t := JSString.trim s in
  let '(sign, ds) :=
    match t with
    | String c r =>
        if Ascii.eqb c "-" then (-1, r)
        else if Ascii.eqb c "+" then (1, r)
        else (1, t)
    | EmptyString => (1, t)
    end in
  match digits ds with
  | Some n =>
      let z := sign * n in
      if (-2147483648 <=? z) && (z <=? 2147483647) then Some z else None
  | None => None
  end.

Definition leap (y : Z) : bool :=
  ((y mod 4 =? 0) && negb (y mod 100 =? 0) || (y mod 400 =? 0))%bool.

Definition days_in_month (y m : Z) : Z :=
  if m =? 2 then (if leap y then 29 else 28)
  else if (m =? 4) || (m =? 6) || (m =? 9) || (m =? 11) then 30
  else 31.

(** Day number of a civil date (days since 1970-01-01). *)
Definition days_from_civil (y m d : Z) : Z :=
  let y' := if m <=? 2 then y - 1 else y in
  let era := y' / 400 in
  let yoe := y' - era * 400 in
  let doy := (153 * (if 2 <? m then m - 3 else m + 9) + 2) / 5 + d - 1 in
  let doe := yoe * 365 + yoe / 4 - yoe / 100 + doy in
  era * 146097 + doe - 719468.

(** Date literals: [YYYY-MM-DD]. *)
Definition iso_date_in (s : string) : option Z :=
  if negb (Nat.eqb (String.length s) 10) then None
  else if negb (String.eqb (substring 4 1 s) "-"
                && String.eqb (substring 7 1 s) "-")%bool then None
  else
    match digits (substring 0 4 s), digits (substring 5 2 s),
          digits (substring 8 2 s) with
    | Some y, Some m, Some d =>
        if (1 <=? m) && (m <=? 12) && (1 <=? d) && (d <=? days_in_month y m)
        then Some (days_from_civil y m d)
        else None
    | _, _, _ => None
    end.

Definition day (s : string) : Z :=
  match iso_date_in s with
  | Some d => d
  | None => 0
  end.

(** Ties in the order they arrive. *)
Definition keep (_ _ : Row) : bool := true.

(** Ties in the opposite order. *)
Definition swap (_ _ : Row) : bool := false.

Definition server (st : Store) (now : Z) (tb : Row -> Row -> bool) : Server :=
  {| store := st; today := now; int_in := decimal_in; date_in := iso_date_in;
     tie := tb |}.

Definition customer (id : Z) (name email : string) (created : Z) : Customer :=
  {| c_id := id; c_name := name; c_email := email;
     c_phone := None; c_address := None; c_city := None; c_country := None;
     c_created_at := created; c_updated_at := created |}.

Definition order (id cust : Z) (date : string) (total : Z) (status : string)
    (created : Z) : Order :=
  {| o_id := id; o_customer_id := cust; o_order_date := day date;
     o_total := total; o_status := status;
     o_shipping_address := None; o_payment_method := None;
     o_created_at := created; o_updated_at := created |}.

(** Two customers: A with two completed orders (299.99 and 89.99), B with
    one pending order (149.50). *)
Definition seed : Store :=
  {| customers :=
       [ customer 1 "A" "a@example.com" 100;
         customer 2 "B" "b@example.com" 200 ];
     orders :=
       [ order 1 1 "2024-01-15" 29999 "completed" 1000;
         order 2 2 "2024-01-16" 14950 "pending" 2000;
         order 3 1 "2024-01-17" 8999 "completed" 3000 ] |}.

(** The clock of the examples. *)
Definition now : Z := day "2024-02-01".

(** The seed behind a server that keeps ties as they arrive. *)
Definition seed_server : Server := server seed now keep.

(** [?status=pending&page=1&limit=10]. *)
Definition pending_request : Query :=
  query_of [("status", "pending"); ("page", "1"); ("limit", "10")]%string.

(** [?status=completed&start_date=2024-01-01&end_date=2024-01-31]. *)
Definition january_completed_request : Query :=
  query_of [("status", "completed"); ("start_date", "2024-01-01");
            ("end_date", "2024-01-31")]%string.

(** [?customer_id=999]. *)
Definition unknown_customer_request : Query :=
  query_of [("customer_id", "999")]%string.

(** [?customer_id=999&page=-1]. *)
Definition negative_page_request : Query :=
  query_of [("customer_id", "999"); ("page", "-1")]%string.

(** [?customer_id=abc]. *)
Definition malformed_customer_request : Query :=
  query_of [("customer_id", "abc")]%string.

(** No parameter at all. *)
Definition plain_request : Query := query_of [].

(** [?search=_]. *)
Definition underscore_request : Query := query_of [("search", "_")]%string.

(** One customer whose name and email hold no underscore. *)
Definition bob_store : Store :=
  {| customers := [ customer 1 "Bob" "bob@example.com" 100 ];
     orders := [] |}.

(** Three customers whose completed orders sum to 500, 500 and 300. *)
Definition tied_store : Store :=
  {| customers :=
       [ customer 1 "X" "x@example.com" 100;
         customer 2 "Y" "y@example.com" 200;
         customer 3 "Z" "z@example.com" 300 ];
     orders :=
       [ order 1 1 "2024-01-10" 50000 "completed" 1000;
         order 2 2 "2024-01-11" 20000 "completed" 2000;
         order 3 2 "2024-01-12" 30000 "completed" 3000;
         order 4 3 "2024-01-13" 30000 "completed" 4000;
         order 5 3 "2024-01-14" 99900 "pending" 5000 ] |}.

(** One order dated after the current date. *)
Definition future_store : Store :=
  {| customers := [ customer 1 "A" "a@example.com" 100 ];
     orders := [ order 1 1 "2024-02-02" 1000 "pending" 1000 ] |}.

(** Metrics with four orders, one of them pending. *)
Definition sample_metrics : DashboardView.DashboardMetrics :=
  {| DashboardView.totalOrders := 4;
     DashboardView.totalCustomers := 2;
     DashboardView.totalRevenue := Qmake 30000 100;
     DashboardView.pendingOrders := 1 |}.

(** Metrics of a store without orders. *)
Definition no_order_metrics : DashboardView.DashboardMetrics :=
  {| DashboardView.totalOrders := 0;
     DashboardView.totalCustomers := 2;
     DashboardView.totalRevenue := Qmake 0 100;
     DashboardView.pendingOrders := 0 |}.

Definition empty_store : Store := {| customers := []; orders := [] |}.

End Fixture.

(* ================================================================= *)
(** ** Further examples *)

Module Samples.

Import Pg.

(** [?limit=2]. *)
Definition two_per_page : Query := query_of [("limit", "2")]%string.

(** [?limit=1]. *)
Definition one_per_page : Query := query_of [("limit", "1")]%string.

(** [?search=example]. *)
Definition example_search : Query := query_of [("search", "example")]%string.

(** The pending orders, first page of ten. *)
Definition pending_filters : Api.OrderFilters :=
  {| Api.status := Some "pending"%string;
     Api.customer_id := None;
     Api.start_date := None;
     Api.end_date := None;
     Api.page := Some 1;
     Api.limit := Some 10 |}.

(** [?start_date=2024-02-01&end_date=2024-01-01]. *)
Definition inverted_range_request : Query :=
  query_of [("start_date", "2024-02-01"); ("end_date", "2024-01-01")]%string.

(** [?limit=2&page=3]. *)
Definition past_the_end_request : Query :=
  query_of [("limit", "2"); ("page", "3")]%string.

(** A status that tries to close the literal and widen the filter. *)
Definition hostile_request : Query :=
  query_of [("status", "x' OR '1'='1")]%string.

(** [?limit=-3]. *)
Definition negative_limit_request : Query := query_of [("limit", "-3")]%string.

(** The search box holding [ example ], not yet submitted. *)
Definition typed_search : CustomersTable.State :=
  {| CustomersTable.searchInput := " example ";
     CustomersTable.searchQuery := EmptyString;
     CustomersTable.currentPage := 3 |}.

(** An assignment whose value holds [=] signs. *)
Definition password_line : string := "DB_PASSWORD=pa=ss==".

(** The JSON text of a date, for the examples: its day number. *)
Definition day_text (d : Z) : string := JS.show d.

End Samples.

(* ================================================================= *)
(** ** Vocabulary of the statements

    What the statements below speak of: the values and predicates a
    request denotes, the rows a statement ranges over, and the properties
    of answers. *)

Section Vocabulary.

Import Pg.

(** The order ORDER BY guarantees between the keys of two rows. *)
Definition key_le (desc : bool) (a b : Z * Row) : Prop :=
  if desc then fst b <= fst a else fst a <= fst b.

(** The same order on the keys alone. *)
Definition z_le (desc : bool) (x y : Z) : Prop :=
  if desc then y <= x else x <= y.

(** The test GROUP BY applies to a row for the group of key [k]. *)
Definition has_key {A K : Type} (dec : forall x y : K, {x = y} + {x <> y})
    (key : A -> K) (k : K) (x : A) : bool :=
  if dec (key x) k then true else false.

Definition nonempty {A : Type} (l : list A) : bool :=
  match l with
  | [] => false
  | _ :: _ => true
  end.

(** The four filter values of a request, [''] when absent. *)
Definition status_of (q : Query) : string := JS.or_empty (q "status"%string).
Definition customer_id_of (q : Query) : string := JS.or_empty (q "customer_id"%string).
Definition start_date_of (q : Query) : string := JS.or_empty (q "start_date"%string).
Definition end_date_of (q : Query) : string := JS.or_empty (q "end_date"%string).

Definition offset_of (q : Query) : Z :=
  (Orders.page_of q - 1) * Orders.limit_of q.

(** The values of the supplied filters, in the order they are pushed. *)
Definition filter_params (q : Query) : list Param :=
  map PText
    (filter JS.truthy
       [status_of q; customer_id_of q; start_date_of q; end_date_of q]).

Definition b2n (b : bool) : nat := if b then 1%nat else 0%nat.

(** The filters of a request with their placeholders. *)
Definition filter_plan (q : Query) : list Filter :=
  let t1 := JS.truthy (status_of q) in
  let t2 := JS.truthy (customer_id_of q) in
  let t3 := JS.truthy (start_date_of q) in
  let t4 := JS.truthy (end_date_of q) in
  ((if t1 then [StatusEq 1] else []) ++
   (if t2 then [CustomerIdEq (1 + b2n t1)] else []) ++
   (if t3 then [OrderDateGe (1 + b2n t1 + b2n t2)] else []) ++
   (if t4 then [OrderDateLe (1 + b2n t1 + b2n t2 + b2n t3)] else [])).

(** What a supplied value of an integer or date column is read as:
    [Some None] when the filter is not supplied, [None] when the server
    rejects the text. *)
Definition accept (input : string -> option Z) (v : string)
  : option (option Z) :=
  if JS.truthy v then
    match input v with
    | Some k => Some (Some k)
    | None => None
    end
  else Some None.

(** The conjunction of the supplied filters on an order. *)
Definition matches (status : string) (cid from to : option Z) (o : Order)
  : bool :=
  (if JS.truthy status then String.eqb (o_status o) status else true)
  && match cid with Some k => o_customer_id o =? k | None => true end
  && match from with Some d => d <=? o_order_date o | None => true end
  && match to with Some d => o_order_date o <=? d | None => true end.

(** The predicate a request denotes on a server, when the server accepts
    its values. *)
Definition order_pred (srv : Server) (q : Query) : option (Order -> bool) :=
  match accept (int_in srv) (customer_id_of q),
        accept (date_in srv) (start_date_of q),
        accept (date_in srv) (end_date_of q) with
  | Some c, Some f, Some t => Some (matches (status_of q) c f t)
  | _, _, _ => None
  end.

(** A LIMIT or OFFSET value sent as a number: accepted when it is not
    negative and fits a bigint. *)
Definition count_ok (n : Z) : option nat :=
  if (0 <=? n) && (n <=? int8_max) then Some (Z.to_nat n) else None.

(** The joined rows an order predicate selects. *)
Definition selected (srv : Server) (m : Order -> bool)
  : list (Order * Customer) :=
  filter (fun oc => m (fst oc)) (orders_join_customers (store srv)).

Definition keyed_orders (sel : list (Order * Customer)) : list (Z * Row) :=
  map (fun oc => (o_created_at (fst oc), order_row oc)) sel.

Definition orders_failure : Response :=
  Failure 500 "Failed to fetch orders".

Definition search_of (q : Query) : string := JS.or_empty (q "search"%string).

(** The pattern the handler binds: the search text between two [%]. *)
Definition search_pattern (q : Query) : string :=
  ("%" ++ search_of q ++ "%")%string.

Definition search_params (q : Query) : list Param :=
  if JS.truthy (search_of q) then [PText (search_pattern q)] else [].

Definition search_plan (q : Query) : option (nat * nat) :=
  if JS.truthy (search_of q) then Some (1%nat, 1%nat) else None.

(** The customers a request selects, as the statements decide it. *)
Definition qualifies (q : Query) (c : Customer) : bool :=
  if JS.truthy (search_of q) then
    ilike (c_name c) (search_pattern q) || ilike (c_email c) (search_pattern q)
  else true.

Definition customers_offset_of (q : Query) : Z :=
  (Customers.page_of q - 1) * Customers.limit_of q.

Definition customers_failure : Response :=
  Failure 500 "Failed to fetch customers".

(** The joined rows of the customers a request selects. *)
Definition selected_customers (srv : Server) (q : Query)
  : list (Customer * option Order) :=
  filter (fun co => qualifies q (fst co))
         (customers_left_join_orders (store srv)).

Definition pagination_of (r : Response) : option Pagination :=
  match r with
  | Listing _ _ p => Some p
  | _ => None
  end.

(** Two servers hold the same data and read literals the same way; their
    clocks and the order they give to equal keys may differ. *)
Definition same_data (s1 s2 : Server) : Prop :=
  store s1 = store s2
  /\ (forall t, int_in s1 t = int_in s2 t)
  /\ (forall t, date_in s1 t = date_in s2 t).

Definition clause (supplied : bool) (text : string) (n : nat) : string :=
  if supplied then (text ++ JS.show (Z.of_nat n))%string else EmptyString.

(** The text of the filter clauses of a request. *)
Definition where_text (q : Query) : string :=
  let t1 := JS.truthy (status_of q) in
  let t2 := JS.truthy (customer_id_of q) in
  let t3 := JS.truthy (start_date_of q) in
  let t4 := JS.truthy (end_date_of q) in
  (clause t1 " AND o.status = $" 1
   ++ clause t2 " AND o.customer_id = $" (1 + b2n t1)
   ++ clause t3 " AND o.order_date >= $" (1 + b2n t1 + b2n t2)
   ++ clause t4 " AND o.order_date <= $" (1 + b2n t1 + b2n t2 + b2n t3))%string.

Definition order_clause : string := " ORDER BY o.created_at DESC".

(** The row query without its LIMIT and OFFSET. *)
Definition unpaginated_text (q : Query) : string :=
  (Orders.select_text ++ where_text q ++ order_clause)%string.

(** Realised revenue counts the completed and the shipped orders. *)
Definition realised (o : Order) : bool :=
  String.eqb (o_status o) "completed" || String.eqb (o_status o) "shipped".

Definition pending (o : Order) : bool := String.eqb (o_status o) "pending".

(** The metrics the view receives from the summary endpoint. *)
Definition served (srv : Pg.Server)
  : option DashboardView.DashboardMetrics :=
  match Dashboard.handler srv with
  | Summary s => DashboardView.of_summary s
  | _ => None
  end.

(** [Number.MAX_SAFE_INTEGER].  Up to it every integer is an IEEE
    double: [parseInt], the product of the offset and the decimal text
    the driver sends are exact. *)
Definition max_safe_integer : Z := 9007199254740991.

(** An integer JavaScript holds exactly. *)
Definition safe_integer (n : Z) : Prop :=
  - max_safe_integer <= n <= max_safe_integer.

(** Every character of the text is ASCII.  On such a text the white
    space of JavaScript ([parseInt], [trim]) is the white space of the
    model; beyond ASCII JavaScript knows more (U+00A0, U+FEFF, U+2028
    and others). *)
Fixpoint ascii_only (s : string) : bool :=
  match s with
  | EmptyString => true
  | String c r => Nat.ltb (nat_of_ascii c) 128 && ascii_only r
  end.

(** No character of the text is NUL.  PostgreSQL refuses a text
    parameter that holds one, which the model of the server does not
    show. *)
Fixpoint no_nul (s : string) : bool :=
  match s with
  | EmptyString => true
  | String c r => negb (Ascii.eqb c zero) && no_nul r
  end.

(** The window of a listing is computed exactly: the texts of the page
    and of the limit are ASCII, and the page, the limit and the offset
    are safe integers. *)
Definition exact_window (page_text limit_text : option string) (p l : Z)
  : Prop :=
  ascii_only (JS.or_empty page_text) = true
  /\ ascii_only (JS.or_empty limit_text) = true
  /\ safe_integer p
  /\ safe_integer l
  /\ safe_integer ((p - 1) * l).

(** A clock and a number of days with which the date arithmetic of the
    server stays far inside PostgreSQL's timestamps (4713 BC to
    294276 AD): the current date between 1970 and the year 4707, at
    most a million days either way. *)
Definition within_calendar (today days : Z) : Prop :=
  0 <= today <= 1000000 /\ - 1000000 <= days <= 1000000.

(** The request without one of its parameters. *)
Definition without (name : string) (q : Query) : Query :=
  fun x => if String.eqb x name then None else q x.

Definition filter_names : list string :=
  ["status"; "customer_id"; "start_date"; "end_date"]%string.

(** The [customer_id] filter of the request is supplied and names no
    customer of the store. *)
Definition no_such_customer (srv : Server) (q : Query) : Prop :=
  JS.truthy (JS.or_empty (q "customer_id"%string)) = true
  /\ forall c, In c (customers (store srv)) ->
               int_in srv (JS.or_empty (q "customer_id"%string))
               <> Some (c_id c).

(** An empty page with a zero count. *)
Definition empty_page (r : Response) : Prop :=
  exists pg,
    r = Listing "orders" [] pg
    /\ totalCount pg = JS.Int 0
    /\ totalPages pg = JS.Int 0
    /\ hasNext pg = false.

(** The orders that reference a customer. *)
Definition orders_of (st : Store) (c : Customer) : list Order :=
  filter (fun o => c_id c =? o_customer_id o) (orders st).

(** The rows of one customer in the left join. *)
Definition joined_rows (st : Store) (c : Customer)
  : list (Customer * option Order) :=
  match orders_of st c with
  | [] => [(c, None)]
  | os => map (fun o => (c, Some o)) os
  end.

Definition customer_group (g : list (Customer * option Order))
  : list (Z * Row) :=
  match g with
  | [] => []
  | (c, _) :: _ => [(c_created_at c, customer_row c (present g))]
  end.

(** The words a text completes, and the word it leaves open. *)
Fixpoint split_words (cur : string) (s : string) : list string * string :=
  match s with
  | EmptyString => ([], cur)
  | String c r =>
      if is_blank c then
        let (ws, last) := split_words EmptyString r in (flush cur ++ ws, last)
      else split_words (cur ++ String c EmptyString) r
  end.

Fixpoint no_blank (s : string) : bool :=
  match s with
  | EmptyString => true
  | String c r => negb (is_blank c) && no_blank r
  end.

Definition on_date (d : Z) (o : Order) : bool :=
  if Z.eq_dec (o_order_date o) d then true else false.

Definition day_entry (sel : list Order) (d : Z) : Z * Row :=
  (d, day_row d (filter (on_date d) sel)).

Definition is_completed (o : Order) : bool :=
  String.eqb (o_status o) "completed".

(** The completed orders of a customer. *)
Definition completed_of (st : Store) (c : Customer) : list Order :=
  filter is_completed (orders_of st c).

(** The summed total of a customer's completed orders. *)
Definition revenue_of (st : Store) (c : Customer) : Z :=
  sum_total (completed_of st c).

(** The customers the ranking is about: those with a completed order. *)
Definition ranked_customers (st : Store) : list Customer :=
  filter (fun c => nonempty (completed_of st c)) (customers st).

Definition revenue_entry (st : Store) (c : Customer) : Z * Row :=
  (revenue_of st c, revenue_row (c_name c) (completed_of st c)).

Definition completed_rows (st : Store) (c : Customer)
  : list (Customer * Order) :=
  map (fun o => (c, o)) (completed_of st c).

Definition revenue_group (g : list (Customer * Order)) : list (Z * Row) :=
  match g with
  | [] => []
  | (c, _) :: _ =>
      [(sum_total (map snd g), revenue_row (c_name c) (map snd g))]
  end.

Definition revenue_failure : Response :=
  Failure 500 "Failed to fetch revenue by customer data".

(** The rows of the statement before ORDER BY and LIMIT. *)
Definition revenue_rows (st : Store) : list (Z * Row) :=
  revenue_groups
    (filter (fun co : Customer * Order =>
               String.eqb (o_status (snd co)) "completed")
            (customers_join_orders st)).

(** The revenue column of a series, row by row. *)
Definition revenues (r : Response) : list (option Value) :=
  match r with
  | Series rows => map (field "total_revenue") rows
  | _ => []
  end.

(** [s] starts with [p]. *)
Fixpoint has_prefix (p s : string) : bool :=
  match p with
  | EmptyString => true
  | String a p' =>
      match s with
      | EmptyString => false
      | String b s' => Ascii.eqb a b && has_prefix p' s'
      end
  end.

(** [h] contains [n] as a substring. *)
Fixpoint contains (n h : string) : bool :=
  has_prefix n h
  || match h with
     | EmptyString => false
     | String _ h' => contains n h'
     end.

(** Containment as a case-insensitive substring (ASCII letters). *)
Definition contains_ci (n h : string) : bool :=
  contains (lower_string n) (lower_string h).



(** The value [read_digits] accumulates over a decimal numeral. *)
Fixpoint uint_val (acc : Z) (u : Decimal.uint) : Z :=
  match u with
  | Decimal.Nil => acc
  | Decimal.D0 u' => uint_val (10 * acc + 0) u'
  | Decimal.D1 u' => uint_val (10 * acc + 1) u'
  | Decimal.D2 u' => uint_val (10 * acc + 2) u'
  | Decimal.D3 u' => uint_val (10 * acc + 3) u'
  | Decimal.D4 u' => uint_val (10 * acc + 4) u'
  | Decimal.D5 u' => uint_val (10 * acc + 5) u'
  | Decimal.D6 u' => uint_val (10 * acc + 6) u'
  | Decimal.D7 u' => uint_val (10 * acc + 7) u'
  | Decimal.D8 u' => uint_val (10 * acc + 8) u'
  | Decimal.D9 u' => uint_val (10 * acc + 9) u'
  end.

(** A page and a limit from which the window of the statement can be
    taken. *)
Definition window_ok (p l : Z) : Prop :=
  1 <= p /\ 1 <= l <= int8_max /\ (p - 1) * l <= int8_max.

(** The request for another page, as the tables send it: the page
    number in decimal, the other parameters unchanged. *)
Definition with_page (p : Z) (q : Query) : Query :=
  fun x => if String.eqb x "page" then Some (JS.show p) else q x.

(** The rows of an answer; none when the request failed. *)
Definition rows_of (r : Response) : list Row :=
  match r with
  | Listing _ rows _ => rows
  | Series rows => rows
  | _ => []
  end.

Definition newest_first (a b : Customer) : Prop :=
  c_created_at b <= c_created_at a.

Definition newest_order_first (a b : Order * Customer) : Prop :=
  o_created_at (fst b) <= o_created_at (fst a).

(** The row of a customer in the listing: its columns and the
    aggregates over its orders. *)
Definition customer_entry (st : Store) (c : Customer) : Z * Row :=
  (c_created_at c, customer_row c (orders_of st c)).

(** The order references a customer of the store. *)
Definition has_customer (st : Store) (o : Order) : bool :=
  existsb (fun c => o_customer_id o =? c_id c) (customers st).

(** The request supplies none of the four filters. *)
Definition unfiltered (q : Query) : Prop :=
  status_of q = EmptyString /\ customer_id_of q = EmptyString
  /\ start_date_of q = EmptyString /\ end_date_of q = EmptyString.


(** The orders of one status. *)
Definition with_status (s : string) (os : list Order) : list Order :=
  filter (fun o => String.eqb (o_status o) s) os.

(** The statuses that occur among the orders, each once. *)
Definition statuses (os : list Order) : list string :=
  nodup string_dec (map o_status os).

Definition status_revenue (os : list Order) (s : string) : Z :=
  sum_total (with_status s os).

Definition status_count (os : list Order) (s : string) : Z :=
  Z.of_nat (List.length (with_status s os)).

(** The row of a status in the revenue breakdown. *)
Definition breakdown_row (os : list Order) (s : string) : Row :=
  [ ("status"%string, VText s);
    ("order_count"%string, VInt (status_count os s));
    ("total_revenue"%string, VDec (status_revenue os s)) ].

(** The row of a status in the status distribution. *)
Definition status_row (os : list Order) (s : string) : Row :=
  [ ("status"%string, VText s);
    ("count"%string, VInt (status_count os s));
    ("total_value"%string, VDec (status_revenue os s)) ].

(** A numeric column as the charts read it with [Number]: a count as
    it is, an amount in hundredths. *)
Definition number_of (v : option Value) : Z :=
  match v with
  | Some (VInt n) => n
  | Some (VDec d) => d
  | _ => 0
  end.

(** The sum of a numeric column over rows. *)
Definition column_sum (name : string) (rows : list Row) : Z :=
  fold_right (fun r acc => number_of (field name r) + acc) 0 rows.

(** The rows whose [status] column satisfies [p]. *)
Definition rows_with_status (p : string -> bool) (rows : list Row)
  : list Row :=
  filter (fun r => match field "status" r with
                   | Some (VText s) => p s
                   | _ => false
                   end) rows.

Definition is_realised (s : string) : bool :=
  String.eqb s "completed" || String.eqb s "shipped".

Definition is_pending (s : string) : bool := String.eqb s "pending".

(** [k] is one of [ks]. *)
Definition among {K : Type} (dec : forall x y : K, {x = y} + {x <> y})
    (k : K) (ks : list K) : bool :=
  if in_dec dec k ks then true else false.

(** [n || d] on an optional number: [undefined] and 0 take [d]. *)
Definition or_default (v : option Z) (d : Z) : Z :=
  match v with
  | Some n => JS.or_num (JS.Int n) d
  | None => d
  end.

(** Only white space. *)
Fixpoint blank (s : string) : bool :=
  match s with
  | EmptyString => true
  | String c r => JS.is_space c && blank r
  end.

(** The character does not occur in the text. *)
Fixpoint no_char (c : ascii) (s : string) : bool :=
  match s with
  | EmptyString => true
  | String d r => negb (Ascii.eqb d c) && no_char c r
  end.



(** The orders the series of a request ranges over. *)
Definition in_window (srv : Server) (q : Query) : list Order :=
  filter (fun o => today srv - Charts.days_of q <=? o_order_date o)
         (orders (store srv)).

(** What the component keeps of the row of a date. *)
Definition day_datum (date_json : Z -> string) (sel : list Order) (d : Z)
  : DashboardTrend.OrdersOverTimeData :=
  {| DashboardTrend.date := date_json d;
     DashboardTrend.order_count :=
       Z.of_nat (List.length (filter (on_date d) sel));
     DashboardTrend.revenue :=
       sum_total (filter (on_date d) sel) # 100 |}.

(** Two requests supply the same filters and both or neither a
    search, whatever the values. *)
Definition same_supplied (q q' : Query) : Prop :=
  JS.truthy (status_of q) = JS.truthy (status_of q')
  /\ JS.truthy (customer_id_of q) = JS.truthy (customer_id_of q')
  /\ JS.truthy (start_date_of q) = JS.truthy (start_date_of q')
  /\ JS.truthy (end_date_of q) = JS.truthy (end_date_of q')
  /\ JS.truthy (search_of q) = JS.truthy (search_of q').

(** The text of a statement sent with parameters. *)
Definition text_of (s : string * list Param) : string := fst s.

(** The parameters sent with a statement. *)
Definition params_of (s : string * list Param) : list Param := snd s.

End Vocabulary.

(* ================================================================= *)
(** ** Arithmetic of the envelope *)

Section Ceiling.

(** The ceiling of a quotient of integers, by integer division. *)
Lemma Qceiling_quotient (a b : Z) :
  0 < b -> Qceiling (inject_Z a / inject_Z b) = - ((- a) / b).
Proof.
  intros Hb. destruct b as [|p|p]; try lia.
  unfold Qceiling, Qfloor, Qdiv, Qinv, Qmult, Qopp, inject_Z. simpl.
  rewrite Z.mul_1_r. reflexivity.
Qed.

(** [t] is the least integer with [a <= t * b]. *)
Lemma ceiling_bounds (a b : Z) :
  0 < b ->
  let t := Qceiling (inject_Z a / inject_Z b) in
  (t - 1) * b < a <= t * b.
Proof.
  intros Hb t. subst t. rewrite Qceiling_quotient by assumption.
  pose proof (Z.div_mod (- a) b ltac:(lia)) as E.
  pose proof (Z.mod_pos_bound (- a) b Hb) as M.
  nia.
Qed.

End Ceiling.

(* ================================================================= *)
(** ** Lists *)

Section Lists.

Context {A B : Type}.

Lemma flat_map_singleton (f : A -> B) (l : list A) :
  flat_map (fun x => [f x]) l = map f l.
Proof. induction l; simpl; congruence. Qed.

Lemma flat_map_over_map {C : Type} (g : B -> list C) (h : A -> B) (l : list A) :
  flat_map g (map h l) = flat_map (fun x => g (h x)) l.
Proof. induction l; simpl; congruence. Qed.

Lemma flat_map_ext_in {C : Type} (f g : A -> list C) (l : list A) :
  (forall x, In x l -> f x = g x) -> flat_map f l = flat_map g l.
Proof.
  induction l as [|x l IH]; simpl; intros H; [reflexivity|].
  rewrite H by auto. rewrite IH by auto. reflexivity.
Qed.

Lemma filter_false (p : A -> bool) (l : list A) :
  (forall x, In x l -> p x = false) -> filter p l = [].
Proof.
  induction l as [|x l IH]; simpl; intros H; [reflexivity|].
  rewrite H by auto. apply IH. auto.
Qed.

Lemma filter_true (p : A -> bool) (l : list A) :
  (forall x, In x l -> p x = true) -> filter p l = l.
Proof.
  induction l as [|x l IH]; simpl; intros H; [reflexivity|].
  rewrite H by auto. f_equal. apply IH. auto.
Qed.

Lemma filter_length_le_imp (p q : A -> bool) (l : list A) :
  (forall x, p x = true -> q x = true) ->
  (List.length (filter p l) <= List.length (filter q l))%nat.
Proof.
  intros H. induction l as [|x l IH]; simpl; [lia|].
  destruct (p x) eqn:P.
  - rewrite (H _ P). simpl. lia.
  - destruct (q x); simpl; lia.
Qed.

End Lists.

(* ================================================================= *)
(** ** ORDER BY *)

Section Ordering.

Import Pg.

Variable desc : bool.

Lemma key_le_trans a b c : key_le desc a b -> key_le desc b c -> key_le desc a c.
Proof. unfold key_le. destruct desc; lia. Qed.

Lemma before_key_le tb a b : before desc tb a b = true -> key_le desc a b.
Proof.
  unfold before, key_le. destruct (Z.eqb_spec (fst a) (fst b)).
  - destruct desc; lia.
  - destruct desc; intros H; apply Z.ltb_lt in H; lia.
Qed.

Lemma not_before_key_le tb a b : before desc tb a b = false -> key_le desc b a.
Proof.
  unfold before, key_le. destruct (Z.eqb_spec (fst a) (fst b)).
  - destruct desc; lia.
  - destruct desc; intros H; apply Z.ltb_ge in H; lia.
Qed.

Lemma insert_row_perm tb x l : Permutation (insert_row desc tb x l) (x :: l).
Proof.
  induction l as [|y l IH]; simpl; [reflexivity|].
  destruct (before desc tb x y); [reflexivity|].
  rewrite IH. apply perm_swap.
Qed.

Lemma sort_rows_perm tb l : Permutation (sort_rows desc tb l) l.
Proof.
  induction l as [|x l IH]; simpl; [reflexivity|].
  rewrite insert_row_perm. constructor. assumption.
Qed.

Lemma insert_row_sorted tb x l :
  StronglySorted (key_le desc) l -> StronglySorted (key_le desc) (insert_row desc tb x l).
Proof.
  induction l as [|y l IH]; simpl; intros S.
  - repeat constructor.
  - inversion S as [|? ? S' F]; subst.
    destruct (before desc tb x y) eqn:E.
    + constructor; [assumption|]. constructor.
      * eapply before_key_le; eassumption.
      * eapply Forall_impl; [|exact F]. intros z Hz.
        eapply key_le_trans; [eapply before_key_le; eassumption | exact Hz].
    + constructor; [apply IH; assumption|].
      eapply Permutation_Forall; [symmetry; apply insert_row_perm|].
      constructor; [eapply not_before_key_le; eassumption | assumption].
Qed.

Lemma sort_rows_sorted tb l : StronglySorted (key_le desc) (sort_rows desc tb l).
Proof.
  induction l as [|x l IH]; simpl; [constructor|].
  apply insert_row_sorted. assumption.
Qed.

Lemma order_by_perm tb l : Permutation (order_by desc tb l) (map snd l).
Proof. unfold order_by. apply Permutation_map, sort_rows_perm. Qed.

Lemma order_by_in tb l r : In r (order_by desc tb l) <-> In r (map snd l).
Proof.
  split; apply Permutation_in; [|symmetry]; apply order_by_perm.
Qed.

Lemma order_by_length tb l : List.length (order_by desc tb l) = List.length l.
Proof.
  rewrite (Permutation_length (order_by_perm tb l)). apply length_map.
Qed.

Lemma sorted_keys l : StronglySorted (key_le desc) l -> StronglySorted (z_le desc) (map fst l).
Proof.
  induction 1 as [|a l S IH F]; simpl; constructor; [assumption|].
  rewrite Forall_map. exact F.
Qed.

Lemma z_sorted_unique (k1 k2 : list Z) :
  StronglySorted (z_le desc) k1 -> StronglySorted (z_le desc) k2 ->
  Permutation k1 k2 -> k1 = k2.
Proof.
  revert k2. induction k1 as [|a k1 IH]; intros k2 S1 S2 P.
  - apply Permutation_nil in P. subst. reflexivity.
  - destruct k2 as [|b k2];
      [symmetry in P; apply Permutation_nil in P; discriminate|].
    inversion S1 as [|? ? S1' F1]; subst.
    inversion S2 as [|? ? S2' F2]; subst.
    rewrite Forall_forall in F1, F2.
    assert (a = b) as ->.
    { assert (In a (b :: k2)) as Ia
        by (eapply Permutation_in; [exact P|left; reflexivity]).
      assert (In b (a :: k1)) as Ib
        by (eapply Permutation_in; [symmetry; exact P|left; reflexivity]).
      assert (z_le desc b a) as L1
        by (destruct Ia as [->|Ia]; [unfold z_le; destruct desc; lia | auto]).
      assert (z_le desc a b) as L2
        by (destruct Ib as [->|Ib]; [unfold z_le; destruct desc; lia | auto]).
      unfold z_le in *. destruct desc; lia. }
    f_equal. apply IH; try assumption.
    eapply Permutation_cons_inv. exact P.
Qed.

(** Two arrangements of the same rows that both respect the key order
    carry the same sequence of keys. *)
Lemma sorted_keys_unique (l1 l2 : list (Z * Row)) :
  StronglySorted (key_le desc) l1 -> StronglySorted (key_le desc) l2 ->
  Permutation l1 l2 -> map fst l1 = map fst l2.
Proof.
  intros S1 S2 P. apply z_sorted_unique; try (apply sorted_keys; assumption).
  apply Permutation_map. assumption.
Qed.

(** The sequence of keys ORDER BY produces does not depend on how the
    server orders equal keys. *)
Lemma sort_rows_keys tb1 tb2 l :
  map fst (sort_rows desc tb1 l) = map fst (sort_rows desc tb2 l).
Proof.
  apply sorted_keys_unique; try apply sort_rows_sorted.
  rewrite sort_rows_perm. symmetry. apply sort_rows_perm.
Qed.

Lemma unique_key (l : list (Z * Row)) a b :
  NoDup (map fst l) -> In a l -> In b l -> fst a = fst b -> a = b.
Proof.
  induction l as [|x l IH]; simpl; intros N Ia Ib E; [contradiction|].
  inversion N as [|? ? Nx N']; subst.
  destruct Ia as [->|Ia], Ib as [->|Ib]; auto.
  - exfalso. apply Nx. rewrite E. apply in_map. assumption.
  - exfalso. apply Nx. rewrite <- E. apply in_map. assumption.
Qed.

Lemma same_keys_same_rows (l1 l2 : list (Z * Row)) :
  NoDup (map fst l1) -> Permutation l1 l2 ->
  map fst l1 = map fst l2 -> l1 = l2.
Proof.
  revert l2. induction l1 as [|a l1 IH]; intros l2 N P E.
  - apply Permutation_nil in P. subst. reflexivity.
  - destruct l2 as [|b l2]; [discriminate|].
    simpl in E. injection E as E1 E2.
    assert (a = b) as ->.
    { apply (unique_key (a :: l1)); auto.
      - left; reflexivity.
      - eapply Permutation_in; [symmetry; exact P|left; reflexivity]. }
    f_equal. apply IH; auto.
    + inversion N; assumption.
    + eapply Permutation_cons_inv. exact P.
Qed.

(** When no two rows have the same key, ORDER BY fixes the result. *)
Lemma sort_rows_distinct tb1 tb2 l :
  NoDup (map fst l) -> sort_rows desc tb1 l = sort_rows desc tb2 l.
Proof.
  intros N. apply same_keys_same_rows.
  - eapply Permutation_NoDup; [|exact N].
    apply Permutation_map. symmetry. apply sort_rows_perm.
  - rewrite sort_rows_perm. symmetry. apply sort_rows_perm.
  - apply sort_rows_keys.
Qed.

End Ordering.

(* ================================================================= *)
(** ** GROUP BY over a join *)

Section Grouping.

Import Pg.

Context {O A K R : Type}.
Variable dec : forall x y : K, {x = y} + {x <> y}.
Variable owner_key : O -> K.
Variable key : A -> K.
Variable rows_of : O -> list A.
Variable G : list A -> list R.

Hypothesis rows_key : forall o x, In x (rows_of o) -> key x = owner_key o.
Hypothesis G_nil : G [] = [].

Lemma NoDup_map_filter (p : O -> bool) (l : list O) :
  NoDup (map owner_key l) -> NoDup (map owner_key (filter p l)).
Proof.
  induction l as [|x l IH]; simpl; intros N; [constructor|].
  inversion N as [|? ? Nx N']; subst.
  destruct (p x); simpl; [|auto].
  constructor; [|auto].
  intros I. apply Nx. apply in_map_iff in I. destruct I as (y & E & Iy).
  apply filter_In in Iy. rewrite <- E. apply in_map. tauto.
Qed.

(** The group of an owner's key is the owner's rows. *)
Lemma group_of_owner (owners : list O) (o : O) :
  NoDup (map owner_key owners) -> In o owners ->
  filter (has_key dec key (owner_key o)) (flat_map rows_of owners) = rows_of o.
Proof.
  induction owners as [|x l IH]; simpl; intros N I; [contradiction|].
  inversion N as [|? ? Nx N']; subst.
  rewrite filter_app. destruct I as [-> | I].
  - assert (F1 : filter (has_key dec key (owner_key o)) (rows_of o) = rows_of o).
    { apply filter_true. intros y Hy. unfold has_key.
      rewrite (rows_key o y Hy).
      destruct (dec (owner_key o) (owner_key o)); [reflexivity | congruence]. }
    assert (F2 : filter (has_key dec key (owner_key o)) (flat_map rows_of l) = []).
    { apply filter_false. intros y Hy. apply in_flat_map in Hy.
      destruct Hy as (o' & Io' & Hy). unfold has_key.
      destruct (dec (key y) (owner_key o)) as [E|]; [|reflexivity].
      exfalso. apply Nx. rewrite <- E, (rows_key o' y Hy).
      apply in_map. assumption. }
    rewrite F1, F2. apply app_nil_r.
  - assert (F1 : filter (has_key dec key (owner_key o)) (rows_of x) = []).
    { apply filter_false. intros y Hy. unfold has_key.
      destruct (dec (key y) (owner_key o)) as [E|]; [|reflexivity].
      exfalso. apply Nx. rewrite <- (rows_key x y Hy), E.
      apply in_map. assumption. }
    rewrite F1, IH by assumption. reflexivity.
Qed.

Lemma keys_of_owners (owners : list O) :
  NoDup (map owner_key owners) ->
  Permutation (nodup dec (map key (flat_map rows_of owners)))
              (map owner_key (filter (fun o => nonempty (rows_of o)) owners)).
Proof.
  intros N. apply NoDup_Permutation.
  - apply NoDup_nodup.
  - apply NoDup_map_filter. assumption.
  - intros k. rewrite nodup_In, !in_map_iff. split.
    + intros (y & E & Hy). apply in_flat_map in Hy.
      destruct Hy as (o & Io & Hy). exists o. split.
      * rewrite <- E. symmetry. apply rows_key. assumption.
      * apply filter_In. split; [assumption|].
        destruct (rows_of o); [contradiction | reflexivity].
    + intros (o & E & Io). apply filter_In in Io. destruct Io as [Io Ne].
      destruct (rows_of o) as [|y r] eqn:Er; [discriminate|].
      exists y. split.
      * rewrite <- E. apply rows_key. rewrite Er. left. reflexivity.
      * apply in_flat_map. exists o. split; [assumption|].
        rewrite Er. left. reflexivity.
Qed.

Lemma flat_map_filter_nil {B : Type} (f : O -> list B) (p : O -> bool)
    (l : list O) :
  (forall x, p x = false -> f x = []) ->
  flat_map f (filter p l) = flat_map f l.
Proof.
  intros H. induction l as [|x l IH]; simpl; [reflexivity|].
  destruct (p x) eqn:P; simpl; rewrite IH; [reflexivity|].
  rewrite (H x P). reflexivity.
Qed.

(** Grouping the rows of a join by the key of their owner gives, up to
    order, one group per owner: the owner's rows. *)
Lemma groups_by_owner (owners : list O) :
  NoDup (map owner_key owners) ->
  Permutation (flat_map G (groups dec key (flat_map rows_of owners)))
              (flat_map (fun o => G (rows_of o)) owners).
Proof.
  intros N. unfold groups. rewrite flat_map_over_map.
  rewrite (Permutation_flat_map _ (keys_of_owners owners N)).
  rewrite flat_map_over_map.
  rewrite <- (flat_map_filter_nil (fun o => G (rows_of o))
                (fun o => nonempty (rows_of o)) owners).
  - erewrite flat_map_ext_in; [reflexivity|].
    intros o Io. apply filter_In in Io. destruct Io as [Io _].
    cbv beta. f_equal. apply (group_of_owner owners o N Io).
  - intros o Ho. destruct (rows_of o); [assumption | discriminate].
Qed.

End Grouping.

(* ================================================================= *)
(** ** The order listing, statement by statement *)

(** Case analysis on which of the four filters a request supplies. *)
Ltac supplied_filters q :=
  destruct (JS.or_empty (q "status"%string)),
           (JS.or_empty (q "customer_id"%string)),
           (JS.or_empty (q "start_date"%string)),
           (JS.or_empty (q "end_date"%string)).

Section OrderListing.

Import Pg.

Lemma orders_statements_shape (q : Query) :
  let k := List.length (filter_params q) in
  exists t1 t2,
    Orders.statements q =
      ((t1, (filter_params q ++ [PNum (Orders.limit_of q); PNum (offset_of q)])),
       (t2, filter_params q)) /\
    pg_parse t1 = Some (SelectOrders (filter_plan q) true (Some (S k, S (S k)))) /\
    pg_parse t2 = Some (CountOrders (filter_plan q)).
Proof.
  unfold Orders.statements, Orders.filters, filter_params, filter_plan,
    offset_of, status_of, customer_id_of, start_date_of, end_date_of.
  supplied_filters q;
    (do 2 eexists; split; [reflexivity | split; vm_compute; reflexivity]).
Qed.

Lemma orders_bind (srv : Server) (q : Query) (rest : list Param) :
  match order_pred srv q with
  | Some m =>
      exists p, bind_filters srv (filter_params q ++ rest) (filter_plan q) = Some p
                /\ forall o, p o = m o
  | None => bind_filters srv (filter_params q ++ rest) (filter_plan q) = None
  end.
Proof.
  unfold order_pred, accept, filter_params, filter_plan, matches,
    status_of, customer_id_of, start_date_of, end_date_of.
  supplied_filters q;
    cbn [JS.truthy filter map app b2n Nat.add bind_filters bind_filter
         param Nat.pred nth_error];
    unfold as_int, as_date, as_text;
    repeat match goal with
           | |- context [int_in srv ?s] => destruct (int_in srv s)
           | |- context [date_in srv ?s] => destruct (date_in srv s)
           end;
    try reflexivity;
    try (eexists; split; [reflexivity|]; intros o; cbv beta;
         rewrite ?andb_true_r, ?andb_true_l; repeat rewrite andb_assoc;
         reflexivity).
Qed.

Lemma orders_arity (q : Query) :
  let k := List.length (filter_params q) in
  arity (SelectOrders (filter_plan q) true (Some (S k, S (S k)))) = S (S k)
  /\ arity (CountOrders (filter_plan q)) = k.
Proof.
  unfold filter_params, filter_plan,
    status_of, customer_id_of, start_date_of, end_date_of.
  supplied_filters q; split; reflexivity.
Qed.

Lemma as_count_num (srv : Server) (n : Z) : as_count srv (PNum n) = count_ok n.
Proof.
  unfold as_count, count_ok.
  repeat (match goal with
          | |- context [?a <=? ?b] => destruct (Z.leb_spec a b)
          end; cbn [andb]);
    try reflexivity; unfold int8_max in *; lia.
Qed.

Lemma bind_window_tail (srv : Server) (ps : list Param) (l o : Z) :
  let k := List.length ps in
  bind_window srv (ps ++ [PNum l; PNum o]) (S k, S (S k)) =
    match count_ok l, count_ok o with
    | Some lim, Some off => Some (lim, off)
    | _, _ => None
    end.
Proof.
  intros k. unfold bind_window, param. cbn [fst snd Nat.pred].
  rewrite (nth_error_app2 ps _ (n := k)) by (subst k; lia).
  rewrite (nth_error_app2 ps _ (n := S k)) by (subst k; lia).
  subst k. rewrite Nat.sub_diag.
  replace (S (List.length ps) - List.length ps)%nat with 1%nat by lia.
  cbn [nth_error]. rewrite !as_count_num. reflexivity.
Qed.

(** The order listing, in terms of what its statements denote. *)
Lemma orders_handler_eq (srv : Server) (q : Query) :
  Orders.handler srv q =
    match order_pred srv q,
          count_ok (Orders.limit_of q), count_ok (offset_of q) with
    | Some m, Some lim, Some off =>
        Listing "orders"
          (window lim off
             (order_by true (tie srv) (keyed_orders (selected srv m))))
          (envelope (Orders.page_of q) (Orders.limit_of q)
             (JS.Int (Z.of_nat (List.length (selected srv m)))))
    | _, _, _ => orders_failure
    end.
Proof.
  destruct (orders_statements_shape q) as (t1 & t2 & E & P1 & P2).
  destruct (orders_arity q) as [A1 A2].
  pose proof (orders_bind srv q [PNum (Orders.limit_of q); PNum (offset_of q)]) as B1.
  pose proof (orders_bind srv q []) as B2. rewrite app_nil_r in B2.
  pose proof (bind_window_tail srv (filter_params q)
                (Orders.limit_of q) (offset_of q)) as W.
  cbv zeta in E, P1, A1, A2, W.
  unfold Orders.handler. rewrite E. unfold pool_query. rewrite P1, P2.
  unfold exec. rewrite A1, A2, length_app. cbn [List.length].
  replace (List.length (filter_params q) + 2)%nat
    with (S (S (List.length (filter_params q)))) by lia.
  rewrite !Nat.eqb_refl. cbn [negb]. rewrite W.
  destruct (order_pred srv q) as [m|].
  - destruct B1 as (p1 & -> & H1), B2 as (p2 & -> & H2).
    assert (F1 : filter (fun oc : Order * Customer => p1 (fst oc))
                   (orders_join_customers (store srv)) = selected srv m)
      by (apply filter_ext; intros; apply H1).
    assert (F2 : filter (fun oc : Order * Customer => p2 (fst oc))
                   (orders_join_customers (store srv)) = selected srv m)
      by (apply filter_ext; intros; apply H2).
    rewrite F1, F2.
    destruct (count_ok (Orders.limit_of q)), (count_ok (offset_of q));
      reflexivity.
  - rewrite B1. reflexivity.
Qed.

End OrderListing.

(* ================================================================= *)
(** ** The customer listing, statement by statement *)

Section CustomerListing.

Import Pg.

Lemma customers_statements_shape (q : Query) :
  let k := List.length (search_params q) in
  exists t1 t2,
    Customers.statements q =
      ((t1, search_params q
              ++ [PNum (Customers.limit_of q); PNum (customers_offset_of q)]),
       (t2, search_params q)) /\
    pg_parse t1 = Some (SelectCustomers (search_plan q) (S k, S (S k))) /\
    pg_parse t2 = Some (CountCustomers (search_plan q)).
Proof.
  unfold Customers.statements, search_params, search_plan, search_pattern,
    customers_offset_of, search_of.
  destruct (JS.or_empty (q "search"%string));
    (do 2 eexists; split; [reflexivity | split; vm_compute; reflexivity]).
Qed.

Lemma customers_bind (q : Query) (rest : list Param) :
  exists p, bind_search (search_params q ++ rest) (search_plan q) = Some p
            /\ forall c, p c = qualifies q c.
Proof.
  unfold search_params, search_plan, qualifies.
  destruct (JS.truthy (search_of q)); eexists; split; reflexivity.
Qed.

(** The customer listing, in terms of what its statements denote. *)
Lemma customers_handler_eq (srv : Server) (q : Query) :
  Customers.handler srv q =
    match count_ok (Customers.limit_of q),
          count_ok (customers_offset_of q) with
    | Some lim, Some off =>
        Listing "customers"
          (window lim off
             (order_by true (tie srv)
                (customer_groups (selected_customers srv q))))
          (envelope (Customers.page_of q) (Customers.limit_of q)
             (JS.Int (Z.of_nat
                (List.length (filter (qualifies q) (customers (store srv)))))))
    | _, _ => customers_failure
    end.
Proof.
  destruct (customers_statements_shape q) as (t1 & t2 & E & P1 & P2).
  destruct (customers_bind q
              [PNum (Customers.limit_of q); PNum (customers_offset_of q)])
    as (p1 & B1 & H1).
  destruct (customers_bind q []) as (p2 & B2 & H2). rewrite app_nil_r in B2.
  pose proof (bind_window_tail srv (search_params q)
                (Customers.limit_of q) (customers_offset_of q)) as W.
  cbv zeta in E, P1, W.
  assert (A : arity (SelectCustomers (search_plan q)
                       (S (List.length (search_params q)),
                        S (S (List.length (search_params q)))))
              = S (S (List.length (search_params q)))
              /\ arity (CountCustomers (search_plan q))
                 = List.length (search_params q)).
  { unfold search_plan, search_params.
    destruct (JS.truthy (search_of q)); split; reflexivity. }
  destruct A as [A1 A2].
  unfold Customers.handler. rewrite E. unfold pool_query. rewrite P1, P2.
  unfold exec. rewrite A1, A2, length_app. cbn [List.length].
  replace (List.length (search_params q) + 2)%nat
    with (S (S (List.length (search_params q)))) by lia.
  rewrite !Nat.eqb_refl. cbn [negb]. rewrite W, B1, B2.
  assert (F1 : filter (fun co : Customer * option Order => p1 (fst co))
                 (customers_left_join_orders (store srv))
               = selected_customers srv q)
    by (apply filter_ext; intros; apply H1).
  assert (F2 : filter p2 (customers (store srv))
               = filter (qualifies q) (customers (store srv)))
    by (apply filter_ext; intros; apply H2).
  rewrite F1, F2.
  destruct (count_ok (Customers.limit_of q)),
           (count_ok (customers_offset_of q)); reflexivity.
Qed.

End CustomerListing.

(* ================================================================= *)
(** ** Pagination envelope *)

Section Envelope.

Import Pg.

Lemma envelope_facts (p l : Z) (n : nat) :
  1 <= l ->
  let pg := envelope p l (JS.Int (Z.of_nat n)) in
  exists tp,
    totalPages pg = JS.Int tp
    /\ (tp - 1) * l < Z.of_nat n <= tp * l
    /\ (n = 0%nat -> tp = 0)
    /\ hasNext pg = (p <? tp)
    /\ hasPrev pg = (1 <? p).
Proof.
  intros Hl pg. subst pg. unfold envelope, JS.ceil_div.
  destruct (Z.eqb_spec l 0) as [->|_]; [lia|].
  eexists. cbn [totalPages hasNext hasPrev JS.lt_num].
  split; [reflexivity|]. split; [apply ceiling_bounds; lia|].
  split; [|split; reflexivity].
  intros ->. pose proof (ceiling_bounds 0 l ltac:(lia)) as B.
  cbv zeta in B. change (Z.of_nat 0) with 0. nia.
Qed.

Lemma order_pred_same (s1 s2 : Server) (q : Query) :
  same_data s1 s2 -> order_pred s1 q = order_pred s2 q.
Proof.
  intros (_ & Hi & Hd). unfold order_pred, accept.
  rewrite !Hi, !Hd. reflexivity.
Qed.

Lemma orders_pagination_same (s1 s2 : Server) (q : Query) :
  same_data s1 s2 ->
  pagination_of (Orders.handler s1 q) = pagination_of (Orders.handler s2 q).
Proof.
  intros S. rewrite !orders_handler_eq, (order_pred_same s1 s2 q S).
  destruct S as (Hs & _). unfold selected. rewrite Hs.
  destruct (order_pred s2 q), (count_ok (Orders.limit_of q)),
    (count_ok (offset_of q)); reflexivity.
Qed.

Lemma customers_pagination_same (s1 s2 : Server) (q : Query) :
  same_data s1 s2 ->
  pagination_of (Customers.handler s1 q)
  = pagination_of (Customers.handler s2 q).
Proof.
  intros (Hs & _). rewrite !customers_handler_eq, Hs.
  destruct (count_ok (Customers.limit_of q)),
    (count_ok (customers_offset_of q)); reflexivity.
Qed.

Lemma orders_listing_inv (srv : Server) (q : Query) key rows pg :
  Orders.handler srv q = Listing key rows pg ->
  exists m lim off,
    order_pred srv q = Some m
    /\ count_ok (Orders.limit_of q) = Some lim
    /\ count_ok (offset_of q) = Some off
    /\ rows = window lim off
                (order_by true (tie srv) (keyed_orders (selected srv m)))
    /\ pg = envelope (Orders.page_of q) (Orders.limit_of q)
              (JS.Int (Z.of_nat (List.length (selected srv m)))).
Proof.
  rewrite orders_handler_eq.
  destruct (order_pred srv q) as [m|]; [|discriminate].
  destruct (count_ok (Orders.limit_of q)) as [lim|]; [|discriminate].
  destruct (count_ok (offset_of q)) as [off|]; [|discriminate].
  intros H. injection H as _ <- <-. exists m, lim, off. auto.
Qed.

Lemma customers_listing_inv (srv : Server) (q : Query) key rows pg :
  Customers.handler srv q = Listing key rows pg ->
  exists lim off,
    count_ok (Customers.limit_of q) = Some lim
    /\ count_ok (customers_offset_of q) = Some off
    /\ rows = window lim off
                (order_by true (tie srv)
                   (customer_groups (selected_customers srv q)))
    /\ pg = envelope (Customers.page_of q) (Customers.limit_of q)
              (JS.Int (Z.of_nat
                 (List.length (filter (qualifies q) (customers (store srv)))))).
Proof.
  rewrite customers_handler_eq.
  destruct (count_ok (Customers.limit_of q)) as [lim|]; [|discriminate].
  destruct (count_ok (customers_offset_of q)) as [off|]; [|discriminate].
  intros H. injection H as _ <- <-. exists lim, off. auto.
Qed.

End Envelope.

(** C1.  In every answer of the order listing and of the customer listing
    whose parsed page [p] and limit [l] are at least 1, the envelope holds a
    count [tc >= 0], [totalPages] is the ceiling of [tc / l] (the least
    [tp] with [tc <= tp * l], so 0 for a count of 0), [hasNext] is
    [p < totalPages] and [hasPrev] is [p > 1]; the envelope is the function
    [envelope] of [p], [l] and the count alone, and a second call on a
    server with the same data, whatever its clock and its order of equal
    keys, carries the same envelope. *)
Theorem pagination_envelope :
  forall (handler : Pg.Server -> Query -> Response),
    handler = Orders.handler \/ handler = Customers.handler ->
    forall (srv : Pg.Server) (q : Query) key rows pg,
      handler srv q = Listing key rows pg ->
      let p := JS.or_num (JS.parseInt (q "page"%string)) 1 in
      let l := JS.or_num (JS.parseInt (q "limit"%string)) 10 in
      1 <= p -> 1 <= l ->
      (exists tc tp,
          totalCount pg = JS.Int tc /\ 0 <= tc
          /\ totalPages pg = JS.Int tp
          /\ (tp - 1) * l < tc <= tp * l
          /\ (tc = 0 -> tp = 0)
          /\ currentPage pg = p
          /\ hasNext pg = (p <? tp)
          /\ hasPrev pg = (1 <? p)
          /\ pg = envelope p l (JS.Int tc))
      /\ (forall srv', same_data srv srv' ->
            pagination_of (handler srv' q) = Some pg).
Proof.
  intros handler Hh srv q key rows pg H p l Hp Hl.
  assert (E : exists n, pg = envelope p l (JS.Int (Z.of_nat n))).
  { destruct Hh as [-> | ->].
    - apply orders_listing_inv in H.
      destruct H as (m & lim & off & _ & _ & _ & _ & ->). eexists. reflexivity.
    - apply customers_listing_inv in H.
      destruct H as (lim & off & _ & _ & _ & ->). eexists. reflexivity. }
  destruct E as (n & E). split.
  - destruct (envelope_facts p l n Hl) as (tp & T & B & Z0 & N & P).
    cbv zeta in T, B, Z0, N, P. rewrite <- E in T, N, P.
    exists (Z.of_nat n), tp. rewrite E at 1 3. cbn [totalCount currentPage].
    repeat split; auto; try lia.
  - intros srv' S. destruct Hh as [-> | ->].
    + rewrite <- (orders_pagination_same srv srv' q S), H. reflexivity.
    + rewrite <- (customers_pagination_same srv srv' q S), H. reflexivity.
Qed.

(* ================================================================= *)
(** ** Count query against row query *)

Section CountConsistency.

Import Pg.

Lemma orders_texts (q : Query) :
  let k := Z.of_nat (List.length (filter_params q)) in
  fst (fst (Orders.statements q)) =
    (Orders.select_text ++ where_text q ++ " ORDER BY o.created_at DESC"
       ++ " LIMIT $" ++ JS.show (k + 1)
       ++ " OFFSET $" ++ JS.show (k + 2))%string
  /\ fst (snd (Orders.statements q)) = (Orders.count_text ++ where_text q)%string.
Proof.
  unfold Orders.statements, Orders.filters, unpaginated_text, where_text,
    filter_params, status_of, customer_id_of, start_date_of, end_date_of.
  supplied_filters q; split; reflexivity.
Qed.

Lemma unpaginated_parse (q : Query) :
  pg_parse (unpaginated_text q) = Some (SelectOrders (filter_plan q) true None).
Proof.
  unfold unpaginated_text, where_text, filter_plan,
    status_of, customer_id_of, start_date_of, end_date_of.
  supplied_filters q; vm_compute; reflexivity.
Qed.

Lemma filter_plan_placeholders (q : Query) :
  map filter_ph (filter_plan q) = seq 1 (List.length (filter_params q)).
Proof.
  unfold filter_params, filter_plan,
    status_of, customer_id_of, start_date_of, end_date_of.
  supplied_filters q; reflexivity.
Qed.

Lemma unpaginated_query (srv : Server) (q : Query) :
  pool_query srv (unpaginated_text q) (filter_params q) =
    match order_pred srv q with
    | Some m => Rows (order_by true (tie srv) (keyed_orders (selected srv m)))
    | None => Error
    end.
Proof.
  unfold pool_query. rewrite unpaginated_parse. unfold exec.
  destruct (orders_arity q) as [_ A]. cbv zeta in A.
  assert (A' : arity (SelectOrders (filter_plan q) true None)
               = List.length (filter_params q))
    by (rewrite <- A; unfold arity, search_phs; rewrite app_nil_r; reflexivity).
  rewrite A', Nat.eqb_refl. cbn [negb].
  pose proof (orders_bind srv q []) as B. rewrite app_nil_r in B.
  destruct (order_pred srv q) as [m|].
  - destruct B as (p & -> & H).
    assert (F : filter (fun oc : Order * Customer => p (fst oc))
                  (orders_join_customers (store srv)) = selected srv m)
      by (apply filter_ext; intros; apply H).
    rewrite F. reflexivity.
  - rewrite B. reflexivity.
Qed.

Lemma count_query (srv : Server) (q : Query) :
  pool_query srv (fst (snd (Orders.statements q))) (snd (snd (Orders.statements q))) =
    match order_pred srv q with
    | Some m => Rows [count_row "count" (List.length (selected srv m))]
    | None => Error
    end.
Proof.
  destruct (orders_statements_shape q) as (t1 & t2 & E & _ & P2).
  rewrite E. cbn [fst snd]. unfold pool_query. rewrite P2. unfold exec.
  destruct (orders_arity q) as [_ A]. cbv zeta in A.
  rewrite A, Nat.eqb_refl. cbn [negb].
  pose proof (orders_bind srv q []) as B. rewrite app_nil_r in B.
  destruct (order_pred srv q) as [m|].
  - destruct B as (p & -> & H).
    assert (F : filter (fun oc : Order * Customer => p (fst oc))
                  (orders_join_customers (store srv)) = selected srv m)
      by (apply filter_ext; intros; apply H).
    rewrite F. reflexivity.
  - rewrite B. reflexivity.
Qed.

End CountConsistency.

(** C2.  The two statements of an order listing carry the same filter
    clauses: the row query is the select head, the clauses, the ordering and
    the window; the count query is the count head and the same clauses.
    Both read as the same list of predicates, whose placeholders are
    [$1 .. $k]; the parameters of the row query are those of the count query
    followed by limit and offset.  On every server the count query answers
    exactly when the row query without its window does, and the count it
    answers, which the listing reports as [totalCount], is the number of rows
    of that unpaginated query. *)
Theorem count_query_consistent :
  forall q : Query,
    let query := fst (fst (Orders.statements q)) in
    let queryParams := snd (fst (Orders.statements q)) in
    let countQuery := fst (snd (Orders.statements q)) in
    let countParams := snd (snd (Orders.statements q)) in
    let limit := Orders.limit_of q in
    let offset := (Orders.page_of q - 1) * limit in
    let k := List.length countParams in
    (exists (clauses : string) (fs : list Pg.Filter),
        query = (Orders.select_text ++ clauses ++ " ORDER BY o.created_at DESC"
                   ++ " LIMIT $" ++ JS.show (Z.of_nat k + 1)
                   ++ " OFFSET $" ++ JS.show (Z.of_nat k + 2))%string
        /\ countQuery = (Orders.count_text ++ clauses)%string
        /\ Pg.pg_parse query = Some (Pg.SelectOrders fs true (Some (S k, S (S k))))
        /\ Pg.pg_parse countQuery = Some (Pg.CountOrders fs)
        /\ Pg.pg_parse (Orders.select_text ++ clauses
                          ++ " ORDER BY o.created_at DESC")%string
           = Some (Pg.SelectOrders fs true None)
        /\ map Pg.filter_ph fs = seq 1 k)
    /\ queryParams = countParams ++ [Pg.PNum limit; Pg.PNum offset]
    /\ (forall srv : Pg.Server,
          match Pg.pool_query srv countQuery countParams with
          | Pg.Rows [row] =>
              exists all,
                Pg.pool_query srv (unpaginated_text q) countParams = Pg.Rows all
                /\ parseInt_field row "count" = JS.Int (Z.of_nat (List.length all))
                /\ forall key rows pg,
                     Orders.handler srv q = Listing key rows pg ->
                     totalCount pg = JS.Int (Z.of_nat (List.length all))
          | Pg.Rows _ => False
          | Pg.Error =>
              Pg.pool_query srv (unpaginated_text q) countParams = Pg.Error
              /\ Orders.handler srv q = orders_failure
          end).
Proof.
  intros q query queryParams countQuery countParams limit offset k.
  destruct (orders_statements_shape q) as (t1 & t2 & E & P1 & P2).
  destruct (orders_texts q) as [T1 T2]. cbv zeta in P1, T1.
  assert (Ecp : countParams = filter_params q)
    by (subst countParams; rewrite E; reflexivity).
  assert (Eqp : queryParams = filter_params q ++ [Pg.PNum limit; Pg.PNum offset])
    by (subst queryParams; rewrite E; reflexivity).
  assert (Ek : k = List.length (filter_params q)) by (subst k; rewrite Ecp; reflexivity).
  split; [|split].
  - exists (where_text q), (filter_plan q).
    subst query countQuery. rewrite Ek.
    split; [exact T1|]. split; [exact T2|].
    rewrite E. cbn [fst snd].
    split; [exact P1|]. split; [exact P2|].
    split; [apply (unpaginated_parse q) | apply filter_plan_placeholders].
  - rewrite Eqp, Ecp. reflexivity.
  - intros srv. subst countQuery countParams. rewrite count_query.
    rewrite E. cbn [fst snd]. rewrite unpaginated_query.
    destruct (order_pred srv q) as [m|] eqn:Em.
    + eexists. split; [reflexivity|].
      assert (L : List.length
                    (Pg.order_by true (Pg.tie srv) (keyed_orders (selected srv m)))
                  = List.length (selected srv m))
        by (rewrite order_by_length; unfold keyed_orders; apply length_map).
      rewrite L. split; [reflexivity|].
      intros key rows pg H. apply orders_listing_inv in H.
      destruct H as (m' & lim & off & Em' & _ & _ & _ & ->).
      rewrite Em in Em'. injection Em' as <-. reflexivity.
    + split; [reflexivity|]. rewrite orders_handler_eq, Em. reflexivity.
Qed.

(* ================================================================= *)
(** ** Dashboard summary *)

Section Summary.

Import Pg.

Lemma dashboard_parse :
  pg_parse (Dashboard.queries_at 0) = Some (CountAll "total_orders" TOrders)
  /\ pg_parse (Dashboard.queries_at 1)
     = Some (CountAll "total_customers" TCustomers)
  /\ pg_parse (Dashboard.queries_at 2)
     = Some (SumTotalStatusIn "total_revenue" 1 2)
  /\ pg_parse (Dashboard.queries_at 3)
     = Some (CountStatusEq "pending_orders" 1).
Proof. repeat split; vm_compute; reflexivity. Qed.

Lemma coalesce_sum (os : list Order) : coalesce (sql_sum os) 0 = sum_total os.
Proof. destruct os; reflexivity. Qed.

Lemma dashboard_handler_eq (srv : Server) :
  Dashboard.handler srv =
    Summary
      {| totalOrders := JS.Int (Z.of_nat (List.length (orders (store srv))));
         totalCustomers :=
           JS.Int (Z.of_nat (List.length (customers (store srv))));
         totalRevenue :=
           Some (Qmake (sum_total (filter realised (orders (store srv)))) 100);
         pendingOrders :=
           JS.Int (Z.of_nat
                     (List.length (filter pending (orders (store srv))))) |}.
Proof.
  destruct dashboard_parse as (P0 & P1 & P2 & P3).
  unfold Dashboard.handler, pool_query. rewrite P0, P1, P2, P3.
  unfold exec. cbn [arity List.length Nat.eqb negb Nat.max param Nat.pred
                    nth_error as_text count_row].
  unfold parseInt_field, parseFloat_field.
  cbn [field String.eqb Ascii.eqb Bool.eqb]. rewrite ?String.eqb_refl.
  rewrite coalesce_sum. reflexivity.
Qed.

End Summary.

(** C3.  The dashboard summary answers, on every server, the number of
    orders, the number of customers, the sum of [total] over the orders
    whose status is completed or shipped (an empty sum is 0), and the number
    of pending orders.  On the seed of two customers, A with two completed
    orders of 299.99 and 89.99 and B with one pending order of 149.50, it
    answers 3 orders, 2 customers, a revenue of 389.98 and 1 pending
    order. *)
Theorem dashboard_summary :
  (forall srv : Pg.Server,
      let os := orders (Pg.store srv) in
      let counted :=
        filter (fun o => String.eqb (o_status o) "completed"
                         || String.eqb (o_status o) "shipped") os in
      Dashboard.handler srv =
        Summary
          {| totalOrders := JS.Int (Z.of_nat (List.length os));
             totalCustomers :=
               JS.Int (Z.of_nat (List.length (customers (Pg.store srv))));
             totalRevenue :=
               Some (Qmake (fold_right (fun o acc => o_total o + acc) 0 counted) 100);
             pendingOrders :=
               JS.Int (Z.of_nat
                   (List.length
                      (filter (fun o => String.eqb (o_status o) "pending") os))) |}
      /\ (counted = [] ->
          exists m, Dashboard.handler srv = Summary m
                    /\ totalRevenue m = Some (Qmake 0 100)))
  /\ (forall now tb,
        Dashboard.handler (Fixture.server Fixture.seed now tb) =
          Summary {| totalOrders := JS.Int 3;
                     totalCustomers := JS.Int 2;
                     totalRevenue := Some (Qmake 38998 100);
                     pendingOrders := JS.Int 1 |}).
Proof.
  split.
  - intros srv os counted. rewrite dashboard_handler_eq. split; [reflexivity|].
    intros E. eexists. split; [reflexivity|]. cbn [totalRevenue].
    change (filter realised (orders (Pg.store srv))) with counted.
    rewrite E. reflexivity.
  - intros now tb. rewrite dashboard_handler_eq. reflexivity.
Qed.

(* ================================================================= *)
(** ** Derived metrics of the dashboard view *)

Section Derived.

Import DashboardView.

Lemma denominator_max (m : DashboardMetrics) :
  0 <= totalOrders m -> denominator m = Z.max (totalOrders m) 1.
Proof.
  intros H. unfold denominator, JS.or_num.
  destruct (Z.eqb_spec (totalOrders m) 0); lia.
Qed.

Lemma served_no_orders (srv : Pg.Server) (m : DashboardMetrics) :
  served srv = Some m -> totalOrders m = 0 -> totalRevenue m = Qmake 0 100.
Proof.
  unfold served. rewrite dashboard_handler_eq. cbn [of_summary].
  intros H. injection H as <-. cbn [totalOrders totalRevenue].
  intros H. destruct (orders (Pg.store srv)); [reflexivity | discriminate].
Qed.

End Derived.

(** C10.  For metrics whose order count is not negative, the view divides
    by [max(totalOrders, 1)], which is never 0:
    [averageOrderValue = totalRevenue / max(totalOrders, 1)] and
    [completionRate = (totalOrders - pendingOrders) / max(totalOrders, 1) * 100].
    With no orders the denominator is 1, and the metrics served by the
    summary endpoint then give an average order value of 0. *)
Theorem derived_metrics :
  forall m : DashboardView.DashboardMetrics,
    0 <= DashboardView.totalOrders m ->
    let d := inject_Z (Z.max (DashboardView.totalOrders m) 1) in
    DashboardView.denominator m = Z.max (DashboardView.totalOrders m) 1
    /\ DashboardView.denominator m <> 0
    /\ DashboardView.averageOrderValue m = (DashboardView.totalRevenue m / d)%Q
    /\ DashboardView.completionRate m =
         (inject_Z (DashboardView.totalOrders m - DashboardView.pendingOrders m)
          / d * inject_Z 100)%Q
    /\ (DashboardView.totalOrders m = 0 ->
        DashboardView.denominator m = 1
        /\ forall srv : Pg.Server,
             served srv = Some m ->
             (DashboardView.averageOrderValue m == 0)%Q).
Proof.
  intros m H d. pose proof (denominator_max m H) as D.
  split; [exact D|]. split; [lia|].
  unfold DashboardView.averageOrderValue, DashboardView.completionRate.
  rewrite D. split; [reflexivity|]. split; [reflexivity|].
  intros Z0. split; [rewrite Z0; reflexivity|].
  intros srv S. rewrite (served_no_orders srv m S Z0), Z0. reflexivity.
Qed.

(* ================================================================= *)
(** ** Requests the model reads as the program does *)

Section Exactness.

Lemma safe_le_int8 (n : Z) : n <= max_safe_integer -> n <= Pg.int8_max.
Proof. unfold max_safe_integer, Pg.int8_max. lia. Qed.

Lemma exact_window_bounds (pt lt : option string) (p l : Z) :
  exact_window pt lt p l ->
  l <= Pg.int8_max /\ (p - 1) * l <= Pg.int8_max.
Proof.
  intros (_ & _ & _ & (_ & L) & (_ & O)).
  split; apply safe_le_int8; assumption.
Qed.

End Exactness.

(* ================================================================= *)
(** ** Filters of the order listing *)

Section OrderFilters.

Import Pg.

Lemma join_row (st : Store) (o : Order) (c : Customer) :
  In (o, c) (orders_join_customers st) <->
  In o (orders st) /\ In c (customers st) /\ o_customer_id o = c_id c.
Proof.
  unfold orders_join_customers. rewrite in_flat_map. split.
  - intros (o' & Ho & H). apply in_map_iff in H.
    destruct H as (c' & E & Hc). injection E as -> ->.
    apply filter_In in Hc. destruct Hc as [Hc K]. apply Z.eqb_eq in K. auto.
  - intros (Ho & Hc & K). exists o. split; [assumption|].
    apply in_map. apply filter_In. split; [assumption|].
    apply Z.eqb_eq. assumption.
Qed.

Lemma selected_row (srv : Server) (m : Order -> bool) (o : Order) (c : Customer) :
  In (o, c) (selected srv m) <->
  In o (orders (store srv)) /\ In c (customers (store srv))
  /\ o_customer_id o = c_id c /\ m o = true.
Proof.
  unfold selected. rewrite filter_In, join_row. cbn [fst]. tauto.
Qed.

Lemma window_incl {A : Type} (lim off : nat) (l : list A) (x : A) :
  In x (window lim off l) -> In x l.
Proof.
  unfold window. intros H.
  rewrite <- (firstn_skipn off l). apply in_or_app. right.
  rewrite <- (firstn_skipn lim (skipn off l)). apply in_or_app. left.
  exact H.
Qed.

(** Every row of a page comes from a selected joined row. *)
Lemma page_row (srv : Server) (m : Order -> bool) (lim off : nat) (row : Row) :
  In row (window lim off
            (order_by true (tie srv) (keyed_orders (selected srv m)))) ->
  exists o c, In (o, c) (selected srv m) /\ row = order_row (o, c).
Proof.
  intros H. apply window_incl in H. apply order_by_in in H.
  unfold keyed_orders in H. rewrite map_map in H. cbn [snd] in H.
  apply in_map_iff in H. destruct H as ([o c] & E & I).
  exists o, c. auto.
Qed.

Lemma matches_spec (status : string) (cid from to : option Z) (o : Order) :
  matches status cid from to o = true <->
  (JS.truthy status = true -> o_status o = status)
  /\ (forall k, cid = Some k -> o_customer_id o = k)
  /\ (forall d, from = Some d -> d <= o_order_date o)
  /\ (forall d, to = Some d -> o_order_date o <= d).
Proof.
  unfold matches. rewrite !andb_true_iff. split.
  - intros (((S & C) & F) & T). repeat split.
    + intros Ht. rewrite Ht in S. apply String.eqb_eq. assumption.
    + intros k ->. apply Z.eqb_eq. assumption.
    + intros d ->. apply Z.leb_le. assumption.
    + intros d ->. apply Z.leb_le. assumption.
  - intros (S & C & F & T). repeat split.
    + destruct (JS.truthy status); [|reflexivity].
      apply String.eqb_eq. auto.
    + destruct cid; [|reflexivity]. apply Z.eqb_eq. auto.
    + destruct from; [|reflexivity]. apply Z.leb_le. auto.
    + destruct to; [|reflexivity]. apply Z.leb_le. auto.
Qed.

Lemma accept_supplied (input : string -> option Z) (v : string) (r : option Z) :
  accept input v = Some r ->
  (JS.truthy v = true -> exists k, input v = Some k /\ r = Some k)
  /\ (JS.truthy v = false -> r = None).
Proof.
  unfold accept. destruct (JS.truthy v).
  - destruct (input v) as [k|]; [|discriminate].
    intros H. injection H as <-. split; [eauto | discriminate].
  - intros H. injection H as <-. split; [discriminate | reflexivity].
Qed.

Lemma accept_none (input : string -> option Z) :
  accept input (JS.or_empty None) = Some None.
Proof. reflexivity. Qed.

(** Dropping a filter can only widen the predicate, and a request the
    server accepted stays accepted. *)
Lemma order_pred_without (srv : Server) (q : Query) (name : string)
    (m : Order -> bool) :
  In name filter_names ->
  order_pred srv q = Some m ->
  exists m', order_pred srv (without name q) = Some m'
             /\ forall o, m o = true -> m' o = true.
Proof.
  unfold order_pred, status_of, customer_id_of, start_date_of, end_date_of.
  intros Hn.
  destruct (accept (int_in srv) (JS.or_empty (q "customer_id"%string)))
    as [c|] eqn:Ec; [|discriminate].
  destruct (accept (date_in srv) (JS.or_empty (q "start_date"%string)))
    as [f|] eqn:Ef; [|discriminate].
  destruct (accept (date_in srv) (JS.or_empty (q "end_date"%string)))
    as [t|] eqn:Et; [|discriminate].
  intros H. injection H as <-.
  cbn [filter_names In] in Hn.
  destruct Hn as [<- | [<- | [<- | [<- | []]]]]; unfold without;
    cbn [String.eqb Ascii.eqb Bool.eqb andb];
    rewrite ?Ec, ?Ef, ?Et, ?accept_none;
    eexists; (split; [reflexivity|]); intros o; rewrite !matches_spec;
    intros (S & C & F & T); repeat split; auto; try discriminate.
Qed.

Lemma paging_without (q : Query) (name : string) :
  In name filter_names ->
  Orders.page_of (without name q) = Orders.page_of q
  /\ Orders.limit_of (without name q) = Orders.limit_of q.
Proof.
  intros Hn. cbn [filter_names In] in Hn.
  destruct Hn as [<- | [<- | [<- | [<- | []]]]]; split; reflexivity.
Qed.

End OrderFilters.

(** C5.  The rows of an order listing are joined rows of an order and its
    customer, and each satisfies every supplied filter at once: the status
    is the supplied text, the customer id is the supplied integer, the order
    date is on or after the supplied start date and on or before the
    supplied end date.  Dropping any one filter from a request that was
    answered gives a request that is answered too, on any server with the
    same data, with a [totalCount] at least as large. *)
Theorem filters_conjunction_monotone :
  forall (srv : Pg.Server) (q : Query) key rows pg,
    Orders.handler srv q = Listing key rows pg ->
    let status := JS.or_empty (q "status"%string) in
    let customerId := JS.or_empty (q "customer_id"%string) in
    let startDate := JS.or_empty (q "start_date"%string) in
    let endDate := JS.or_empty (q "end_date"%string) in
    (forall row, In row rows ->
       exists o c,
         In o (orders (Pg.store srv)) /\ In c (customers (Pg.store srv))
         /\ o_customer_id o = c_id c
         /\ row = Pg.order_row (o, c)
         /\ (JS.truthy status = true -> o_status o = status)
         /\ (JS.truthy customerId = true ->
             exists k, Pg.int_in srv customerId = Some k /\ o_customer_id o = k)
         /\ (JS.truthy startDate = true ->
             exists d, Pg.date_in srv startDate = Some d /\ d <= o_order_date o)
         /\ (JS.truthy endDate = true ->
             exists d, Pg.date_in srv endDate = Some d /\ o_order_date o <= d))
    /\ (forall name srv',
          In name ["status"; "customer_id"; "start_date"; "end_date"]%string ->
          same_data srv srv' ->
          exists rows' pg' n n',
            Orders.handler srv' (without name q) = Listing key rows' pg'
            /\ totalCount pg = JS.Int n
            /\ totalCount pg' = JS.Int n'
            /\ n <= n').
Proof.
  intros srv q key rows pg H status customerId startDate endDate.
  assert (K : key = "orders"%string).
  { rewrite orders_handler_eq in H.
    destruct (order_pred srv q), (count_ok (Orders.limit_of q)),
      (count_ok (offset_of q)); try discriminate.
    injection H as <- _ _. reflexivity. }
  apply orders_listing_inv in H.
  destruct H as (m & lim & off & Em & El & Eo & -> & ->).
  split.
  - intros row Hr. apply page_row in Hr. destruct Hr as (o & c & I & ->).
    apply selected_row in I. destruct I as (Io & Ic & J & M).
    exists o, c. repeat (split; [assumption|]). split; [reflexivity|].
    unfold order_pred in Em.
    destruct (accept (Pg.int_in srv) (customer_id_of q)) as [cv|] eqn:Ec;
      [|discriminate].
    destruct (accept (Pg.date_in srv) (start_date_of q)) as [fv|] eqn:Ef;
      [|discriminate].
    destruct (accept (Pg.date_in srv) (end_date_of q)) as [tv|] eqn:Et;
      [|discriminate].
    injection Em as <-. apply matches_spec in M.
    destruct M as (S & C & F & T).
    apply accept_supplied in Ec, Ef, Et.
    split; [exact S|]. split; [|split].
    + intros Ht. destruct (proj1 Ec Ht) as (k & Hk & ->). eauto.
    + intros Ht. destruct (proj1 Ef Ht) as (d & Hd & ->). eauto.
    + intros Ht. destruct (proj1 Et Ht) as (d & Hd & ->). eauto.
  - intros name srv' Hn S.
    destruct (order_pred_without srv q name m Hn Em) as (m' & Em' & W).
    destruct (paging_without q name Hn) as [Pp Pl].
    rewrite orders_handler_eq.
    rewrite <- (order_pred_same srv srv' _ S), Em'.
    unfold offset_of. rewrite Pp, Pl. fold (offset_of q). rewrite El, Eo.
    do 4 eexists. rewrite K. split; [reflexivity|].
    cbn [totalCount envelope]. split; [reflexivity|]. split; [reflexivity|].
    destruct S as (Hs & _). unfold selected. rewrite <- Hs.
    apply Nat2Z.inj_le. apply filter_length_le_imp. intros [o c]. apply W.
Qed.

(* ================================================================= *)
(** ** A filter on a customer that does not exist *)

Section NoSuchCustomer.

Import Pg.

Lemma selected_none (srv : Server) (m : Order -> bool) :
  (forall o c, In c (customers (store srv)) -> o_customer_id o = c_id c ->
               m o = false) ->
  selected srv m = [].
Proof.
  intros H. unfold selected. apply filter_false. intros [o c] I.
  apply join_row in I. destruct I as (_ & Ic & J). cbn [fst]. eauto.
Qed.

Lemma empty_envelope (p l : Z) :
  1 <= p -> 1 <= l ->
  envelope p l (JS.Int 0) =
    {| currentPage := p; totalPages := JS.Int 0; totalCount := JS.Int 0;
       hasNext := false; hasPrev := 1 <? p |}.
Proof.
  intros Hp Hl.
  destruct (envelope_facts p l 0 Hl) as (tp & T & _ & Z0 & N & _).
  cbv zeta in T, N. change (Z.of_nat 0) with 0 in T, N.
  specialize (Z0 eq_refl). subst tp.
  unfold envelope in *. cbn [totalPages hasNext] in T, N.
  rewrite T. cbn [JS.lt_num]. f_equal.
  apply Z.ltb_ge. lia.
Qed.

Lemma count_ok_some (n : Z) :
  0 <= n -> n <= int8_max -> count_ok n = Some (Z.to_nat n).
Proof.
  intros H0 H1. unfold count_ok.
  destruct (Z.leb_spec 0 n); [|lia].
  destruct (Z.leb_spec n int8_max); [reflexivity|lia].
Qed.

End NoSuchCustomer.

(** C9, as amended.  For a request whose page and limit are ASCII texts
    that parse to at least 1, with the page, the limit and the offset
    among JavaScript's safe integers (at most 2^53 - 1), and whose
    [status], [customer_id], [start_date] and [end_date] hold no NUL
    character: when the server reads the [customer_id] value as an
    integer that is the id of no customer, and reads the supplied dates
    as dates, the order listing succeeds with no rows, [totalCount = 0],
    [totalPages = 0] and [hasNext = false]. *)
Theorem nonexistent_customer_empty_page :
  forall (srv : Pg.Server) (q : Query) (k : Z),
    let page := JS.or_num (JS.parseInt (q "page"%string)) 1 in
    let limit := JS.or_num (JS.parseInt (q "limit"%string)) 10 in
    let customerId := JS.or_empty (q "customer_id"%string) in
    let startDate := JS.or_empty (q "start_date"%string) in
    let endDate := JS.or_empty (q "end_date"%string) in
    exact_window (q "page"%string) (q "limit"%string) page limit ->
    forallb no_nul [JS.or_empty (q "status"%string); customerId;
                    startDate; endDate] = true ->
    1 <= page -> 1 <= limit ->
    JS.truthy customerId = true ->
    Pg.int_in srv customerId = Some k ->
    (forall c, In c (customers (Pg.store srv)) -> c_id c <> k) ->
    (JS.truthy startDate = true -> Pg.date_in srv startDate <> None) ->
    (JS.truthy endDate = true -> Pg.date_in srv endDate <> None) ->
    Orders.handler srv q =
      Listing "orders" []
        {| currentPage := page; totalPages := JS.Int 0; totalCount := JS.Int 0;
           hasNext := false; hasPrev := 1 <? page |}.
Proof.
  intros srv q k page limit customerId startDate endDate
    Hx _ Hp Hl Hc Hk Hno Hs He.
  destruct (exact_window_bounds _ _ _ _ Hx) as (Hl8 & Ho8).
  rewrite orders_handler_eq.
  unfold order_pred, accept, customer_id_of, start_date_of, end_date_of.
  fold customerId startDate endDate. rewrite Hc, Hk.
  assert (Ef : exists f,
             (if JS.truthy startDate
              then match Pg.date_in srv startDate with
                   | Some d => Some (Some d) | None => None end
              else Some None) = Some f).
  { destruct (JS.truthy startDate); [|eauto].
    destruct (Pg.date_in srv startDate); [eauto | exfalso; apply Hs; auto]. }
  assert (Et : exists t,
             (if JS.truthy endDate
              then match Pg.date_in srv endDate with
                   | Some d => Some (Some d) | None => None end
              else Some None) = Some t).
  { destruct (JS.truthy endDate); [|eauto].
    destruct (Pg.date_in srv endDate); [eauto | exfalso; apply He; auto]. }
  destruct Ef as (f & ->), Et as (t & ->).
  assert (Cl : count_ok (Orders.limit_of q) = Some (Z.to_nat limit))
    by (apply count_ok_some; [change (0 <= limit); lia | exact Hl8]).
  assert (Co : count_ok (offset_of q) = Some (Z.to_nat ((page - 1) * limit)))
    by (apply count_ok_some; [change (0 <= (page - 1) * limit); nia | exact Ho8]).
  rewrite Cl, Co.
  rewrite selected_none.
  - cbn [keyed_orders map Pg.order_by Pg.sort_rows List.length].
    unfold Pg.window. rewrite skipn_nil, firstn_nil.
    change (Z.of_nat 0) with 0. rewrite empty_envelope by assumption.
    reflexivity.
  - intros o c Ic J. unfold matches.
    assert (Z.eqb (o_customer_id o) k = false) as ->.
    { apply Z.eqb_neq. rewrite J. apply Hno. assumption. }
    rewrite andb_false_r. reflexivity.
Qed.

(* ================================================================= *)
(** ** Aggregates of the customer listing *)

Section CustomerAggregates.

Import Pg.

Lemma joined_rows_owner st c x : In x (joined_rows st c) -> fst x = c.
Proof.
  unfold joined_rows. destruct (orders_of st c) as [|o os].
  - intros [<-|[]]. reflexivity.
  - intros H. apply in_map_iff in H. destruct H as (o' & <- & _). reflexivity.
Qed.

Lemma present_some (c : Customer) (os : list Order) :
  present (map (fun o => (c, Some o)) os) = os.
Proof. induction os; simpl; congruence. Qed.

Lemma present_joined st c : present (joined_rows st c) = orders_of st c.
Proof.
  unfold joined_rows. destruct (orders_of st c) as [|o os] eqn:E.
  - reflexivity.
  - apply present_some.
Qed.

Lemma filter_flat_map {X Y : Type} (p : Y -> bool) (p' : X -> bool)
    (f : X -> list Y) (l : list X) :
  (forall x y, In y (f x) -> p y = p' x) ->
  filter p (flat_map f l) = flat_map f (filter p' l).
Proof.
  intros H. induction l as [|x l IH]; simpl; [reflexivity|].
  rewrite filter_app, IH. destruct (p' x) eqn:P; simpl.
  - rewrite filter_true; [reflexivity|]. intros y Hy. rewrite (H x y Hy). exact P.
  - rewrite filter_false; [reflexivity|]. intros y Hy. rewrite (H x y Hy). exact P.
Qed.

Lemma selected_customers_eq (srv : Server) (q : Query) :
  selected_customers srv q =
    flat_map (joined_rows (store srv))
             (filter (qualifies q) (customers (store srv))).
Proof.
  unfold selected_customers, customers_left_join_orders.
  apply (filter_flat_map _ (qualifies q) (joined_rows (store srv))).
  intros c x Hx. rewrite (joined_rows_owner _ _ _ Hx). reflexivity.
Qed.

Lemma customer_group_joined st c :
  customer_group (joined_rows st c) =
    [(c_created_at c, customer_row c (orders_of st c))].
Proof.
  rewrite <- present_joined. unfold customer_group, joined_rows.
  destruct (orders_of st c); reflexivity.
Qed.

(** One aggregated row per selected customer. *)
Lemma customer_groups_perm (srv : Server) (q : Query) :
  NoDup (customer_ids (store srv)) ->
  Permutation
    (customer_groups (selected_customers srv q))
    (map (fun c => (c_created_at c,
                    customer_row c (orders_of (store srv) c)))
         (filter (qualifies q) (customers (store srv)))).
Proof.
  intros N. rewrite selected_customers_eq.
  change customer_groups with
    (fun sel => flat_map customer_group
                  (groups Z.eq_dec
                     (fun co : Customer * option Order => c_id (fst co)) sel)).
  cbv beta.
  rewrite (groups_by_owner Z.eq_dec c_id (fun co => c_id (fst co))
             (joined_rows (store srv)) customer_group).
  - erewrite flat_map_ext_in
      with (g := fun c => [(c_created_at c,
                            customer_row c (orders_of (store srv) c))]).
    + rewrite flat_map_singleton. reflexivity.
    + intros c _. apply customer_group_joined.
  - intros c x Hx. rewrite (joined_rows_owner _ _ _ Hx). reflexivity.
  - reflexivity.
  - unfold customer_ids in N.
    apply (NoDup_map_filter c_id). exact N.
Qed.

Lemma count_ok_inv (n : Z) (k : nat) :
  count_ok n = Some k -> 0 <= n /\ k = Z.to_nat n.
Proof.
  unfold count_ok. destruct (Z.leb_spec 0 n); [|discriminate].
  destruct (n <=? int8_max); [|discriminate].
  intros E. injection E as <-. auto.
Qed.

Lemma customer_row_eq (c : Customer) (os : list Order) :
  customer_row c os =
    customer_columns c ++
    [ ("order_count"%string, VInt (Z.of_nat (List.length os)));
      ("total_spent"%string, VDec (sum_total os)) ].
Proof. unfold customer_row. rewrite coalesce_sum. reflexivity. Qed.

End CustomerAggregates.

(** C4.  With customer ids unique, the customer listing groups before it
    windows: its rows are LIMIT/OFFSET applied to a list [grouped] that
    holds exactly one aggregated row per customer selected by the search.
    Each row of the page is the row of such a customer: its columns,
    [order_count] the number of orders that reference it and [total_spent]
    the sum of their totals, both 0 when it has no order. *)
Theorem customer_aggregates :
  forall (srv : Pg.Server) (q : Query) key rows pg,
    NoDup (customer_ids (Pg.store srv)) ->
    Customers.handler srv q = Listing key rows pg ->
    let st := Pg.store srv in
    let limit := Customers.limit_of q in
    let offset := (Customers.page_of q - 1) * limit in
    let referencing (c : Customer) :=
      filter (fun o => c_id c =? o_customer_id o) (orders st) in
    let total (c : Customer) :=
      fold_right (fun o acc => o_total o + acc) 0 (referencing c) in
    let aggregated (c : Customer) : Row :=
      customer_columns c ++
      [ ("order_count"%string, VInt (Z.of_nat (List.length (referencing c))));
        ("total_spent"%string, VDec (total c)) ] in
    (exists grouped,
        Permutation grouped
          (map aggregated (filter (qualifies q) (customers st)))
        /\ 0 <= limit /\ 0 <= offset
        /\ rows = firstn (Z.to_nat limit) (skipn (Z.to_nat offset) grouped))
    /\ (forall row, In row rows ->
          exists c,
            In c (customers st) /\ qualifies q c = true
            /\ row = aggregated c
            /\ field "order_count" row
               = Some (VInt (Z.of_nat (List.length (referencing c))))
            /\ field "total_spent" row = Some (VDec (total c))
            /\ (referencing c = [] ->
                field "order_count" row = Some (VInt 0)
                /\ field "total_spent" row = Some (VDec 0))).
Proof.
  intros srv q key rows pg N H st limit offset referencing total aggregated.
  apply customers_listing_inv in H.
  destruct H as (lim & off & El & Eo & -> & _).
  apply count_ok_inv in El, Eo. destruct El as [Hl ->], Eo as [Ho ->].
  set (grouped := Pg.order_by true (Pg.tie srv)
                    (Pg.customer_groups (selected_customers srv q))).
  assert (P : Permutation grouped
                (map aggregated (filter (qualifies q) (customers st)))).
  { subst grouped. rewrite order_by_perm.
    rewrite (Permutation_map snd (customer_groups_perm srv q N)).
    rewrite map_map. cbn [snd].
    erewrite map_ext; [reflexivity|]. intros c. apply customer_row_eq. }
  split.
  - exists grouped. repeat split; auto.
  - intros row Hr. apply window_incl in Hr.
    apply (Permutation_in _ P) in Hr. apply in_map_iff in Hr.
    destruct Hr as (c & <- & Ic). apply filter_In in Ic. destruct Ic as [Ic Qc].
    exists c. repeat (split; [assumption|]). split; [reflexivity|].
    split; [reflexivity|]. split; [reflexivity|].
    intros E. subst aggregated total. cbv beta. rewrite E. split; reflexivity.
Qed.

(* ================================================================= *)
(** ** Orders over time *)

Section OrdersOverTime.

Import Pg.

Lemma words_from_app (s1 s2 cur : string) :
  words_from cur (s1 ++ s2) =
    fst (split_words cur s1) ++ words_from (snd (split_words cur s1)) s2.
Proof.
  revert cur. induction s1 as [|c r IH]; intros cur; simpl; [reflexivity|].
  destruct (is_blank c).
  - rewrite IH. destruct (split_words EmptyString r) as [ws last].
    cbn [fst snd]. rewrite app_assoc. reflexivity.
  - apply IH.
Qed.

Lemma append_assoc (a b c : string) :
  ((a ++ b) ++ c = a ++ (b ++ c))%string.
Proof. induction a; simpl; congruence. Qed.

Lemma split_words_no_blank (s cur : string) :
  no_blank s = true -> split_words cur s = ([], (cur ++ s)%string).
Proof.
  revert cur. induction s as [|c r IH]; intros cur; simpl.
  - intros _. f_equal. induction cur; simpl; congruence.
  - intros H. apply andb_true_iff in H. destruct H as [Hc Hr].
    apply negb_true_iff in Hc. rewrite Hc, IH by assumption.
    rewrite append_assoc. reflexivity.
Qed.

Lemma no_blank_uint (u : Decimal.uint) :
  no_blank (NilEmpty.string_of_uint u) = true.
Proof. induction u; simpl; auto. Qed.

Lemma no_blank_show (z : Z) : no_blank (JS.show z) = true.
Proof.
  unfold JS.show. destruct (Z.to_int z); simpl; apply no_blank_uint.
Qed.

Lemma read_show (z : Z) :
  NilEmpty.int_of_string (JS.show z) = Some (Z.to_int z).
Proof. unfold JS.show. apply NilEmpty.isi. Qed.

Lemma orders_over_time_parse (days : Z) :
  pg_parse (Charts.orders_over_time_text days) = Some (OrdersOverTime days).
Proof.
  unfold pg_parse, Charts.orders_over_time_text, words.
  rewrite words_from_app.
  match goal with
  | |- context [split_words EmptyString ?pre] =>
      let r := eval vm_compute in (split_words EmptyString pre) in
      change (split_words EmptyString pre) with r
  end.
  cbn [fst snd]. rewrite words_from_app.
  rewrite (split_words_no_blank _ _ (no_blank_show days)).
  cbn [fst snd app].
  generalize (read_show days). generalize (JS.show days). intros s Hs.
  match goal with
  | |- context [words_from (?a ++ s)%string ?post] =>
      change (a ++ s)%string with (String "'" s);
      let r := eval vm_compute in (words_from EmptyString post) in
      change (words_from (String "'" s) post)
        with (String "'" s :: r)
  end.
  unfold read_select_orders, read_count_orders, read_select_customers,
    read_count_customers, read_count_as, read_sum_total,
    read_orders_over_time, read_revenue_by_customer, orders_join.
  cbn [app expect String.eqb Ascii.eqb Bool.eqb first_some
       read_interval_days].
  rewrite Hs. cbn [expect String.eqb Ascii.eqb Bool.eqb].
  rewrite DecimalZ.of_to. reflexivity.
Qed.

Lemma on_date_true d o : on_date d o = true <-> o_order_date o = d.
Proof. unfold on_date. destruct (Z.eq_dec (o_order_date o) d); split; auto; discriminate. Qed.

(** One row per date that occurs among the selected orders. *)
Lemma day_groups_eq (sel : list Order) :
  day_groups sel = map (day_entry sel) (nodup Z.eq_dec (map o_order_date sel)).
Proof.
  unfold day_groups, groups. rewrite flat_map_over_map.
  rewrite <- (flat_map_singleton (day_entry sel)). apply flat_map_ext_in.
  intros d Hd. apply nodup_In in Hd. apply in_map_iff in Hd.
  destruct Hd as (o & Ed & Io).
  change (fun x : Order => if Z.eq_dec (o_order_date x) d then true else false)
    with (on_date d).
  unfold day_entry.
  destruct (filter (on_date d) sel) as [|o' g] eqn:E.
  - exfalso. assert (In o (filter (on_date d) sel)) as I
      by (apply filter_In; split; [assumption | apply on_date_true; assumption]).
    rewrite E in I. contradiction.
  - assert (In o' (filter (on_date d) sel)) as I by (rewrite E; left; reflexivity).
    apply filter_In in I. destruct I as [_ I]. apply on_date_true in I.
    rewrite I. reflexivity.
Qed.

Lemma sorted_strict (l : list Z) :
  StronglySorted Z.le l -> NoDup l -> StronglySorted Z.lt l.
Proof.
  induction 1 as [|a l S IH F]; intros N; constructor.
  - apply IH. inversion N; assumption.
  - inversion N as [|? ? Na N']; subst.
    rewrite Forall_forall in *. intros x Hx.
    specialize (F x Hx). assert (a <> x) by (intros ->; contradiction). lia.
Qed.

Lemma filter_filter_imp {X : Type} (p r : X -> bool) (l : list X) :
  (forall x, p x = true -> r x = true) ->
  filter p (filter r l) = filter p l.
Proof.
  intros H. induction l as [|x l IH]; simpl; [reflexivity|].
  destruct (r x) eqn:R; simpl; rewrite IH; [reflexivity|].
  destruct (p x) eqn:P; [|reflexivity].
  rewrite (H x P) in R. discriminate.
Qed.

(** The rows of the series: the dates in ascending order, each with the
    orders of the selection placed on it. *)
Lemma day_series (tb : Row -> Row -> bool) (sel : list Order) :
  exists ds,
    order_by false tb (day_groups sel) = map (fun d => snd (day_entry sel d)) ds
    /\ StronglySorted Z.lt ds
    /\ forall d, In d ds <-> In d (map o_order_date sel).
Proof.
  rewrite day_groups_eq.
  set (ks := nodup Z.eq_dec (map o_order_date sel)).
  set (sorted := sort_rows false tb (map (day_entry sel) ks)).
  assert (P : Permutation sorted (map (day_entry sel) ks))
    by apply sort_rows_perm.
  assert (Pk : Permutation (map fst sorted) ks).
  { rewrite (Permutation_map fst P), map_map. cbn [day_entry fst].
    rewrite map_id. reflexivity. }
  exists (map fst sorted). split; [|split].
  - unfold order_by. fold sorted. rewrite map_map.
    apply map_ext_in. intros e He.
    apply (Permutation_in _ P) in He. apply in_map_iff in He.
    destruct He as (d & <- & _). reflexivity.
  - apply sorted_strict.
    + pose proof (sorted_keys false _ (sort_rows_sorted false tb
                    (map (day_entry sel) ks))) as S.
      exact S.
    + eapply Permutation_NoDup; [symmetry; exact Pk|]. apply NoDup_nodup.
  - intros d. split; intros H.
    + apply (Permutation_in _ Pk) in H. apply nodup_In in H. exact H.
    + apply (Permutation_in _ (Permutation_sym Pk)). apply nodup_In. exact H.
Qed.

End OrdersOverTime.

(** C8, as amended.  With [days] the parsed parameter (30 when it is
    absent, not a number or zero), its text ASCII, at most a million days
    either way, and the current date of the server between 1970 and the
    year 4707, so that the date arithmetic of the statement stays within
    PostgreSQL's timestamps, the orders-over-time endpoint answers a
    series: exactly one row for each calendar date on or after the
    current date minus [days] that has at least one order, with no upper
    bound on the date, in strictly ascending order of date; each row
    carries the number of orders placed on its date and the sum of their
    totals.  Dates without orders have no row, and when no order is dated
    on or after that day the series is empty. *)
Theorem orders_over_time_series :
  forall (srv : Pg.Server) (q : Query),
    let days := JS.or_num (JS.parseInt (q "days"%string)) 30 in
    let from := Pg.today srv - days in
    let placed (d : Z) :=
      filter (fun o => o_order_date o =? d) (orders (Pg.store srv)) in
    let row (d : Z) : Row :=
      [ ("date"%string, VDate d);
        ("order_count"%string, VInt (Z.of_nat (List.length (placed d))));
        ("revenue"%string,
         VDec (fold_right (fun o acc => o_total o + acc) 0 (placed d))) ] in
    ascii_only (JS.or_empty (q "days"%string)) = true ->
    within_calendar (Pg.today srv) days ->
    exists ds,
      Charts.orders_over_time srv q = Series (map row ds)
      /\ StronglySorted Z.lt ds
      /\ (forall d, In d ds <->
                    from <= d
                    /\ exists o, In o (orders (Pg.store srv))
                                 /\ o_order_date o = d)
      /\ ((forall o, In o (orders (Pg.store srv)) -> o_order_date o < from) ->
          ds = []).
Proof.
  intros srv q days from placed row _ _.
  unfold Charts.orders_over_time, Pg.pool_query.
  change (Charts.days_of q) with days.
  rewrite orders_over_time_parse. unfold Pg.exec.
  cbn [Pg.arity List.length Nat.eqb negb].
  set (sel := filter (fun o => Pg.today srv - days <=? o_order_date o)
                     (orders (Pg.store srv))).
  destruct (day_series (Pg.tie srv) sel) as (ds & E & S & I).
  assert (M : forall d, In d ds <->
                from <= d /\ exists o, In o (orders (Pg.store srv))
                                       /\ o_order_date o = d).
  { intros d. rewrite I, in_map_iff. subst sel. split.
    - intros (o & <- & Ho). apply filter_In in Ho. destruct Ho as [Ho W].
      apply Z.leb_le in W. split; [exact W | eauto].
    - intros (W & o & Ho & <-). exists o. split; [reflexivity|].
      apply filter_In. split; [assumption | apply Z.leb_le; exact W]. }
  exists ds. split; [|split; [exact S | split; [exact M|]]].
  - rewrite E. f_equal. apply map_ext_in. intros d Hd.
    apply M in Hd. destruct Hd as (W & o & Ho & Ed).
    unfold day_entry. cbn [snd].
    assert (F : filter (on_date d) sel = placed d).
    { subst sel placed. rewrite filter_filter_imp.
      - apply filter_ext. intros x. unfold on_date.
        destruct (Z.eq_dec (o_order_date x) d) as [->|N].
        + symmetry. apply Z.eqb_refl.
        + symmetry. apply Z.eqb_neq. exact N.
      - intros x Hx. apply on_date_true in Hx. apply Z.leb_le.
        rewrite Hx. exact W. }
    rewrite F. subst row. cbv beta. unfold Pg.day_row.
    destruct (placed d) as [|o' r] eqn:Ep; [|reflexivity].
    exfalso. assert (In o (placed d)) as Io.
    { subst placed. apply filter_In. split; [assumption|].
      apply Z.eqb_eq. exact Ed. }
    rewrite Ep in Io. contradiction.
  - intros H. destruct ds as [|d ds']; [reflexivity|].
    exfalso. destruct (proj1 (M d) (or_introl eq_refl)) as (W & o & Ho & Ed).
    specialize (H o Ho). lia.
Qed.

(* ================================================================= *)
(** ** Revenue by customer *)

Section RevenueRanking.

Import Pg.

Lemma completed_join (st : Store) :
  filter (fun co : Customer * Order => is_completed (snd co))
         (customers_join_orders st)
  = flat_map (completed_rows st) (customers st).
Proof.
  unfold customers_join_orders, completed_rows, completed_of, orders_of.
  induction (customers st) as [|c l IH]; simpl; [reflexivity|].
  rewrite filter_app, IH, filter_map_swap. reflexivity.
Qed.

Lemma revenue_group_rows (st : Store) (c : Customer) :
  revenue_group (completed_rows st c) =
    if nonempty (completed_of st c) then [revenue_entry st c] else [].
Proof.
  unfold revenue_group, completed_rows, revenue_entry, revenue_of.
  destruct (completed_of st c) as [|o os] eqn:E; [reflexivity|].
  cbn [map nonempty]. rewrite map_map. cbn [snd]. rewrite map_id.
  reflexivity.
Qed.

Lemma NoDup_pair_key (l : list Customer) :
  NoDup (map c_id l) -> NoDup (map (fun c => (c_id c, c_name c)) l).
Proof.
  induction l as [|c l IH]; simpl; intros N; [constructor|].
  inversion N as [|? ? Nc N']; subst. constructor; [|auto].
  intros I. apply Nc. apply in_map_iff in I. destruct I as (c' & E & I).
  injection E as E _. rewrite <- E. apply in_map. assumption.
Qed.

Lemma flat_map_if {X Y : Type} (p : X -> bool) (f : X -> Y) (l : list X) :
  flat_map (fun x => if p x then [f x] else []) l = map f (filter p l).
Proof.
  induction l as [|x l IH]; simpl; [reflexivity|].
  destruct (p x); simpl; rewrite IH; reflexivity.
Qed.

(** The grouped rows of the statement: one per ranked customer. *)
Lemma revenue_groups_perm (st : Store) :
  NoDup (customer_ids st) ->
  Permutation
    (revenue_groups
       (filter (fun co : Customer * Order =>
                  String.eqb (o_status (snd co)) "completed")
               (customers_join_orders st)))
    (map (revenue_entry st) (ranked_customers st)).
Proof.
  intros N.
  change (fun co : Customer * Order => String.eqb (o_status (snd co)) "completed")
    with (fun co : Customer * Order => is_completed (snd co)).
  rewrite completed_join.
  change revenue_groups with
    (fun sel => flat_map revenue_group
                  (groups key_dec
                     (fun co : Customer * Order =>
                        (c_id (fst co), c_name (fst co))) sel)).
  cbv beta.
  rewrite (groups_by_owner key_dec (fun c => (c_id c, c_name c))
             (fun co => (c_id (fst co), c_name (fst co)))
             (completed_rows st) revenue_group).
  - erewrite flat_map_ext_in
      with (g := fun c => if nonempty (completed_of st c)
                          then [revenue_entry st c] else []).
    + rewrite flat_map_if. reflexivity.
    + intros c _. apply revenue_group_rows.
  - intros c x Hx. unfold completed_rows in Hx. apply in_map_iff in Hx.
    destruct Hx as (o & <- & _). reflexivity.
  - reflexivity.
  - apply NoDup_pair_key. exact N.
Qed.

Lemma revenue_parse :
  pg_parse Charts.revenue_by_customer_text = Some (RevenueByCustomer 1).
Proof. vm_compute. reflexivity. Qed.

Lemma revenue_handler_eq (srv : Server) (q : Query) :
  Charts.revenue_by_customer srv q =
    match count_ok (Charts.limit_of q) with
    | Some lim =>
        Series (firstn lim (order_by true (tie srv) (revenue_rows (store srv))))
    | None => revenue_failure
    end.
Proof.
  unfold Charts.revenue_by_customer, pool_query. rewrite revenue_parse.
  unfold exec. cbn [arity List.length Nat.eqb negb param Nat.pred nth_error].
  rewrite as_count_num.
  destruct (count_ok (Charts.limit_of q)); reflexivity.
Qed.

Lemma sorted_map {X : Type} (f : X -> Z * Row) (l : list X) :
  StronglySorted (key_le true) (map f l) ->
  StronglySorted (fun a b => fst (f b) <= fst (f a)) l.
Proof.
  induction l as [|x l IH]; simpl; intros S; constructor;
    inversion S as [|? ? S' F]; subst.
  - apply IH. assumption.
  - rewrite Forall_map in F. exact F.
Qed.

(** What ORDER BY revenue DESC leaves: a ranking of the customers. *)
Lemma revenue_ranking (tb : Row -> Row -> bool) (st : Store) :
  NoDup (customer_ids st) ->
  exists ranking,
    Permutation ranking (ranked_customers st)
    /\ StronglySorted (fun a b => revenue_of st b <= revenue_of st a) ranking
    /\ sort_rows true tb (revenue_rows st) = map (revenue_entry st) ranking.
Proof.
  intros N.
  assert (P : Permutation (sort_rows true tb (revenue_rows st))
                (map (revenue_entry st) (ranked_customers st))).
  { rewrite sort_rows_perm. apply revenue_groups_perm. exact N. }
  destruct (Permutation_map_inv _ _ P) as (ranking & E & Pr).
  exists ranking. split; [symmetry; exact Pr|]. split; [|exact E].
  apply (sorted_map (revenue_entry st)). rewrite <- E.
  apply sort_rows_sorted.
Qed.

End RevenueRanking.

Section RevenueAnswers.

Import Pg.

Lemma revenue_entry_row (st : Store) (c : Customer) :
  In c (ranked_customers st) ->
  snd (revenue_entry st c) =
    [ ("name"%string, VText (c_name c));
      ("total_revenue"%string, VDec (revenue_of st c));
      ("order_count"%string,
       VInt (Z.of_nat (List.length (completed_of st c)))) ].
Proof.
  intros I. apply filter_In in I. destruct I as [_ Ne].
  unfold revenue_entry, revenue_row, revenue_of. cbn [snd].
  destruct (completed_of st c); [discriminate | reflexivity].
Qed.

Lemma revenue_series (srv : Server) (q : Query) (ranking : list Customer) :
  1 <= Charts.limit_of q -> Charts.limit_of q <= int8_max ->
  Permutation ranking (ranked_customers (store srv)) ->
  sort_rows true (tie srv) (revenue_rows (store srv))
    = map (revenue_entry (store srv)) ranking ->
  Charts.revenue_by_customer srv q =
    Series (map (fun c => snd (revenue_entry (store srv) c))
                (firstn (Z.to_nat (Charts.limit_of q)) ranking)).
Proof.
  intros Hl Hm P E. rewrite revenue_handler_eq.
  rewrite count_ok_some by (assumption || lia).
  unfold order_by. rewrite E, map_map, firstn_map. reflexivity.
Qed.

End RevenueAnswers.

(** C7, as amended.  With customer ids unique and a limit whose text is
    ASCII and parses to [N] between 1 and 2^53 - 1, the largest of
    JavaScript's safe integers (10 when the limit is absent, not a number
    or zero), the revenue-by-customer endpoint answers the first [N] rows
    of a ranking of the customers that have at least one completed order,
    in descending order of the sum of [total] over their completed
    orders, each row carrying the name, that sum and the number of
    completed orders.  The statement orders by revenue alone: the order of
    customers with equal revenue is the server's choice.  Every call on the
    same data answers the same sequence of revenue values, and when the
    revenues are pairwise distinct every call answers the same rows. *)
Theorem revenue_by_customer_ranking :
  forall (srv : Pg.Server) (q : Query),
    let limit := JS.or_num (JS.parseInt (q "limit"%string)) 10 in
    let st := Pg.store srv in
    let completed (c : Customer) :=
      filter (fun o => String.eqb (o_status o) "completed")
             (filter (fun o => c_id c =? o_customer_id o) (orders st)) in
    let revenue (c : Customer) :=
      fold_right (fun o acc => o_total o + acc) 0 (completed c) in
    let row (c : Customer) : Row :=
      [ ("name"%string, VText (c_name c));
        ("total_revenue"%string, VDec (revenue c));
        ("order_count"%string, VInt (Z.of_nat (List.length (completed c)))) ] in
    NoDup (customer_ids st) ->
    ascii_only (JS.or_empty (q "limit"%string)) = true ->
    1 <= limit -> limit <= max_safe_integer ->
    exists ranking : list Customer,
      Permutation ranking
        (filter (fun c => match completed c with [] => false | _ :: _ => true end)
                (customers st))
      /\ StronglySorted (fun a b => revenue b <= revenue a) ranking
      /\ Charts.revenue_by_customer srv q
         = Series (map row (firstn (Z.to_nat limit) ranking))
      /\ (forall srv', same_data srv srv' ->
            revenues (Charts.revenue_by_customer srv' q)
            = revenues (Charts.revenue_by_customer srv q))
      /\ (NoDup (map revenue ranking) ->
          forall srv', same_data srv srv' ->
            Charts.revenue_by_customer srv' q
            = Charts.revenue_by_customer srv q).
Proof.
  intros srv q limit st completed revenue row N _ Hl Hsafe.
  pose proof (safe_le_int8 _ Hsafe) as Hm.
  destruct (revenue_ranking (Pg.tie srv) st N) as (ranking & P & S & E).
  assert (R : forall l, (forall c, In c l -> In c (ranked_customers st)) ->
                map (fun c => snd (revenue_entry st c)) l = map row l).
  { intros l Hin. apply map_ext_in. intros c Ic.
    apply revenue_entry_row. apply Hin. exact Ic. }
  assert (In_first : forall (l : list Customer) n c,
             In c (firstn n l) -> In c l).
  { intros l n c I. rewrite <- (firstn_skipn n l). apply in_or_app. auto. }
  assert (A : forall srv0 ranking0,
             Pg.store srv0 = st ->
             Permutation ranking0 (ranked_customers st) ->
             Pg.sort_rows true (Pg.tie srv0) (revenue_rows st)
               = map (revenue_entry st) ranking0 ->
             Charts.revenue_by_customer srv0 q
             = Series (map row (firstn (Z.to_nat limit) ranking0))).
  { intros srv0 ranking0 Es P0 E0.
    rewrite (revenue_series srv0 q ranking0 Hl Hm); rewrite ?Es; auto.
    f_equal. apply R. intros c Ic. apply In_first in Ic.
    eapply Permutation_in; [exact P0 | exact Ic]. }
  exists ranking. split; [exact P|]. split; [exact S|].
  split; [apply A; auto|]. split.
  - intros srv' (Hs & _).
    assert (N' : NoDup (customer_ids (Pg.store srv')))
      by (rewrite <- Hs; exact N).
    destruct (revenue_ranking (Pg.tie srv') st N) as (ranking' & P' & S' & E').
    rewrite (A srv ranking eq_refl P E), (A srv' ranking' (eq_sym Hs) P' E').
    cbn [revenues]. rewrite !map_map. cbn [field String.eqb Ascii.eqb Bool.eqb].
    change (map (fun c => Some (VDec (revenue c))) (firstn (Z.to_nat limit) ranking')
            = map (fun c => Some (VDec (revenue c))) (firstn (Z.to_nat limit) ranking)).
    rewrite <- !firstn_map.
    rewrite <- (map_map revenue (fun v => Some (VDec v)) ranking').
    rewrite <- (map_map revenue (fun v => Some (VDec v)) ranking).
    assert (K : map revenue ranking' = map revenue ranking).
    { pose proof (sort_rows_keys true (Pg.tie srv') (Pg.tie srv) (revenue_rows st)) as K.
      rewrite E, E', !map_map in K. exact K. }
    rewrite K. reflexivity.
  - intros D srv' (Hs & _).
    rewrite !revenue_handler_eq, <- Hs.
    destruct (count_ok (Charts.limit_of q)); [|reflexivity].
    unfold Pg.order_by.
    rewrite (sort_rows_distinct true (Pg.tie srv') (Pg.tie srv)); [reflexivity|].
    eapply Permutation_NoDup; [|exact D].
    change (revenue_rows (Pg.store srv)) with (revenue_rows st).
    rewrite <- (sort_rows_perm true (Pg.tie srv) (revenue_rows st)), E, map_map.
    reflexivity.
Qed.

(* ================================================================= *)
(** ** The search predicate *)

Section Search.

Import Pg.









End Search.

(* ================================================================= *)
(** ** Numbers through the query string *)

Section Decimal.

Lemma read_digits_uint (u : Decimal.uint) (a : Z) :
  JS.read_digits 10 (Some a) (NilEmpty.string_of_uint u)
  = Some (uint_val a u).
Proof.
  revert a. induction u; intros a; cbn [NilEmpty.string_of_uint uint_val];
    try reflexivity;
    cbn [JS.read_digits]; (change (JS.digit_val 10 _) with (Some 0)
      || change (JS.digit_val 10 _) with (Some 1)
      || change (JS.digit_val 10 _) with (Some 2)
      || change (JS.digit_val 10 _) with (Some 3)
      || change (JS.digit_val 10 _) with (Some 4)
      || change (JS.digit_val 10 _) with (Some 5)
      || change (JS.digit_val 10 _) with (Some 6)
      || change (JS.digit_val 10 _) with (Some 7)
      || change (JS.digit_val 10 _) with (Some 8)
      || change (JS.digit_val 10 _) with (Some 9));
    cbv iota beta; apply IHu.
Qed.

Lemma read_digits_numeral (u : Decimal.uint) :
  u <> Decimal.Nil ->
  JS.read_digits 10 None (NilEmpty.string_of_uint u)
  = Some (uint_val 0 u).
Proof.
  destruct u; intros N; try congruence;
    cbn [NilEmpty.string_of_uint uint_val JS.read_digits];
    (change (JS.digit_val 10 _) with (Some 0)
      || change (JS.digit_val 10 _) with (Some 1)
      || change (JS.digit_val 10 _) with (Some 2)
      || change (JS.digit_val 10 _) with (Some 3)
      || change (JS.digit_val 10 _) with (Some 4)
      || change (JS.digit_val 10 _) with (Some 5)
      || change (JS.digit_val 10 _) with (Some 6)
      || change (JS.digit_val 10 _) with (Some 7)
      || change (JS.digit_val 10 _) with (Some 8)
      || change (JS.digit_val 10 _) with (Some 9));
    cbv iota beta; apply read_digits_uint.
Qed.

Lemma of_uint_acc_val (u : Decimal.uint) (acc : positive) :
  Z.pos (Pos.of_uint_acc u acc) = uint_val (Z.pos acc) u.
Proof.
  revert acc. induction u; intros acc; cbn [Pos.of_uint_acc uint_val];
    try reflexivity; rewrite IHu; f_equal; lia.
Qed.

Lemma of_uint_val (u : Decimal.uint) : Z.of_uint u = uint_val 0 u.
Proof.
  unfold Z.of_uint.
  induction u; cbn [Pos.of_uint uint_val]; try reflexivity;
    try (cbn [Z.of_N]; rewrite of_uint_acc_val; reflexivity).
  exact IHu.
Qed.

(** A decimal numeral starts with a digit and goes on with digits: it
    has no sign to strip and no hexadecimal prefix. *)
Lemma numeral_prefix (u : Decimal.uint) :
  u <> Decimal.Nil ->
  JS.parseInt (Some (NilEmpty.string_of_uint u))
  = match JS.read_digits 10 None (NilEmpty.string_of_uint u) with
    | Some n => JS.Int (1 * n)
    | None => JS.NaN
    end.
Proof.
  intros N. destruct u as [|u|u|u|u|u|u|u|u|u|u]; try congruence;
    destruct u; reflexivity.
Qed.

Lemma negative_numeral_prefix (u : Decimal.uint) :
  u <> Decimal.Nil ->
  JS.parseInt (Some (String "-" (NilEmpty.string_of_uint u)))
  = match JS.read_digits 10 None (NilEmpty.string_of_uint u) with
    | Some n => JS.Int (-1 * n)
    | None => JS.NaN
    end.
Proof.
  intros N. destruct u as [|u|u|u|u|u|u|u|u|u|u]; try congruence;
    destruct u; reflexivity.
Qed.

Lemma to_uint_nonnil (p : positive) : Pos.to_uint p <> Decimal.Nil.
Proof.
  intros E. pose proof (DecimalPos.Unsigned.of_to p) as H.
  rewrite E in H. discriminate.
Qed.

Lemma to_uint_val (p : positive) : uint_val 0 (Pos.to_uint p) = Z.pos p.
Proof.
  rewrite <- of_uint_val. unfold Z.of_uint.
  rewrite DecimalPos.Unsigned.of_to. reflexivity.
Qed.

(** [parseInt] reads back the decimal rendering of an integer. *)
Lemma parseInt_show (z : Z) : JS.parseInt (Some (JS.show z)) = JS.Int z.
Proof.
  unfold JS.show. destruct z as [|p|p]; cbn [Z.to_int NilEmpty.string_of_int].
  - reflexivity.
  - rewrite numeral_prefix by apply to_uint_nonnil.
    rewrite read_digits_numeral by apply to_uint_nonnil.
    rewrite to_uint_val. f_equal.
  - rewrite negative_numeral_prefix by apply to_uint_nonnil.
    rewrite read_digits_numeral by apply to_uint_nonnil.
    rewrite to_uint_val. f_equal.
Qed.

End Decimal.

(* ================================================================= *)
(** ** When a listing answers *)

Section Answers.

Import Pg.

Lemma or_num_nonzero (n : JS.num) (d : Z) : d <> 0 -> JS.or_num n d <> 0.
Proof.
  intros D. destruct n as [|z]; cbn; auto.
  destruct (Z.eqb_spec z 0); auto.
Qed.

Lemma count_ok_iff (n : Z) :
  (exists k, count_ok n = Some k) <-> 0 <= n <= int8_max.
Proof.
  unfold count_ok. split.
  - intros (k & H).
    destruct (Z.leb_spec 0 n), (Z.leb_spec n int8_max); cbn in H;
      try discriminate; lia.
  - intros (A & B). exists (Z.to_nat n).
    destruct (Z.leb_spec 0 n), (Z.leb_spec n int8_max); cbn; auto; lia.
Qed.

Lemma count_ok_none (n : Z) :
  count_ok n = None <-> ~ (0 <= n <= int8_max).
Proof.
  rewrite <- count_ok_iff. destruct (count_ok n) as [k|]; split; intros H.
  - discriminate.
  - exfalso. apply H. eauto.
  - intros (k & K). discriminate.
  - reflexivity.
Qed.

Lemma window_ok_counts (p l : Z) :
  l <> 0 ->
  (window_ok p l <->
   exists lim off, count_ok l = Some lim /\ count_ok ((p - 1) * l) = Some off).
Proof.
  intros L. unfold window_ok. split.
  - intros (P & (L1 & L2) & O).
    exists (Z.to_nat l), (Z.to_nat ((p - 1) * l)). split.
    + apply count_ok_some; lia.
    + apply count_ok_some; [nia | lia].
  - intros (lim & off & A & B).
    assert (A' : 0 <= l <= int8_max) by (apply count_ok_iff; eauto).
    assert (B' : 0 <= (p - 1) * l <= int8_max) by (apply count_ok_iff; eauto).
    repeat split; try lia; nia.
Qed.

Lemma length_window {A : Type} (lim off : nat) (l : list A) :
  List.length (window lim off l) = Nat.min lim (List.length l - off).
Proof.
  unfold window. rewrite length_firstn, length_skipn. reflexivity.
Qed.

(** Within the safe integers the bigint bounds of the window hold of
    themselves. *)
Lemma window_ok_exact (pt lt : option string) (p l : Z) :
  exact_window pt lt p l -> (window_ok p l <-> 1 <= p /\ 1 <= l).
Proof.
  intros X. destruct (exact_window_bounds _ _ _ _ X) as (L & O).
  unfold window_ok. split.
  - intros (P1 & (L1 & _) & _). split; assumption.
  - intros (P1 & L1). repeat split; assumption.
Qed.

End Answers.

(** X1.  The orders listing answers either its page or the status 500
    with the message of its handler, never anything else.  For a request
    whose page and limit are ASCII texts, whose page, limit and offset
    are safe integers of JavaScript, and whose filter texts hold no NUL
    character: it answers a page exactly when the page is at least 1, the
    limit is at least 1, and every supplied [customer_id], [start_date]
    and [end_date] is a text the server can read; the page then holds at
    most [limit] rows. *)
Theorem orders_answer_or_failure (srv : Pg.Server) (q : Query) :
  let p := Orders.page_of q in
  let l := Orders.limit_of q in
  exact_window (q "page"%string) (q "limit"%string) p l ->
  forallb no_nul [status_of q; customer_id_of q;
                  start_date_of q; end_date_of q] = true ->
  (Orders.handler srv q = Failure 500 "Failed to fetch orders"
   \/ exists rows pg,
        Orders.handler srv q = Listing "orders" rows pg
        /\ currentPage pg = p
        /\ Z.of_nat (List.length rows) <= l)
  /\ ((exists rows pg, Orders.handler srv q = Listing "orders" rows pg)
      <-> 1 <= p /\ 1 <= l
          /\ accept (Pg.int_in srv) (customer_id_of q) <> None
          /\ accept (Pg.date_in srv) (start_date_of q) <> None
          /\ accept (Pg.date_in srv) (end_date_of q) <> None).
Proof.
  intros p l X _.
  assert (L : l <> 0) by (apply or_num_nonzero; lia).
  assert (Wc : 1 <= p /\ 1 <= l <->
               exists lim off, count_ok l = Some lim
                               /\ count_ok ((p - 1) * l) = Some off)
    by (rewrite <- (window_ok_exact _ _ _ _ X); apply window_ok_counts; exact L).
  rewrite orders_handler_eq. fold p l. unfold offset_of. fold p l.
  unfold order_pred.
  destruct (accept (Pg.int_in srv) (customer_id_of q)) as [c|];
    [destruct (accept (Pg.date_in srv) (start_date_of q)) as [f|];
     [destruct (accept (Pg.date_in srv) (end_date_of q)) as [t|]|]|].
  2-4: split; [left; reflexivity|];
       split; [intros (rows & pg & H); discriminate
              | intros (_ & _ & A & B & C); congruence].
  destruct (count_ok l) as [lim|] eqn:El.
  2:{ split; [left; reflexivity|].
      split; [intros (rows & pg & H); discriminate|].
      intros (P1 & L1 & _).
      destruct (proj1 Wc (conj P1 L1)) as (? & ? & ? & ?). congruence. }
  destruct (count_ok ((p - 1) * l)) as [off|] eqn:Eo.
  2:{ split; [left; reflexivity|].
      split; [intros (rows & pg & H); discriminate|].
      intros (P1 & L1 & _).
      destruct (proj1 Wc (conj P1 L1)) as (? & ? & ? & ?). congruence. }
  split.
  - right. eexists; eexists. split; [reflexivity|]. split; [reflexivity|].
    rewrite length_window. apply count_ok_inv in El. lia.
  - split.
    + intros _. destruct (proj2 Wc) as (P1 & L1); [eauto|].
      repeat split; try assumption; discriminate.
    + intros _. eexists; eexists. reflexivity.
Qed.

(** X2.  The customers listing answers either its page or the status 500
    with the message of its handler.  For a request whose page and limit
    are ASCII texts, whose page, limit and offset are safe integers of
    JavaScript, and whose search text holds no NUL character, the search
    never makes it fail: it answers a page exactly when the page is at
    least 1 and the limit is at least 1; the page then holds at most
    [limit] rows. *)
Theorem customers_answer_or_failure (srv : Pg.Server) (q : Query) :
  let p := Customers.page_of q in
  let l := Customers.limit_of q in
  exact_window (q "page"%string) (q "limit"%string) p l ->
  no_nul (search_of q) = true ->
  (Customers.handler srv q = Failure 500 "Failed to fetch customers"
   \/ exists rows pg,
        Customers.handler srv q = Listing "customers" rows pg
        /\ currentPage pg = p
        /\ Z.of_nat (List.length rows) <= l)
  /\ ((exists rows pg, Customers.handler srv q = Listing "customers" rows pg)
      <-> 1 <= p /\ 1 <= l).
Proof.
  intros p l X _.
  assert (L : l <> 0) by (apply or_num_nonzero; lia).
  assert (Wc : 1 <= p /\ 1 <= l <->
               exists lim off, count_ok l = Some lim
                               /\ count_ok ((p - 1) * l) = Some off)
    by (rewrite <- (window_ok_exact _ _ _ _ X); apply window_ok_counts; exact L).
  rewrite customers_handler_eq. fold p l. unfold customers_offset_of. fold p l.
  destruct (count_ok l) as [lim|] eqn:El.
  2:{ split; [left; reflexivity|].
      split; [intros (rows & pg & H); discriminate|].
      intros Wk. destruct (proj1 Wc Wk) as (? & ? & ? & ?). congruence. }
  destruct (count_ok ((p - 1) * l)) as [off|] eqn:Eo.
  2:{ split; [left; reflexivity|].
      split; [intros (rows & pg & H); discriminate|].
      intros Wk. destruct (proj1 Wc Wk) as (? & ? & ? & ?). congruence. }
  split.
  - right. eexists; eexists. split; [reflexivity|]. split; [reflexivity|].
    rewrite length_window. apply count_ok_inv in El. lia.
  - split.
    + intros _. apply Wc. eauto.
    + intros _. eexists; eexists. reflexivity.
Qed.

(* ================================================================= *)
(** ** Pages of a listing *)

Section Pages.

Import Pg.

Lemma window_map {A B : Type} (f : A -> B) (lim off : nat) (l : list A) :
  window lim off (map f l) = map f (window lim off l).
Proof. unfold window. rewrite skipn_map, firstn_map. reflexivity. Qed.

Lemma sorted_firstn {A : Type} (R : A -> A -> Prop) (n : nat) (l : list A) :
  StronglySorted R l -> StronglySorted R (firstn n l).
Proof.
  revert n. induction l as [|x l IH]; intros [|n] S; cbn; try constructor.
  - apply IH. inversion S; assumption.
  - inversion S as [|? ? _ F]; subst. rewrite Forall_forall in *.
    intros y Hy. apply F.
    rewrite <- (firstn_skipn n l). apply in_or_app. left. exact Hy.
Qed.

Lemma sorted_skipn {A : Type} (R : A -> A -> Prop) (n : nat) (l : list A) :
  StronglySorted R l -> StronglySorted R (skipn n l).
Proof.
  revert n. induction l as [|x l IH]; intros [|n] S; cbn; auto.
  apply IH. inversion S; assumption.
Qed.

Lemma sorted_window {A : Type} (R : A -> A -> Prop) (lim off : nat)
      (l : list A) :
  StronglySorted R l -> StronglySorted R (window lim off l).
Proof. intros S. apply sorted_firstn, sorted_skipn, S. Qed.

(** Consecutive windows of the same size put the list together again. *)
Lemma windows_cover {A : Type} (lim n : nat) (l : list A) :
  (List.length l <= n * lim)%nat ->
  flat_map (fun k => window lim (k * lim) l) (seq 0 n) = l.
Proof.
  revert l. induction n as [|n IH]; intros l L.
  - destruct l; [reflexivity|cbn in L; lia].
  - cbn [seq flat_map]. rewrite <- seq_shift, flat_map_over_map.
    rewrite (flat_map_ext_in _ (fun k => window lim (k * lim) (skipn lim l))).
    + rewrite IH.
      * unfold window. cbn [Nat.mul skipn]. apply firstn_skipn.
      * rewrite length_skipn. lia.
    + intros k _. unfold window. rewrite skipn_skipn.
      replace (S k * lim)%nat with (k * lim + lim)%nat by lia. reflexivity.
Qed.

Lemma page_of_with_page (p : Z) (q : Query) :
  p <> 0 -> Customers.page_of (with_page p q) = p.
Proof.
  intros P. unfold Customers.page_of, with_page.
  change (String.eqb "page" "page") with true. cbv iota.
  rewrite parseInt_show. cbn. destruct (Z.eqb_spec p 0); congruence.
Qed.

Lemma sorted_selection {X : Type} (f : X -> Z * Row) (tb : Row -> Row -> bool)
      (l : list X) :
  exists l',
    Permutation l l'
    /\ sort_rows true tb (map f l) = map f l'
    /\ StronglySorted (fun a b => fst (f b) <= fst (f a)) l'.
Proof.
  destruct (Permutation_map_inv f l (sort_rows_perm true tb (map f l)))
    as (l' & E & P).
  exists l'. repeat split; auto.
  apply sorted_map. rewrite <- E. apply sort_rows_sorted.
Qed.

Lemma envelope_pages (p l : Z) (n : nat) (pg : Pagination) (tp : Z) :
  1 <= l ->
  pg = envelope p l (JS.Int (Z.of_nat n)) ->
  totalPages pg = JS.Int tp ->
  (tp - 1) * l < Z.of_nat n <= tp * l /\ hasNext pg = (p <? tp).
Proof.
  intros L -> T.
  destruct (envelope_facts p l n L) as (tp' & T' & B & _ & N & _).
  cbv zeta in *. rewrite T in T'. injection T' as <-. auto.
Qed.

End Pages.

Section NextPage.

Import Pg.

(** X3.  [hasNext] tells whether the next page has rows.  When the orders
  listing answers a page and, over the same data, answers the request
  for the page after it, the second answer has rows exactly when the
  first said [hasNext]; it carries the same total count, the next page
  number, and [hasPrev]. *)
Theorem has_next_iff_next_page (srv srv' : Pg.Server) (q : Query)
  key rows pg key' rows' pg' :
same_data srv srv' ->
Orders.handler srv q = Listing key rows pg ->
Orders.handler srv' (with_page (currentPage pg + 1) q)
  = Listing key' rows' pg' ->
(hasNext pg = true <-> rows' <> [])
/\ currentPage pg' = currentPage pg + 1
/\ totalCount pg' = totalCount pg
/\ hasPrev pg' = true.
Proof.
intros S H H'.
apply orders_listing_inv in H.
destruct H as (m & lim & off & M & L & O & -> & Epg).
assert (Ep : currentPage pg = Orders.page_of q) by (rewrite Epg; reflexivity).
rewrite Ep in *.
set (p := Orders.page_of q) in *. set (l := Orders.limit_of q) in *.
assert (L0 : l <> 0) by (apply or_num_nonzero; lia).
assert (W : window_ok p l) by (apply window_ok_counts; eauto).
destruct W as (P1 & (L1 & L2) & _).
apply orders_listing_inv in H'.
destruct H' as (m' & lim' & off' & M' & L' & O' & -> & Epg').
change (order_pred srv' (with_page (p + 1) q)) with (order_pred srv' q) in M'.
rewrite <- (order_pred_same srv srv' q S), M in M'. injection M' as <-.
change (Orders.limit_of (with_page (p + 1) q)) with l in *.
assert (P' : Orders.page_of (with_page (p + 1) q) = p + 1)
  by (apply page_of_with_page; lia).
unfold offset_of in O'. rewrite P' in *.
change (Orders.limit_of (with_page (p + 1) q)) with l in *.
rewrite L in L'. injection L' as <-.
assert (Sel : selected srv' m = selected srv m).
{ unfold selected. destruct S as (<- & _). reflexivity. }
rewrite Sel in *.
set (n := List.length (selected srv m)) in *.
destruct (envelope_facts p l n L1) as (tp & T & B & _ & N & _).
cbv zeta in T, B, N. rewrite <- Epg in N.
apply count_ok_inv in L, O'. destruct L as (_ & ->), O' as (_ & ->).
repeat split.
- rewrite N. intros Lt. apply Z.ltb_lt in Lt. intros E.
  apply (f_equal (@List.length Row)) in E. revert E.
  rewrite length_window, order_by_length. unfold keyed_orders.
  rewrite length_map. fold n. cbn [List.length]. nia.
- rewrite N. intros NE. apply Z.ltb_lt.
  assert (Hlen : (0 < List.length
             (window (Z.to_nat l) (Z.to_nat ((p + 1 - 1) * l))
                (order_by true (tie srv')
                   (keyed_orders (selected srv m)))))%nat).
  { destruct (window _ _ _); [congruence|cbn; lia]. }
  revert Hlen. rewrite length_window, order_by_length. unfold keyed_orders.
  rewrite length_map. fold n. nia.
- rewrite Epg'. reflexivity.
- rewrite Epg', Epg. reflexivity.
- rewrite Epg'. cbn [hasPrev envelope]. apply Z.ltb_lt. lia.
Qed.

End NextPage.

(* ================================================================= *)
(** ** All the pages of the customers listing *)

Section CustomerPages.

Import Pg.

Lemma customers_sorted (srv : Server) (q : Query) :
  NoDup (customer_ids (store srv)) ->
  exists all,
    Permutation (filter (qualifies q) (customers (store srv))) all
    /\ order_by true (tie srv) (customer_groups (selected_customers srv q))
       = map (fun c => snd (customer_entry (store srv) c)) all
    /\ StronglySorted newest_first all.
Proof.
  intros N. pose proof (customer_groups_perm srv q N) as P.
  fold (customer_entry (store srv)) in P.
  set (L := customer_groups (selected_customers srv q)) in *.
  set (fq := filter (qualifies q) (customers (store srv))) in *.
  assert (P' : Permutation (sort_rows true (tie srv) L)
                 (map (customer_entry (store srv)) fq)).
  { rewrite sort_rows_perm. exact P. }
  destruct (Permutation_map_inv _ _ P') as (all & E & Pa).
  exists all. split; [exact Pa|]. split.
  - unfold order_by. rewrite E, map_map. reflexivity.
  - apply (sorted_map (customer_entry (store srv))). rewrite <- E.
    apply sort_rows_sorted.
Qed.

(** With distinct [created_at] the order of the listing is the same on
    every server that holds the same data. *)
Lemma customers_order_fixed (srv srv' : Server) (q : Query) :
  NoDup (customer_ids (store srv)) ->
  NoDup (map c_created_at (customers (store srv))) ->
  same_data srv srv' ->
  order_by true (tie srv') (customer_groups (selected_customers srv' q))
  = order_by true (tie srv) (customer_groups (selected_customers srv q)).
Proof.
  intros N D (Es & _).
  unfold selected_customers. rewrite <- Es.
  fold (selected_customers srv q). unfold order_by. f_equal.
  apply sort_rows_distinct.
  pose proof (customer_groups_perm srv q N) as P.
  eapply Permutation_NoDup;
    [apply Permutation_map; symmetry; exact P|].
  rewrite map_map. cbn [fst].
  clear - D. induction (customers (store srv)) as [|c l IH];
    cbn [filter map]; [constructor|].
  cbn [map] in D. inversion D as [|? ? Hn D']; subst.
  destruct (qualifies q c); cbn [map]; [|apply IH; exact D'].
  constructor; [|apply IH; exact D'].
  intros I. apply Hn. apply in_map_iff in I.
  destruct I as (x & E & Ix). apply filter_In in Ix.
  apply in_map_iff. exists x. split; [exact E|tauto].
Qed.

(** X4.  Paging through the customers listing shows every qualifying
    customer exactly once, newest first.  The pages are answered one
    request after the other, each by the server as it is then
    ([served k] for page [k]): the data are the same, the order the
    server gives to equal keys need not be.  When ids are unique, the
    [created_at] of the customers are pairwise distinct, and the
    listing answers a request with [totalPages = tp], the rows of the
    pages 1 to [tp] of the same request, one after the other, are the
    rows of the customers the search selects, each once, in descending
    [created_at]; [totalCount] is their number. *)
Theorem customer_pages_cover (srv : Server) (served : nat -> Server)
    (q : Query) key rows pg (tp : Z) :
  NoDup (customer_ids (store srv)) ->
  NoDup (map c_created_at (customers (store srv))) ->
  Z.of_nat (List.length (customers (store srv))) <= max_safe_integer ->
  (forall k, same_data srv (served k)) ->
  Customers.handler srv q = Listing key rows pg ->
  totalPages pg = JS.Int tp ->
  exists all : list Customer,
    Permutation all (filter (qualifies q) (customers (store srv)))
    /\ StronglySorted newest_first all
    /\ totalCount pg = JS.Int (Z.of_nat (List.length all))
    /\ flat_map
         (fun k => rows_of (Customers.handler (served k)
                              (with_page (Z.of_nat k) q)))
         (seq 1 (Z.to_nat tp))
       = map (fun c => customer_row c (orders_of (store srv) c)) all.
Proof.
  intros N D B Same H T. apply safe_le_int8 in B.
  apply customers_listing_inv in H.
  destruct H as (lim & off & L & O & _ & Epg).
  set (p := Customers.page_of q) in *. set (l := Customers.limit_of q) in *.
  assert (L0 : l <> 0) by (apply or_num_nonzero; lia).
  assert (W : window_ok p l) by (apply window_ok_counts; eauto).
  destruct W as (P1 & (L1 & L2) & _).
  set (fq := filter (qualifies q) (customers (store srv))) in *.
  destruct (envelope_pages p l (List.length fq) pg tp L1 Epg T) as (Bt & _).
  destruct (customers_sorted srv q N) as (all & Pa & G & Sa).
  fold fq in Pa.
  assert (Len : List.length all = List.length fq)
    by (symmetry; apply Permutation_length; exact Pa).
  assert (Lfq : (List.length fq <= List.length (customers (store srv)))%nat)
    by apply filter_length_le.
  exists all. split; [symmetry; exact Pa|]. split; [exact Sa|]. split.
  { rewrite Epg, Len. reflexivity. }
  apply count_ok_inv in L. destruct L as (_ & ->).
  rewrite (flat_map_ext_in _
             (fun k => window (Z.to_nat l) ((k - 1) * Z.to_nat l)
                         (map (fun c => snd (customer_entry (store srv) c)) all))).
  - rewrite <- seq_shift, flat_map_over_map.
    rewrite (flat_map_ext_in _
               (fun k => window (Z.to_nat l) (k * Z.to_nat l)
                           (map (fun c => snd (customer_entry (store srv) c)) all))).
    + apply windows_cover. rewrite length_map, Len. nia.
    + intros k _. replace (S k - 1)%nat with k by lia. reflexivity.
  - intros k Hk. apply in_seq in Hk.
    rewrite customers_handler_eq.
    assert (Pk : Customers.page_of (with_page (Z.of_nat k) q) = Z.of_nat k)
      by (apply page_of_with_page; lia).
    unfold customers_offset_of. rewrite Pk.
    change (Customers.limit_of (with_page (Z.of_nat k) q)) with l.
    change (selected_customers (served k) (with_page (Z.of_nat k) q))
      with (selected_customers (served k) q).
    rewrite (count_ok_some l) by lia.
    rewrite (count_ok_some ((Z.of_nat k - 1) * l)) by nia.
    cbn [rows_of].
    rewrite (customers_order_fixed srv (served k) q N D (Same k)), G.
    f_equal. nia.
Qed.

End CustomerPages.

(* ================================================================= *)
(** ** The rows of a page of orders *)

Section OrderPages.

Import Pg.

(** X5.  A page of the orders listing shows joined rows, newest first.
    Its rows are the rows of pairs of an order of the store and the
    customer of the store the order references, in descending
    [created_at] of the order. *)
Theorem orders_page_newest_first (srv : Server) (q : Query) key rows pg :
  Orders.handler srv q = Listing key rows pg ->
  exists page : list (Order * Customer),
    rows = map order_row page
    /\ StronglySorted newest_order_first page
    /\ forall o c, In (o, c) page ->
         In o (orders (store srv)) /\ In c (customers (store srv))
         /\ o_customer_id o = c_id c.
Proof.
  intros H. apply orders_listing_inv in H.
  destruct H as (m & lim & off & M & L & O & -> & _).
  destruct (sorted_selection
              (fun oc => (o_created_at (fst oc), order_row oc))
              (tie srv) (selected srv m)) as (sel' & P & E & S).
  exists (window lim off sel'). split; [|split].
  - unfold order_by, keyed_orders. rewrite E, map_map. cbn [snd].
    apply window_map.
  - apply sorted_window. exact S.
  - intros o c I. apply window_incl in I.
    apply (Permutation_in _ (Permutation_sym P)) in I.
    apply selected_row in I. tauto.
Qed.

End OrderPages.

(* ================================================================= *)
(** ** Orders counted by the listing and by the dashboard *)

Section DanglingOrders.

Import Pg.

Lemma one_customer_per_id (cs : list Customer) (k : Z) :
  NoDup (map c_id cs) ->
  List.length (filter (fun c => k =? c_id c) cs)
  = if existsb (fun c => k =? c_id c) cs then 1%nat else 0%nat.
Proof.
  induction cs as [|c cs IH]; intros N; [reflexivity|].
  inversion N as [|? ? Nc N']; subst. cbn [filter existsb].
  destruct (Z.eqb_spec k (c_id c)) as [E|E]; cbn [orb List.length].
  - rewrite IH by assumption.
    destruct (existsb (fun c0 => k =? c_id c0) cs) eqn:X; [|reflexivity].
    exfalso. apply existsb_exists in X. destruct X as (c' & I & K).
    apply Z.eqb_eq in K. apply Nc. rewrite <- E, K. apply in_map. exact I.
  - apply IH. assumption.
Qed.

Lemma join_length (st : Store) :
  NoDup (customer_ids st) ->
  List.length (orders_join_customers st)
  = List.length (filter (has_customer st) (orders st)).
Proof.
  intros N. unfold orders_join_customers, has_customer.
  induction (orders st) as [|o os IH]; [reflexivity|].
  cbn [flat_map filter]. rewrite length_app, length_map, IH.
  rewrite (one_customer_per_id _ _ N).
  destruct (existsb _ _); reflexivity.
Qed.

Lemma filter_all_length {A : Type} (p : A -> bool) (l : list A) :
  List.length (filter p l) = List.length l <->
  forall x, In x l -> p x = true.
Proof.
  induction l as [|a l IH]; cbn [filter List.length].
  - split; [intros _ x []|reflexivity].
  - pose proof (filter_length_le p l) as B.
    destruct (p a) eqn:Pa; cbn [List.length].
    + split.
      * intros E x [<-|I]; [assumption|]. apply IH; [lia|assumption].
      * intros F. f_equal. apply IH. intros x I. apply F. right. exact I.
    + split; [lia|]. intros F. specialize (F a (or_introl eq_refl)).
      congruence.
Qed.

Lemma unfiltered_pred (srv : Server) (q : Query) :
  unfiltered q ->
  order_pred srv q = Some (matches EmptyString None None None).
Proof.
  intros (S & C & F & T). unfold order_pred. rewrite S, C, F, T.
  reflexivity.
Qed.

(** X6.  The orders listing counts joined rows, the dashboard counts
    orders.  With unique customer ids, the [totalCount] of an
    unfiltered listing is the number of orders that reference an
    existing customer; it never exceeds the [totalOrders] of the
    dashboard summary and equals it exactly when every order
    references an existing customer. *)
Theorem listing_count_vs_total_orders (srv : Server) (q : Query)
    key rows pg (m : Metrics) :
  NoDup (customer_ids (store srv)) ->
  unfiltered q ->
  Orders.handler srv q = Listing key rows pg ->
  Dashboard.handler srv = Summary m ->
  exists tc n,
    totalCount pg = JS.Int tc /\ totalOrders m = JS.Int n
    /\ tc = Z.of_nat (List.length
                        (filter (has_customer (store srv))
                                (orders (store srv))))
    /\ tc <= n
    /\ (tc = n <->
        forall o, In o (orders (store srv)) ->
                  has_customer (store srv) o = true).
Proof.
  intros N U H D.
  apply orders_listing_inv in H.
  destruct H as (m' & lim & off & M & _ & _ & _ & ->).
  rewrite (unfiltered_pred srv q U) in M. injection M as <-.
  rewrite dashboard_handler_eq in D. injection D as <-.
  assert (Sel : selected srv (matches EmptyString None None None)
                = orders_join_customers (store srv)).
  { unfold selected. apply filter_true. intros x _. reflexivity. }
  rewrite Sel, (join_length _ N).
  pose proof (filter_length_le (has_customer (store srv))
                (orders (store srv))) as B.
  eexists; eexists. split; [reflexivity|]. split; [reflexivity|].
  split; [reflexivity|]. split; [lia|].
  rewrite <- filter_all_length. split; lia.
Qed.

End DanglingOrders.

(* ================================================================= *)
(** ** Searching the customers with plain text *)

Section PlainSearch.

Import Pg.




End PlainSearch.

(* ================================================================= *)
(** ** The routes grouped by status *)

Section ByStatus.

Import Pg.

Lemma with_status_group (s : string) (os : list Order) :
  filter (fun x => if string_dec (o_status x) s then true else false) os
  = with_status s os.
Proof.
  apply filter_ext. intros o.
  destruct (string_dec (o_status o) s) as [E|E].
  - symmetry. apply String.eqb_eq. exact E.
  - symmetry. apply String.eqb_neq. exact E.
Qed.

Lemma with_status_head (s : string) (os : list Order) :
  In s (map o_status os) ->
  exists o g, with_status s os = o :: g /\ o_status o = s.
Proof.
  intros I. apply in_map_iff in I. destruct I as (o & E & I).
  assert (J : In o (with_status s os)).
  { apply filter_In. split; [exact I|]. apply String.eqb_eq. exact E. }
  destruct (with_status s os) as [|o' g] eqn:W; [contradiction|].
  exists o', g. split; [reflexivity|].
  assert (K : In o' (with_status s os)) by (rewrite W; left; reflexivity).
  apply filter_In in K. destruct K as (_ & K). apply String.eqb_eq. exact K.
Qed.

Lemma revenue_breakdown_groups_eq (os : list Order) :
  StatusGroups.revenue_breakdown_groups os
  = map (fun s => (status_revenue os s, breakdown_row os s)) (statuses os).
Proof.
  unfold StatusGroups.revenue_breakdown_groups, groups.
  rewrite flat_map_over_map. fold (statuses os).
  rewrite <- flat_map_singleton. apply flat_map_ext_in.
  intros s I. apply nodup_In in I. rewrite with_status_group.
  destruct (with_status_head s os I) as (o & g & W & E).
  unfold breakdown_row, status_revenue, status_count.
  rewrite W, E. reflexivity.
Qed.

Lemma order_status_groups_eq (os : list Order) :
  StatusGroups.order_status_groups os
  = map (fun s => (status_count os s, status_row os s)) (statuses os).
Proof.
  unfold StatusGroups.order_status_groups, groups.
  rewrite flat_map_over_map. fold (statuses os).
  rewrite <- flat_map_singleton. apply flat_map_ext_in.
  intros s I. apply nodup_In in I. rewrite with_status_group.
  destruct (with_status_head s os I) as (o & g & W & E).
  unfold status_row, status_revenue, status_count.
  rewrite W, E. reflexivity.
Qed.

Lemma revenue_breakdown_eq (srv : Server) :
  Breakdown.revenue_breakdown srv
  = Series (order_by true (tie srv)
              (StatusGroups.revenue_breakdown_groups (orders (store srv)))).
Proof. reflexivity. Qed.

Lemma order_status_eq (srv : Server) :
  Breakdown.order_status srv
  = Series (order_by true (tie srv)
              (StatusGroups.order_status_groups (orders (store srv)))).
Proof. reflexivity. Qed.

Lemma ranking_of (tb : Row -> Row -> bool) (f : string -> Z * Row)
      (os : list Order) :
  exists ranking,
    Permutation ranking (statuses os)
    /\ StronglySorted (fun a b => fst (f b) <= fst (f a)) ranking
    /\ order_by true tb (map f (statuses os)) = map (fun s => snd (f s)) ranking.
Proof.
  destruct (sorted_selection f tb (statuses os)) as (r & P & E & S).
  exists r. split; [symmetry; exact P|]. split; [exact S|].
  unfold order_by. rewrite E, map_map. reflexivity.
Qed.

(** X8.  The revenue breakdown never fails and answers one row per
    status that occurs among the orders: the status, the number of
    its orders and the sum of their totals, in descending order of
    that sum. *)
Theorem revenue_breakdown_by_status (srv : Server) :
  exists ranking : list string,
    Permutation ranking (statuses (orders (store srv)))
    /\ StronglySorted
         (fun a b => status_revenue (orders (store srv)) b
                     <= status_revenue (orders (store srv)) a) ranking
    /\ Breakdown.revenue_breakdown srv
       = Series (map (breakdown_row (orders (store srv))) ranking).
Proof.
  rewrite revenue_breakdown_eq, revenue_breakdown_groups_eq.
  destruct (ranking_of (tie srv)
              (fun s => (status_revenue (orders (store srv)) s,
                         breakdown_row (orders (store srv)) s))
              (orders (store srv))) as (r & P & S & E).
  exists r. split; [exact P|]. split; [exact S|].
  rewrite E. reflexivity.
Qed.

(** X9.  The status distribution never fails and answers one row per
    status that occurs among the orders, in descending order of the
    number of its orders; [total_value] is the sum of their totals and
    is never NULL. *)
Theorem order_status_by_count (srv : Server) :
  exists ranking : list string,
    Permutation ranking (statuses (orders (store srv)))
    /\ StronglySorted
         (fun a b => status_count (orders (store srv)) b
                     <= status_count (orders (store srv)) a) ranking
    /\ Breakdown.order_status srv
       = Series (map (status_row (orders (store srv))) ranking).
Proof.
  rewrite order_status_eq, order_status_groups_eq.
  destruct (ranking_of (tie srv)
              (fun s => (status_count (orders (store srv)) s,
                         status_row (orders (store srv)) s))
              (orders (store srv))) as (r & P & S & E).
  exists r. split; [exact P|]. split; [exact S|].
  rewrite E. reflexivity.
Qed.

End ByStatus.

(* ================================================================= *)
(** ** Groups put the rows together again *)

Section Partition.

Context {A K : Type} (dec : forall x y : K, {x = y} + {x <> y})
        (key : A -> K).

Lemma groups_without (x : A) (l : list A) (ks : list K) :
  ~ In (key x) ks ->
  flat_map (fun k => filter (has_key dec key k) (x :: l)) ks
  = flat_map (fun k => filter (has_key dec key k) l) ks.
Proof.
  intros N. apply flat_map_ext_in. intros k I. cbn [filter].
  unfold has_key at 1. destruct (dec (key x) k) as [E|E]; [|reflexivity].
  exfalso. apply N. rewrite E. exact I.
Qed.

Lemma groups_with (x : A) (l : list A) (ks : list K) :
  NoDup ks -> In (key x) ks ->
  Permutation (flat_map (fun k => filter (has_key dec key k) (x :: l)) ks)
              (x :: flat_map (fun k => filter (has_key dec key k) l) ks).
Proof.
  induction ks as [|k ks IH]; intros N I; [contradiction|].
  inversion N as [|? ? Nk N']; subst. cbn [flat_map].
  change (filter (has_key dec key k) (x :: l))
    with (if has_key dec key k x
          then x :: filter (has_key dec key k) l
          else filter (has_key dec key k) l).
  unfold has_key at 1. destruct (dec (key x) k) as [E|E].
  - rewrite groups_without by (rewrite E; exact Nk). reflexivity.
  - destruct I as [I|I]; [congruence|].
    rewrite (IH N' I). apply Permutation_sym, Permutation_middle.
Qed.

(** The groups of distinct keys are a rearrangement of the rows that
    have one of the keys. *)
Lemma groups_partition (ks : list K) (l : list A) :
  NoDup ks ->
  Permutation (flat_map (fun k => filter (has_key dec key k) l) ks)
              (filter (fun x => among dec (key x) ks) l).
Proof.
  intros N. induction l as [|x l IH].
  - cbn [filter]. clear N.
    induction ks as [|k ks IHk]; [reflexivity|exact IHk].
  - change (filter (fun x0 => among dec (key x0) ks) (x :: l))
      with (if among dec (key x) ks
            then x :: filter (fun x0 => among dec (key x0) ks) l
            else filter (fun x0 => among dec (key x0) ks) l).
    unfold among at 1.
    destruct (in_dec dec (key x) ks) as [I|I].
    + rewrite (groups_with x l ks N I). apply perm_skip. exact IH.
    + rewrite (groups_without x l ks I). exact IH.
Qed.

End Partition.

(* ================================================================= *)
(** ** The status rows against the dashboard summary *)

Section StatusTotals.

Import Pg.

Lemma sum_total_app (a b : list Order) :
  sum_total (a ++ b) = sum_total a + sum_total b.
Proof.
  unfold sum_total.
  induction a as [|o a IH]; cbn [app fold_right]; [reflexivity|].
  rewrite IH. lia.
Qed.

Lemma sum_total_perm (a b : list Order) :
  Permutation a b -> sum_total a = sum_total b.
Proof.
  unfold sum_total. induction 1; cbn [fold_right]; lia.
Qed.

Lemma groups_length {X Y : Type} (f : X -> list Y) (l : list X) :
  Z.of_nat (List.length (flat_map f l))
  = fold_right (fun x acc => Z.of_nat (List.length (f x)) + acc) 0 l.
Proof.
  induction l as [|x l IH]; cbn [flat_map fold_right]; [reflexivity|].
  rewrite length_app. lia.
Qed.

Lemma groups_total {X : Type} (f : X -> list Order) (l : list X) :
  sum_total (flat_map f l)
  = fold_right (fun x acc => sum_total (f x) + acc) 0 l.
Proof.
  induction l as [|x l IH]; cbn [flat_map fold_right]; [reflexivity|].
  rewrite sum_total_app. lia.
Qed.

Lemma column_sum_map {X : Type} (name : string) (row : X -> Row) (l : list X) :
  column_sum name (map row l)
  = fold_right (fun x acc => number_of (field name (row x)) + acc) 0 l.
Proof.
  induction l as [|x l IH]; cbn [map column_sum fold_right]; [reflexivity|].
  fold (column_sum name (map row l)). rewrite IH. reflexivity.
Qed.

Lemma rows_with_status_map (p : string -> bool) (row : string -> Row)
      (l : list string) :
  (forall s, field "status" (row s) = Some (VText s)) ->
  rows_with_status p (map row l) = map row (filter p l).
Proof.
  intros F. induction l as [|s l IH]; [reflexivity|].
  cbn [map filter]. unfold rows_with_status in *. cbn [filter].
  rewrite F, IH. destruct (p s); reflexivity.
Qed.

(** The orders whose status is among the selected statuses of a
    ranking of all statuses are those whose status is selected. *)
Lemma selected_statuses (p : string -> bool) (ranking : list string)
      (os : list Order) :
  Permutation ranking (statuses os) ->
  Permutation
    (flat_map (fun s => with_status s os) (filter p ranking))
    (filter (fun o => p (o_status o)) os).
Proof.
  intros P.
  assert (N : NoDup ranking).
  { apply (Permutation_NoDup (Permutation_sym P)). apply NoDup_nodup. }
  rewrite (flat_map_ext_in _
             (fun s => filter (has_key string_dec o_status s) os))
    by (intros s _; symmetry; apply with_status_group).
  rewrite (groups_partition string_dec o_status (filter p ranking) os)
    by (apply NoDup_filter; exact N).
  erewrite filter_ext_in; [reflexivity|].
  intros o I. cbv beta. unfold among.
  destruct (in_dec string_dec (o_status o) (filter p ranking)) as [J|J].
  - apply filter_In in J. symmetry. tauto.
  - destruct (p (o_status o)) eqn:Po; [|reflexivity].
    exfalso. apply J. apply filter_In. split; [|exact Po].
    apply (Permutation_in _ (Permutation_sym P)).
    apply nodup_In. apply in_map. exact I.
Qed.

Lemma count_of_statuses (p : string -> bool) (ranking : list string)
      (os : list Order) (name : string) (row : string -> Row) :
  Permutation ranking (statuses os) ->
  (forall s, field "status" (row s) = Some (VText s)) ->
  (forall s, field name (row s) = Some (VInt (status_count os s))) ->
  column_sum name (rows_with_status p (map row ranking))
  = Z.of_nat (List.length (filter (fun o => p (o_status o)) os)).
Proof.
  intros P F C. rewrite (rows_with_status_map p row ranking F).
  rewrite column_sum_map.
  rewrite <- (Permutation_length (selected_statuses p ranking os P)).
  rewrite groups_length.
  induction (filter p ranking) as [|s l IH]; [reflexivity|].
  cbn [fold_right]. rewrite IH, C. reflexivity.
Qed.

Lemma revenue_of_statuses (p : string -> bool) (ranking : list string)
      (os : list Order) (name : string) (row : string -> Row) :
  Permutation ranking (statuses os) ->
  (forall s, field "status" (row s) = Some (VText s)) ->
  (forall s, field name (row s) = Some (VDec (status_revenue os s))) ->
  column_sum name (rows_with_status p (map row ranking))
  = sum_total (filter (fun o => p (o_status o)) os).
Proof.
  intros P F C. rewrite (rows_with_status_map p row ranking F).
  rewrite column_sum_map.
  rewrite <- (sum_total_perm _ _ (selected_statuses p ranking os P)).
  rewrite groups_total.
  induction (filter p ranking) as [|s l IH]; [reflexivity|].
  cbn [fold_right]. rewrite IH, C. reflexivity.
Qed.

Lemma all_rows (row : string -> Row) (l : list string) :
  (forall s, field "status" (row s) = Some (VText s)) ->
  rows_with_status (fun _ => true) (map row l) = map row l.
Proof.
  intros F. rewrite (rows_with_status_map _ row l F).
  rewrite filter_true; [reflexivity|]. reflexivity.
Qed.

(** X10.  The revenue breakdown adds up to the dashboard summary.
    Over the same server, the order counts of all its rows sum to
    [totalOrders], the order count of its [pending] rows to
    [pendingOrders], and the revenue of its [completed] and [shipped]
    rows to [totalRevenue]. *)
Theorem revenue_breakdown_matches_summary (srv : Server) (rows : list Row)
    (m : Metrics) :
  Breakdown.revenue_breakdown srv = Series rows ->
  Dashboard.handler srv = Summary m ->
  totalOrders m = JS.Int (column_sum "order_count" rows)
  /\ pendingOrders m
     = JS.Int (column_sum "order_count" (rows_with_status is_pending rows))
  /\ totalRevenue m
     = Some (Qmake (column_sum "total_revenue"
                      (rows_with_status is_realised rows)) 100).
Proof.
  intros B D. rewrite dashboard_handler_eq in D. injection D as <-.
  rewrite revenue_breakdown_eq, revenue_breakdown_groups_eq in B.
  set (os := orders (store srv)) in *.
  destruct (ranking_of (tie srv)
              (fun s => (status_revenue os s, breakdown_row os s)) os)
    as (r & P & _ & E).
  rewrite E in B.
  assert (R : rows = map (breakdown_row os) r) by (injection B as <-; reflexivity).
  subst rows. clear B E.
  assert (F : forall s, field "status" (breakdown_row os s) = Some (VText s))
    by reflexivity.
  cbn [totalOrders pendingOrders totalRevenue]. repeat split.
  - rewrite <- (all_rows (breakdown_row os) r F).
    rewrite (count_of_statuses (fun _ => true) r os "order_count"
               (breakdown_row os) P F) by reflexivity.
    rewrite filter_true; [reflexivity|]. reflexivity.
  - rewrite (count_of_statuses is_pending r os "order_count"
               (breakdown_row os) P F) by reflexivity.
    reflexivity.
  - rewrite (revenue_of_statuses is_realised r os "total_revenue"
               (breakdown_row os) P F) by reflexivity.
    reflexivity.
Qed.

End StatusTotals.

(* ================================================================= *)
(** ** What the server reads of the client's requests *)

Section Requests.

Import Pg.

Lemma or_num_show (n d : Z) :
  JS.or_num (JS.parseInt (Some (JS.show n))) d = JS.or_num (JS.Int n) d.
Proof. rewrite parseInt_show. reflexivity. Qed.

Local Opaque JS.parseInt JS.or_num.

(** X11.  Numbers and texts survive the query string.  From the
    request [getOrders] builds, the server reads each text filter as
    the filters give it, an empty or absent one as [''], and reads the
    page and the limit the filters give, 1 and 10 standing for an
    absent or zero one; the limit it reads is the page size the orders
    table shows.  Likewise the server reads back the page, limit and
    search of [getCustomers], the days of [getOrdersOverTime] and the
    limit of [getRevenueByCustomer], with 30 days and 10 rows for
    zero. *)
Theorem api_requests_read_back :
  (forall f : Api.OrderFilters,
      let q := query_of (Api.getOrders_params f) in
      status_of q = JS.or_empty (Api.status f)
      /\ customer_id_of q = JS.or_empty (Api.customer_id f)
      /\ start_date_of q = JS.or_empty (Api.start_date f)
      /\ end_date_of q = JS.or_empty (Api.end_date f)
      /\ Orders.page_of q = or_default (Api.page f) 1
      /\ Orders.limit_of q = OrdersTable.activePageSize f)
  /\ (forall (page limit : Z) (search : string),
        let q := query_of (Api.getCustomers_params
                             (Some page) (Some limit) (Some search)) in
        Customers.page_of q = JS.or_num (JS.Int page) 1
        /\ Customers.limit_of q = JS.or_num (JS.Int limit) 10
        /\ search_of q = search)
  /\ (forall days : Z,
        Charts.days_of (query_of (Api.getOrdersOverTime_params (Some days)))
        = JS.or_num (JS.Int days) 30)
  /\ (forall limit : Z,
        Charts.limit_of
          (query_of (Api.getRevenueByCustomer_params (Some limit)))
        = JS.or_num (JS.Int limit) 10).
Proof.
  split; [|split; [|split]].
  - intros [st ci sd ed pa li] q. subst q.
    unfold Api.getOrders_params, OrdersTable.activePageSize, or_default,
      status_of, customer_id_of, start_date_of, end_date_of,
      Orders.page_of, Orders.limit_of.
    cbn [Api.status Api.customer_id Api.start_date Api.end_date
         Api.page Api.limit].
    destruct st as [[|a1 s1]|], ci as [[|a2 s2]|], sd as [[|a3 s3]|],
      ed as [[|a4 s4]|], pa as [pa|], li as [li|];
      cbn; rewrite ?or_num_show; repeat split; reflexivity.
  - intros page limit search q. subst q.
    unfold Api.getCustomers_params, Customers.page_of, Customers.limit_of,
      search_of.
    destruct search; cbn; rewrite !or_num_show; repeat split; reflexivity.
  - intros days. unfold Charts.days_of. cbn. apply or_num_show.
  - intros limit. unfold Charts.limit_of. cbn. apply or_num_show.
Qed.

End Requests.

(* ================================================================= *)
(** ** The range the tables show *)

Section ShownRange.

Import Pg.

(** The number of rows in the window of page [p] of size [l] over [n]
    rows is the length of the range from [(p - 1) * l + 1] to
    [min (p * l) n]. *)
Lemma window_range {A : Type} (p l : Z) (G : list A) :
  1 <= p -> 1 <= l ->
  Z.of_nat (List.length
              (window (Z.to_nat l) (Z.to_nat ((p - 1) * l)) G))
  = Z.max 0 (Z.min (p * l) (Z.of_nat (List.length G))
             - ((p - 1) * l + 1) + 1).
Proof.
  intros P L. rewrite length_window.
  replace (p * l) with ((p - 1) * l + l) by ring.
  assert (0 <= (p - 1) * l) by nia.
  remember ((p - 1) * l) as off eqn:E. clear E. lia.
Qed.

Lemma get_orders_limit (f : Api.OrderFilters) :
  Orders.limit_of (query_of (Api.getOrders_params f))
  = OrdersTable.activePageSize f.
Proof.
  destruct f as [st ci sd ed pa li].
  unfold Api.getOrders_params, OrdersTable.activePageSize, Orders.limit_of.
  cbn [Api.status Api.customer_id Api.start_date Api.end_date
       Api.page Api.limit].
  destruct st as [[|a1 s1]|], ci as [[|a2 s2]|], sd as [[|a3 s3]|],
    ed as [[|a4 s4]|], pa as [pa|], li as [li|];
    cbn [query_of app Api.text_entry Api.number_entry String.eqb Ascii.eqb
         Bool.eqb];
    try apply or_num_show; reflexivity.
Qed.

(** X12.  The footer of the orders table shows the range of the rows
    on the page.  For any filters, when [getOrders] answers a page, the
    page holds as many rows as there are positions from "Showing
      [from]" to "[to]", and none when [from] is past [to] (an empty
    result shows 1 to 0). *)
Theorem orders_shown_range (srv : Server) (f : Api.OrderFilters)
    key rows pg :
  Api.getOrders srv f = Listing key rows pg ->
  exists info : Api.PaginationInfo,
    Api.paginationInfo pg = Some info
    /\ Z.of_nat (List.length rows)
       = Z.max 0 (OrdersTable.showing_to info (OrdersTable.activePageSize f)
                  - OrdersTable.showing_from info
                      (OrdersTable.activePageSize f)
                  + 1).
Proof.
  unfold Api.getOrders. intros H.
  set (q := query_of (Api.getOrders_params f)) in *.
  assert (El : Orders.limit_of q = OrdersTable.activePageSize f).
  { apply get_orders_limit. }
  apply orders_listing_inv in H.
  destruct H as (m & lim & off & _ & L & O & -> & ->).
  set (p := Orders.page_of q) in *. set (l := Orders.limit_of q) in *.
  assert (L0 : l <> 0) by (apply or_num_nonzero; lia).
  assert (W : window_ok p l) by (apply window_ok_counts; eauto).
  destruct W as (P1 & (L1 & L2) & _).
  destruct (envelope_facts p l (List.length (selected srv m)) L1)
    as (tp & T & _).
  cbv zeta in T.
  unfold envelope in *. cbn [totalPages] in T. rewrite T.
  eexists. split; [reflexivity|].
  unfold OrdersTable.showing_to, OrdersTable.showing_from.
  cbn [Api.currentPage Api.totalCount]. rewrite <- El.
  apply count_ok_inv in L, O. destruct L as (_ & ->), O as (_ & ->).
  unfold offset_of. fold p l. rewrite window_range by assumption.
  rewrite order_by_length. unfold keyed_orders. rewrite length_map.
  reflexivity.
Qed.

Lemma fetch_customers_limit (page : Z) (search : string) :
  Customers.limit_of
    (query_of (Api.getCustomers_params (Some page) (Some 10) (Some search)))
  = 10.
Proof.
  unfold Api.getCustomers_params, Customers.limit_of.
  destruct search; reflexivity.
Qed.

(** X13.  The footer of the customers table shows the range of the
    rows on the page.  With unique customer ids, when the table's
    request for a page of ten is answered, the page holds as many rows
    as there are positions from "Showing [from]" to "[to]", and none
    when [from] is past [to]. *)
Theorem customers_shown_range (srv : Server) (page : Z) (search : string)
    key rows pg :
  NoDup (customer_ids (store srv)) ->
  CustomersTable.fetchCustomers srv (Some page) (Some search)
    = Listing key rows pg ->
  exists info : Api.PaginationInfo,
    Api.paginationInfo pg = Some info
    /\ Z.of_nat (List.length rows)
       = Z.max 0 (CustomersTable.showing_to info
                  - CustomersTable.showing_from info + 1).
Proof.
  unfold CustomersTable.fetchCustomers, Api.getCustomers. cbn [Api.default].
  intros N H.
  set (q := query_of (Api.getCustomers_params
                        (Some page) (Some 10) (Some search))) in *.
  assert (El : Customers.limit_of q = 10) by apply fetch_customers_limit.
  apply customers_listing_inv in H.
  destruct H as (lim & off & L & O & -> & ->).
  unfold customers_offset_of in O.
  set (p := Customers.page_of q) in *. rewrite El in *.
  assert (W : window_ok p 10) by (apply window_ok_counts; [lia|eauto]).
  destruct W as (P1 & _).
  set (fq := filter (qualifies q) (customers (store srv))).
  destruct (envelope_facts p 10 (List.length fq)) as (tp & T & _); [lia|].
  cbv zeta in T.
  unfold envelope in *. cbn [totalPages] in T. rewrite T.
  eexists. split; [reflexivity|].
  unfold CustomersTable.showing_to, CustomersTable.showing_from.
  cbn [Api.currentPage Api.totalCount].
  apply count_ok_inv in L, O. destruct L as (_ & ->), O as (_ & ->).
  rewrite window_range by lia.
  rewrite order_by_length.
  rewrite (Permutation_length (customer_groups_perm srv q N)).
  rewrite length_map. reflexivity.
Qed.

End ShownRange.

(* ================================================================= *)
(** ** The insight cards *)

Section Insights.

Import DashboardTrend.

Variable formatDate : string -> string.
Variable formatCurrency : Q -> string.
Variable toFixed : Q -> nat -> string.

Lemma quarter_pending (p d : Z) :
  1 <= d ->
  Qle_bool (25 # 100) (inject_Z p / inject_Z d) = true <-> d <= 4 * p.
Proof.
  intros D. rewrite Qle_bool_iff. destruct d as [|d|d]; try lia.
  unfold Qle, Qdiv, Qmult, Qinv, inject_Z. cbn [Qnum Qden]. lia.
Qed.

(** X16.  With the metrics loaded the dashboard shows the cards it
    builds, none cut off: three when there is a trend (the trend, the
    best day, the fulfilment queue), two when there is none.  The
    queue card warns exactly when the pending orders are a quarter or
    more of the orders, and the trend card is positive from a growth
    of 10 percent and warns from a drop of 5 percent. *)
Theorem insights_cards (m : DashboardView.DashboardMetrics)
    (trend : option Trend) (range : Z) :
  0 <= DashboardView.totalOrders m ->
  let cards := insights formatDate formatCurrency toFixed
                 (Some m) trend range in
  cards = trend_card toFixed trend range
          :: best_day_card formatDate formatCurrency trend
          ++ [fulfillment_card toFixed m]
  /\ List.length cards = match trend with Some _ => 3%nat | None => 2%nat end
  /\ (tone (fulfillment_card toFixed m) = Warning
      <-> DashboardView.denominator m <= 4 * DashboardView.pendingOrders m)
  /\ (forall t, trend = Some t ->
        (tone (trend_card toFixed trend range) = Positive
         <-> (inject_Z 10 <= percentChange t)%Q)
        /\ (tone (trend_card toFixed trend range) = Warning
            <-> (percentChange t <= inject_Z (-5))%Q)).
Proof.
  intros T cards. subst cards.
  assert (D : 1 <= DashboardView.denominator m).
  { unfold DashboardView.denominator. cbn [JS.or_num].
    destruct (Z.eqb_spec (DashboardView.totalOrders m) 0); lia. }
  split; [|split; [|split]].
  - destruct trend; reflexivity.
  - destruct trend; reflexivity.
  - unfold fulfillment_card. cbv zeta. unfold pendingRatio.
    rewrite <- (quarter_pending _ _ D).
    destruct (Qle_bool (25 # 100) _); cbn [tone]; split; congruence.
  - intros t ->. unfold trend_card.
    destruct (Qle_bool (inject_Z 10) (percentChange t)) eqn:A.
    + cbn [tone]. apply Qle_bool_iff in A. split.
      * split; auto.
      * split; [discriminate|]. intros B. exfalso.
        assert (C : (inject_Z 10 <= inject_Z (-5))%Q)
          by (eapply Qle_trans; eassumption).
        unfold Qle in C. cbn in C. lia.
    + assert (NA : ~ (inject_Z 10 <= percentChange t)%Q).
      { intros Le. apply Qle_bool_iff in Le. congruence. }
      destruct (Qle_bool (percentChange t) (inject_Z (-5))) eqn:B;
        cbn [tone].
      * apply Qle_bool_iff in B. split; split; auto; try discriminate.
        intros; contradiction.
      * assert (NB : ~ (percentChange t <= inject_Z (-5))%Q).
        { intros Le. apply Qle_bool_iff in Le. congruence. }
        split; split; try discriminate; intros; contradiction.
Qed.

End Insights.

(* ================================================================= *)
(** ** The rates of the served metrics *)

Section ServedRates.

Import Pg.

Lemma ratio_bounds (a d : Z) :
  0 <= a <= d -> 1 <= d ->
  (0 <= inject_Z a / inject_Z d <= 1)%Q.
Proof.
  intros A D. destruct d as [|d|d]; try lia.
  unfold Qle, Qdiv, Qmult, Qinv, inject_Z. cbn [Qnum Qden]. lia.
Qed.

(** X17.  The rates the dashboard derives from a served summary stay in
    range: the pending orders are at most the orders, so the
    completion rate is between 0 and 100 and the pending ratio of the
    insights between 0 and 1, also when there is no order. *)
Theorem served_rates_bounded (srv : Server)
    (m : DashboardView.DashboardMetrics) :
  served srv = Some m ->
  0 <= DashboardView.pendingOrders m <= DashboardView.totalOrders m
  /\ (0 <= DashboardView.completionRate m <= inject_Z 100)%Q
  /\ (0 <= DashboardTrend.pendingRatio m <= 1)%Q.
Proof.
  unfold served. rewrite dashboard_handler_eq. cbn [DashboardView.of_summary].
  intros H. injection H as <-.
  unfold DashboardView.completionRate, DashboardTrend.pendingRatio.
  set (os := orders (store srv)).
  pose proof (filter_length_le pending os) as B.
  set (m := {| DashboardView.totalOrders := Z.of_nat (List.length os);
               DashboardView.totalCustomers := _;
               DashboardView.totalRevenue := _;
               DashboardView.pendingOrders := _ |}).
  assert (D : DashboardView.denominator m
              = Z.max (DashboardView.totalOrders m) 1)
    by (apply denominator_max; cbn; lia).
  rewrite D. cbn [DashboardView.totalOrders DashboardView.pendingOrders m].
  set (t := Z.of_nat (List.length os)) in *.
  set (p := Z.of_nat (List.length (filter pending os))) in *.
  assert (P : 0 <= p <= t) by (subst p t; lia).
  split; [exact P|]. split.
  - destruct (ratio_bounds (t - p) (Z.max t 1)) as (L & U); try lia.
    split.
    + apply Qmult_le_0_compat; [exact L|]. unfold Qle; cbn; lia.
    + setoid_replace (inject_Z 100) with (1 * inject_Z 100)%Q by ring.
      apply Qmult_le_compat_r; [exact U|]. unfold Qle; cbn; lia.
  - apply ratio_bounds; lia.
Qed.

End ServedRates.

(* ================================================================= *)
(** ** The environment file *)

Section EnvFile.

Import JSString Env.

Lemma append_nil_r (s : string) : (s ++ EmptyString)%string = s.
Proof. induction s as [|c s IH]; cbn; [reflexivity|]. rewrite IH. reflexivity. Qed.

Lemma trimStart_blank (ws s : string) :
  blank ws = true -> trimStart (ws ++ s) = trimStart s.
Proof.
  unfold trimStart. induction ws as [|c ws IH]; cbn [blank append]; intros B.
  - reflexivity.
  - apply andb_prop in B. destruct B as (C & B). cbn [JS.skip_spaces].
    rewrite C. apply IH. exact B.
Qed.

Lemma trimEnd_all_blank (ws : string) : blank ws = true -> trimEnd ws = EmptyString.
Proof.
  induction ws as [|c ws IH]; cbn [blank trimEnd]; intros B; [reflexivity|].
  apply andb_prop in B. destruct B as (C & B). rewrite (IH B), C. reflexivity.
Qed.

Lemma trimEnd_blank (s ws : string) :
  blank ws = true -> trimEnd (s ++ ws) = trimEnd s.
Proof.
  intros B. induction s as [|c s IH]; cbn [append trimEnd].
  - apply trimEnd_all_blank. exact B.
  - rewrite IH. reflexivity.
Qed.

Lemma trimStart_tail (s ws : string) :
  blank ws = true ->
  exists t, blank t = true /\ trimStart (s ++ ws) = (trimStart s ++ t)%string.
Proof.
  intros B. unfold trimStart. induction s as [|c s IH]; cbn [append].
  - exists EmptyString. split; [reflexivity|].
    clear -B. induction ws as [|c ws IH]; [reflexivity|].
    cbn [blank] in B. apply andb_prop in B. destruct B as (C & B).
    cbn [JS.skip_spaces]. rewrite C. apply IH. exact B.
  - cbn [JS.skip_spaces]. destruct (JS.is_space c).
    + exact IH.
    + exists ws. split; [exact B|reflexivity].
Qed.

(** White space around a text does not show after [trim]. *)
Lemma trim_around (ws1 s ws2 : string) :
  blank ws1 = true -> blank ws2 = true ->
  trim (ws1 ++ s ++ ws2) = trim s.
Proof.
  intros B1 B2. unfold trim. rewrite (trimStart_blank _ _ B1).
  destruct (trimStart_tail s ws2 B2) as (t & Bt & ->).
  apply trimEnd_blank. exact Bt.
Qed.

Lemma split_from_cons (sep : ascii) (cur s : string) :
  exists x rest, split_from sep cur s = x :: rest.
Proof.
  revert cur. induction s as [|c s IH]; intros cur; cbn [split_from].
  - eauto.
  - destruct (Ascii.eqb c sep); [eauto|apply IH].
Qed.

(** Joining the pieces of a split gives the text back. *)
Lemma join_split_from (sep : ascii) (cur s : string) :
  join sep (split_from sep cur s) = (cur ++ s)%string.
Proof.
  revert cur. induction s as [|c s IH]; intros cur; cbn [split_from].
  - cbn. symmetry. apply append_nil_r.
  - destruct (Ascii.eqb_spec c sep) as [->|N].
    + destruct (split_from_cons sep EmptyString s) as (x & rest & E).
      specialize (IH EmptyString). rewrite E in *. cbn [join].
      cbn [join] in IH. rewrite IH. reflexivity.
    + rewrite IH, append_assoc. reflexivity.
Qed.

Lemma join_split (sep : ascii) (s : string) : join sep (split sep s) = s.
Proof. apply join_split_from. Qed.

Lemma split_from_key (sep : ascii) (cur k v : string) :
  no_char sep k = true ->
  split_from sep cur (k ++ String sep v)
  = (cur ++ k)%string :: split sep v.
Proof.
  revert cur. induction k as [|c k IH]; intros cur N; cbn [append split_from].
  - rewrite Ascii.eqb_refl, append_nil_r. reflexivity.
  - cbn [no_char] in N. apply andb_prop in N. destruct N as (C & N).
    apply negb_true_iff in C. rewrite C, (IH _ N), append_assoc.
    reflexivity.
Qed.

Lemma get_set_same (envVars : Vars) (k v : string) :
  get (set envVars k v) k = Some v.
Proof.
  induction envVars as [|[k0 v0] rest IH]; cbn [set get].
  - rewrite String.eqb_refl. reflexivity.
  - destruct (String.eqb k0 k) eqn:E; cbn [get]; rewrite E; auto.
Qed.

Lemma get_set_other (envVars : Vars) (k v k' : string) :
  k' <> k -> get (set envVars k v) k' = get envVars k'.
Proof.
  intros N. induction envVars as [|[k0 v0] rest IH]; cbn [set get].
  - destruct (String.eqb_spec k k'); [congruence|reflexivity].
  - destruct (String.eqb_spec k0 k) as [->|N0]; cbn [get].
    + destruct (String.eqb_spec k k'); [congruence|reflexivity].
    + rewrite IH. reflexivity.
Qed.

Lemma parse_line_assignment (envVars : Vars) (line k v : string) :
  trim line = (k ++ String "=" v)%string ->
  JS.truthy k = true -> no_char "=" k = true ->
  startsWith "#" k = false ->
  parse_line envVars line = set envVars k v.
Proof.
  intros T K N H. unfold parse_line. cbv zeta. rewrite T.
  assert (A : JS.truthy (k ++ String "=" v) = true)
    by (destruct k; [discriminate|reflexivity]).
  assert (B : startsWith "#" (k ++ String "=" v) = false).
  { destruct k as [|a k]; [discriminate|]. cbn [append startsWith] in *.
    destruct (Ascii.eqb "#" a); [discriminate|reflexivity]. }
  rewrite A, B. cbn [negb andb]. unfold split at 1.
  rewrite (split_from_key _ _ _ _ N). cbn [append]. rewrite K.
  destruct (split_from_cons "=" EmptyString v) as (x & rest & E).
  pose proof (join_split "=" v) as J. unfold split in *. rewrite E in *.
  cbn [List.length Nat.ltb Nat.leb andb]. rewrite J. reflexivity.
Qed.

(** X18.  A line [KEY=VALUE] of the environment file assigns to the key
    everything after the first [=], further [=] signs included.  For a
    line of ASCII characters: when the trimmed line is a key, [=] and a
    value, the key being not empty, free of [=], not starting a
    comment and other than [__proto__] (whose assignment JavaScript
    treats apart), the line sets the key to the value and leaves every
    other key as it was; the variant that trims sets the trimmed key,
    when it is not [__proto__] either, to the trimmed value. *)
Theorem env_line_assignment (envVars : Vars) (line k v : string) :
  ascii_only line = true ->
  trim line = (k ++ String "=" v)%string ->
  JS.truthy k = true -> no_char "=" k = true ->
  startsWith "#" k = false ->
  k <> "__proto__"%string ->
  parse_line envVars line = set envVars k v
  /\ get (parse_line envVars line) k = Some v
  /\ (forall k', k' <> k ->
        get (parse_line envVars line) k' = get envVars k')
  /\ (JS.truthy (trim k) = true -> trim k <> "__proto__"%string ->
      parse_line_trimmed envVars line = set envVars (trim k) (trim v)).
Proof.
  intros _ T K N H _. rewrite (parse_line_assignment envVars line k v T K N H).
  split; [reflexivity|]. split; [apply get_set_same|]. split.
  - intros k' D. apply get_set_other. exact D.
  - intros Kt _. unfold parse_line_trimmed. cbv zeta. rewrite T.
    assert (A : JS.truthy (k ++ String "=" v) = true)
      by (destruct k; [discriminate|reflexivity]).
    assert (B : startsWith "#" (k ++ String "=" v) = false).
    { destruct k as [|a k]; [discriminate|]. cbn [append startsWith] in *.
      destruct (Ascii.eqb "#" a); [discriminate|reflexivity]. }
    rewrite A, B. cbn [negb andb]. unfold split at 1.
    rewrite (split_from_key _ _ _ _ N). cbn [append]. rewrite K, Kt.
    destruct (split_from_cons "=" EmptyString v) as (x & rest & E).
    pose proof (join_split "=" v) as J. unfold split in *. rewrite E in *.
    cbn [List.length Nat.ltb Nat.leb andb]. rewrite J. reflexivity.
Qed.

Lemma split_no_sep (sep : ascii) (cur s : string) :
  no_char sep s = true -> split_from sep cur s = [(cur ++ s)%string].
Proof.
  revert cur. induction s as [|c s IH]; intros cur N; cbn [split_from].
  - rewrite append_nil_r. reflexivity.
  - cbn [no_char] in N. apply andb_prop in N. destruct N as (C & N).
    apply negb_true_iff in C. rewrite C, (IH _ N), append_assoc.
    reflexivity.
Qed.

(** X19.  Lines that assign nothing, and white space that does not
    matter.  A line that is blank, starts a comment with [#], holds no
    [=] or starts with [=] leaves the variables as they are; and white
    space around a line, such as the carriage return of a CRLF line
    end, never changes what the line does. *)
Theorem env_line_ignored (envVars : Vars) (line : string) :
  (JS.truthy (trim line) = false
   \/ startsWith "#" (trim line) = true
   \/ no_char "=" (trim line) = true
   \/ startsWith "=" (trim line) = true ->
   parse_line envVars line = envVars)
  /\ forall ws1 ws2,
       blank ws1 = true -> blank ws2 = true ->
       parse_line envVars (ws1 ++ line ++ ws2) = parse_line envVars line.
Proof.
  split.
  - unfold parse_line. cbv zeta. intros [E|[C|[N|S]]].
    + rewrite E. reflexivity.
    + rewrite C. cbn [negb]. rewrite andb_false_r. reflexivity.
    + destruct (JS.truthy (trim line) && negb (startsWith "#" (trim line)));
        [|reflexivity].
      unfold split. rewrite (split_no_sep _ _ _ N). cbn [List.length].
      rewrite andb_false_r. reflexivity.
    + destruct (JS.truthy (trim line) && negb (startsWith "#" (trim line)));
        [|reflexivity].
      destruct (trim line) as [|c t]; [discriminate|].
      cbn [startsWith] in S. apply andb_prop in S. destruct S as (S & _).
      apply Ascii.eqb_eq in S. subst c. reflexivity.
  - intros ws1 ws2 B1 B2. unfold parse_line.
    rewrite (trim_around ws1 line ws2 B1 B2). reflexivity.
Qed.

Lemma split_from_line (sep : ascii) (cur a b : string) :
  split_from sep cur (a ++ String sep b)
  = split_from sep cur a ++ split sep b.
Proof.
  revert cur. induction a as [|c a IH]; intros cur; cbn [append split_from].
  - rewrite Ascii.eqb_refl. reflexivity.
  - destruct (Ascii.eqb c sep); [|apply IH].
    rewrite IH. reflexivity.
Qed.

(** X21.  The last assignment of the file wins.  Whatever the file
    holds before, when its last line, of ASCII characters, is an
    assignment to a key other than [__proto__], the variables read
    from the file give that key the value of that line. *)
Theorem env_last_assignment (envContent line k v : string) :
  ascii_only line = true ->
  no_char newline line = true ->
  trim line = (k ++ String "=" v)%string ->
  JS.truthy k = true -> no_char "=" k = true ->
  startsWith "#" k = false ->
  k <> "__proto__"%string ->
  get (parse (envContent ++ String newline line)) k = Some v.
Proof.
  intros _ L T K N H _. unfold parse, split.
  rewrite split_from_line. unfold split.
  rewrite (split_no_sep _ _ _ L). cbn [append].
  rewrite fold_left_app. cbn [fold_left].
  rewrite (parse_line_assignment _ line k v T K N H).
  apply get_set_same.
Qed.

Lemma trimEnd_solid (s : string) (c : ascii) :
  JS.is_space c = false ->
  trimEnd (s ++ String c EmptyString) = (s ++ String c EmptyString)%string.
Proof.
  intros C. induction s as [|d s IH]; cbn [append trimEnd].
  - rewrite C. reflexivity.
  - rewrite IH. destruct s; reflexivity.
Qed.

Lemma endsWith_last (s : string) (c : ascii) :
  endsWith c (s ++ String c EmptyString) = true.
Proof.
  induction s as [|d s IH]; cbn [append endsWith].
  - apply Ascii.eqb_refl.
  - destruct s; exact IH.
Qed.

Lemma drop_last_last (s : string) (c : ascii) :
  drop_last (s ++ String c EmptyString) = s.
Proof.
  induction s as [|d s IH]; cbn [append drop_last]; [reflexivity|].
  rewrite IH. destruct s; reflexivity.
Qed.

(** X20.  [stripQuotes] removes one pair of surrounding quotes.  A
    value written between two double quotes or two single quotes, with
    white space around them or not, is read as what stands between the
    quotes, untrimmed and with any inner quotes kept. *)
Theorem strip_quotes_pair (q : ascii) (v ws1 ws2 : string) :
  q = double_quote \/ q = single_quote ->
  blank ws1 = true -> blank ws2 = true ->
  stripQuotes (ws1 ++ String q (v ++ String q EmptyString) ++ ws2) = v.
Proof.
  intros Q B1 B2. unfold stripQuotes. cbv zeta.
  assert (S : JS.is_space q = false) by (destruct Q as [->| ->]; reflexivity).
  assert (T : trim (ws1 ++ String q (v ++ String q EmptyString) ++ ws2)
              = String q (v ++ String q EmptyString)).
  { rewrite (trim_around _ _ _ B1 B2). unfold trim, trimStart.
    cbn [JS.skip_spaces]. rewrite S.
    change (String q (v ++ String q EmptyString))
      with ((String q v) ++ String q EmptyString)%string.
    apply trimEnd_solid. exact S. }
  rewrite T.
  assert (E : endsWith q (String q (v ++ String q EmptyString)) = true).
  { change (String q (v ++ String q EmptyString))
      with ((String q v) ++ String q EmptyString)%string.
    apply endsWith_last. }
  assert (D : slice_1_m1 (String q (v ++ String q EmptyString)) = v)
    by (cbn [slice_1_m1]; apply drop_last_last).
  destruct Q as [->| ->].
  - rewrite E. cbn [startsWith]. rewrite Ascii.eqb_refl. cbn [andb orb].
    exact D.
  - change (startsWith (String double_quote EmptyString)
              (String single_quote (v ++ String single_quote EmptyString)))
      with false.
    rewrite E. cbn [startsWith]. rewrite Ascii.eqb_refl. cbn [andb orb].
    exact D.
Qed.

End EnvFile.

(* ================================================================= *)
(** ** The status chips of the orders table *)

Section StatusChips.

Import OrdersTable.




End StatusChips.

(* ================================================================= *)
(** ** The averages of the charts *)

Section ChartAverages.

Import Pg.

Variable date_json : Z -> string.

Lemma orders_over_time_eq (srv : Server) (q : Query) :
  Charts.orders_over_time srv q
  = Series (order_by false (tie srv) (day_groups (in_window srv q))).
Proof.
  unfold Charts.orders_over_time, pool_query.
  rewrite orders_over_time_parse. reflexivity.
Qed.

Lemma sorted_lt_NoDup (l : list Z) : StronglySorted Z.lt l -> NoDup l.
Proof.
  induction 1 as [|a l S IH F]; constructor; [|exact IH].
  intros I. rewrite Forall_forall in F. specialize (F a I). lia.
Qed.

Lemma load_day_row (sel : list Order) (d : Z) :
  In d (map o_order_date sel) ->
  ChartsView.load_day date_json (snd (day_entry sel d))
  = Some (day_datum date_json sel d).
Proof.
  intros I. apply in_map_iff in I. destruct I as (o & E & I).
  unfold day_entry, day_row, day_datum. cbn [snd].
  assert (J : In o (filter (on_date d) sel))
    by (apply filter_In; split; [exact I|apply on_date_true; exact E]).
  destruct (filter (on_date d) sel) as [|o' g]; [contradiction|].
  reflexivity.
Qed.

Lemma days_cover (ds : list Z) (sel : list Order) :
  NoDup ds ->
  (forall d, In d ds <-> In d (map o_order_date sel)) ->
  Permutation (flat_map (fun d => filter (on_date d) sel) ds) sel.
Proof.
  intros N C.
  change (fun d => filter (on_date d) sel)
    with (fun d => filter (has_key Z.eq_dec o_order_date d) sel).
  rewrite (groups_partition Z.eq_dec o_order_date ds sel N).
  rewrite filter_true; [reflexivity|].
  intros o I. unfold among.
  destruct (in_dec Z.eq_dec (o_order_date o) ds) as [J|J]; [reflexivity|].
  exfalso. apply J, C. apply in_map. exact I.
Qed.

Lemma hundredths_plus (a b : Z) : (a + b # 100 == (a # 100) + (b # 100))%Q.
Proof. unfold Qeq, Qplus. cbn [Qnum Qden]. lia. Qed.

Lemma totals_fold (sel : list Order) (ds : list Z) (acc : ChartsView.Totals) :
  let totals :=
    fold_left
      (fun acc item =>
         {| ChartsView.orders :=
              (ChartsView.orders acc
               + inject_Z (DashboardTrend.order_count item))%Q;
            ChartsView.revenue :=
              (ChartsView.revenue acc + DashboardTrend.revenue item)%Q |})
      (map (day_datum date_json sel) ds) acc in
  (ChartsView.orders totals
   == ChartsView.orders acc
      + inject_Z (Z.of_nat (List.length
                   (flat_map (fun d => filter (on_date d) sel) ds))))%Q
  /\ (ChartsView.revenue totals
      == ChartsView.revenue acc
         + (sum_total (flat_map (fun d => filter (on_date d) sel) ds) # 100))%Q.
Proof.
  cbv zeta. revert acc. induction ds as [|d ds IH]; intros acc.
  - cbn. split; ring.
  - cbn [map fold_left flat_map].
    destruct (IH {| ChartsView.orders :=
                      (ChartsView.orders acc
                       + inject_Z (DashboardTrend.order_count
                                     (day_datum date_json sel d)))%Q;
                    ChartsView.revenue :=
                      (ChartsView.revenue acc
                       + DashboardTrend.revenue
                           (day_datum date_json sel d))%Q |}) as (A & B).
    split.
    + rewrite A. cbn [ChartsView.orders day_datum DashboardTrend.order_count].
      rewrite length_app, Nat2Z.inj_add, inject_Z_plus. ring.
    + rewrite B. cbn [ChartsView.revenue day_datum DashboardTrend.revenue].
      rewrite sum_total_app, hundredths_plus. ring.
Qed.

Lemma averageOrders_some (data : list DashboardTrend.OrdersOverTimeData) :
  data <> [] ->
  ChartsView.averageOrders data
  = Some
      {| ChartsView.orders :=
           (ChartsView.orders
              (fold_left
                 (fun acc item =>
                    {| ChartsView.orders :=
                         (ChartsView.orders acc
                          + inject_Z (DashboardTrend.order_count item))%Q;
                       ChartsView.revenue :=
                         (ChartsView.revenue acc
                          + DashboardTrend.revenue item)%Q |})
                 data
                 {| ChartsView.orders := 0%Q; ChartsView.revenue := 0%Q |})
            / inject_Z (Z.of_nat (List.length data)))%Q;
         ChartsView.revenue :=
           (ChartsView.revenue
              (fold_left
                 (fun acc item =>
                    {| ChartsView.orders :=
                         (ChartsView.orders acc
                          + inject_Z (DashboardTrend.order_count item))%Q;
                       ChartsView.revenue :=
                         (ChartsView.revenue acc
                          + DashboardTrend.revenue item)%Q |})
                 data
                 {| ChartsView.orders := 0%Q; ChartsView.revenue := 0%Q |})
            / inject_Z (Z.of_nat (List.length data)))%Q |}.
Proof. destruct data; [congruence|reflexivity]. Qed.

(** X23.  The averages of the charts are taken over the days that have
    orders.  Every row of the orders-over-time series is kept by the
    component; there are averages exactly when an order lies in the
    window of the request, and then the average order count times the
    number of distinct dates with orders is the number of orders in
    the window, and the average revenue times that number is the sum
    of their totals. *)
Theorem averages_over_days_with_orders (srv : Server) (q : Query)
    (rows : list Row) :
  Charts.orders_over_time srv q = Series rows ->
  exists data,
    map (ChartsView.load_day date_json) rows = map Some data
    /\ List.length data
       = List.length (nodup Z.eq_dec (map o_order_date (in_window srv q)))
    /\ (ChartsView.averageOrders data = None <-> in_window srv q = [])
    /\ forall avg, ChartsView.averageOrders data = Some avg ->
         (ChartsView.orders avg * inject_Z (Z.of_nat (List.length data))
          == inject_Z (Z.of_nat (List.length (in_window srv q))))%Q
         /\ (ChartsView.revenue avg * inject_Z (Z.of_nat (List.length data))
             == sum_total (in_window srv q) # 100)%Q.
Proof.
  rewrite orders_over_time_eq. intros H. injection H as <-.
  set (sel := in_window srv q).
  destruct (day_series (tie srv) sel) as (ds & E & S & C).
  assert (N : NoDup ds) by (apply sorted_lt_NoDup; exact S).
  pose proof (days_cover ds sel N C) as P.
  exists (map (day_datum date_json sel) ds).
  split; [|split; [|split]].
  - rewrite E, !map_map. apply map_ext_in. intros d I.
    apply load_day_row, C, I.
  - rewrite length_map. apply Permutation_length.
    apply NoDup_Permutation; [exact N|apply NoDup_nodup|].
    intros d. rewrite C, nodup_In. reflexivity.
  - split.
    + intros A. destruct ds as [|d ds]; [|discriminate].
      destruct sel as [|o sel']; [reflexivity|].
      exfalso. apply (proj2 (C (o_order_date o))). left. reflexivity.
    + intros Z0. destruct ds as [|d ds]; [reflexivity|].
      exfalso. specialize (proj1 (C d) (or_introl eq_refl)).
      rewrite Z0. intros [].
  - intros avg A.
    assert (NE : map (day_datum date_json sel) ds <> [])
      by (intros Z0; rewrite Z0 in A; discriminate).
    rewrite (averageOrders_some _ NE) in A. injection A as <-.
    cbn [ChartsView.orders ChartsView.revenue].
    destruct (totals_fold sel ds
                {| ChartsView.orders := 0%Q; ChartsView.revenue := 0%Q |})
      as (TO & TR).
    cbv zeta in TO, TR. cbn [ChartsView.orders ChartsView.revenue] in TO, TR.
    rewrite TO, TR.
    rewrite (Permutation_length P), (sum_total_perm _ _ P).
    assert (NZ : ~ (inject_Z (Z.of_nat
                      (List.length (map (day_datum date_json sel) ds))) == 0)%Q).
    { destruct (map (day_datum date_json sel) ds); [congruence|].
      unfold Qeq. cbn [List.length inject_Z Qnum Qden]. lia. }
    split; field; exact NZ.
Qed.

End ChartAverages.

(* ================================================================= *)
(** ** The search box of the customers table *)

Section CustomerSearch.

Import Pg.

Lemma trim_blank (s : string) : blank s = true -> JSString.trim s = EmptyString.
Proof.
  intros B. rewrite <- (append_nil_r s).
  change (s ++ EmptyString)%string with (s ++ EmptyString ++ EmptyString)%string.
  rewrite (trim_around s EmptyString EmptyString B eq_refl). reflexivity.
Qed.

(** X24.  Submitting the search box asks for page 1 of ten with the
    trimmed input as the search, for an input of ASCII characters.
    When the input is blank the request carries no search at all, and
    the listing answers the first page of all the customers of the
    store. *)
Theorem search_box_request (st : CustomersTable.State) :
  let q := query_of (CustomersTable.request
                       (CustomersTable.handleSearch st)) in
  ascii_only (CustomersTable.searchInput st) = true ->
  Customers.page_of q = 1
  /\ Customers.limit_of q = 10
  /\ search_of q = JSString.trim (CustomersTable.searchInput st)
  /\ (blank (CustomersTable.searchInput st) = true ->
      q "search"%string = None
      /\ forall srv, exists rows,
           Customers.handler srv q
           = Listing "customers" rows
               (envelope 1 10
                  (JS.Int (Z.of_nat
                     (List.length (customers (store srv))))))).
Proof.
  cbv zeta. intros _.
  unfold CustomersTable.request, CustomersTable.handleSearch.
  cbn [CustomersTable.currentPage CustomersTable.searchQuery
       CustomersTable.searchInput].
  set (s := JSString.trim (CustomersTable.searchInput st)).
  split; [|split; [|split]].
  - unfold Api.getCustomers_params. destruct s; reflexivity.
  - unfold Api.getCustomers_params. destruct s; reflexivity.
  - unfold Api.getCustomers_params, search_of. destruct s; reflexivity.
  - intros B. subst s. rewrite (trim_blank _ B).
    split; [reflexivity|]. intros srv.
    rewrite customers_handler_eq. eexists.
    change (count_ok _) with (Some 10%nat) at 1.
    change (count_ok _) with (Some 0%nat) at 1. cbv iota beta.
    rewrite filter_true; [reflexivity|]. intros c _. reflexivity.
Qed.

End CustomerSearch.

(* ================================================================= *)
(** ** Values stay out of the statements *)

Section NoInjection.

Import Pg.

(** X25.  The value of a filter, of the search, of the page or of the
    limit never reaches the text of a statement.  Two requests that
    supply the same filters send the same four texts to the server,
    whatever the values they supply; the values travel as bound
    parameters.  The one number written into a text, the days of the
    orders-over-time statement, is a parsed integer, and the statement
    read from that text is the series statement whatever the request
    holds. *)
Theorem values_stay_out_of_statements (q q' : Query) :
  same_supplied q q' ->
  text_of (fst (Orders.statements q)) = text_of (fst (Orders.statements q'))
  /\ text_of (snd (Orders.statements q))
     = text_of (snd (Orders.statements q'))
  /\ text_of (fst (Customers.statements q))
     = text_of (fst (Customers.statements q'))
  /\ text_of (snd (Customers.statements q))
     = text_of (snd (Customers.statements q'))
  /\ params_of (fst (Orders.statements q))
     = filter_params q ++ [PNum (Orders.limit_of q); PNum (offset_of q)]
  /\ params_of (fst (Customers.statements q))
     = search_params q
       ++ [PNum (Customers.limit_of q); PNum (customers_offset_of q)]
  /\ pg_parse (Charts.orders_over_time_text (Charts.days_of q))
     = Some (OrdersOverTime (Charts.days_of q)).
Proof.
  intros (S1 & S2 & S3 & S4 & S5).
  destruct (orders_texts q) as (A & B), (orders_texts q') as (A' & B').
  cbv zeta in A, B, A', B'.
  assert (W : where_text q = where_text q')
    by (unfold where_text; rewrite S1, S2, S3, S4; reflexivity).
  assert (K : List.length (filter_params q) = List.length (filter_params q')).
  { unfold filter_params. rewrite !length_map. cbn [filter].
    rewrite S1, S2, S3, S4.
    destruct (JS.truthy (status_of q')), (JS.truthy (customer_id_of q')),
      (JS.truthy (start_date_of q')), (JS.truthy (end_date_of q'));
      reflexivity. }
  unfold text_of, params_of.
  split; [rewrite A, A', W, K; reflexivity|].
  split; [rewrite B, B', W; reflexivity|].
  split; [|split; [|split; [|split]]].
  - unfold Customers.statements. fold (search_of q) (search_of q').
    destruct (search_of q), (search_of q'); try discriminate; reflexivity.
  - unfold Customers.statements. fold (search_of q) (search_of q').
    destruct (search_of q), (search_of q'); try discriminate; reflexivity.
  - destruct (orders_statements_shape q) as (t1 & t2 & E & _).
    rewrite E. reflexivity.
  - destruct (customers_statements_shape q) as (t1 & t2 & E & _).
    rewrite E. reflexivity.
  - apply orders_over_time_parse.
Qed.

End NoInjection.

(* ================================================================= *)
(** ** When the revenue ranking answers *)

Section RevenueLimit.

Import Pg.

(** X26.  The revenue-by-customer route fails only on its limit.  The
    parsed limit is never 0 (an absent, non-numeric or zero limit
    means 10).  For a limit whose text is ASCII and whose value is a
    safe integer of JavaScript, the route answers status 500 with its
    message exactly when the limit is negative, and otherwise a
    series of at most [limit] rows. *)
Theorem revenue_answer_or_failure (srv : Server) (q : Query) :
  let l := Charts.limit_of q in
  ascii_only (JS.or_empty (q "limit"%string)) = true ->
  safe_integer l ->
  l <> 0
  /\ (Charts.revenue_by_customer srv q
      = Failure 500 "Failed to fetch revenue by customer data"
      <-> l < 0)
  /\ (1 <= l ->
      exists rows,
        Charts.revenue_by_customer srv q = Series rows
        /\ Z.of_nat (List.length rows) <= l).
Proof.
  intros l _ (_ & Hs). apply safe_le_int8 in Hs.
  assert (L0 : l <> 0) by (apply or_num_nonzero; lia).
  split; [exact L0|]. rewrite revenue_handler_eq. fold l.
  destruct (count_ok l) as [lim|] eqn:E.
  - assert (B : 0 <= l <= int8_max) by (apply count_ok_iff; eauto).
    split.
    + split; [discriminate|lia].
    + intros _. eexists. split; [reflexivity|].
      rewrite length_firstn. apply count_ok_inv in E. lia.
  - apply count_ok_none in E. split.
    + split; [intros _; lia|reflexivity].
    + intros B. exfalso. apply E. lia.
Qed.

End RevenueLimit.

(* ================================================================= *)
(** ** Empty pages that are not errors *)

Section EmptyPages.

Import Pg.

Lemma window_nonempty {A : Type} (p l : Z) (G : list A) :
  1 <= p -> 1 <= l ->
  (window (Z.to_nat l) (Z.to_nat ((p - 1) * l)) G <> []
   <-> (p - 1) * l < Z.of_nat (List.length G)).
Proof.
  intros P L. pose proof (window_range p l G P L) as R.
  assert (O : 0 <= (p - 1) * l) by nia.
  replace (p * l) with ((p - 1) * l + l) in R by ring.
  remember ((p - 1) * l) as off eqn:E. clear E.
  destruct (window _ _ G) as [|x w]; cbn [List.length] in R; split;
    intros H; try congruence; lia.
Qed.

(** X27.  A date range that ends before it starts is not an error.
    When the orders listing answers a request whose [start_date] is
    read as a later day than its [end_date], the page is empty, the
    count and the number of pages are 0 and there is no next page. *)
Theorem inverted_date_range_empty (srv : Server) (q : Query) (a b : Z)
    key rows pg :
  Orders.handler srv q = Listing key rows pg ->
  JS.truthy (start_date_of q) = true ->
  date_in srv (start_date_of q) = Some a ->
  JS.truthy (end_date_of q) = true ->
  date_in srv (end_date_of q) = Some b ->
  b < a ->
  rows = []
  /\ totalCount pg = JS.Int 0
  /\ totalPages pg = JS.Int 0
  /\ hasNext pg = false.
Proof.
  intros H Ts Ds Te De Lt.
  apply orders_listing_inv in H.
  destruct H as (m & lim & off & M & L & O & -> & ->).
  set (p := Orders.page_of q) in *. set (l := Orders.limit_of q) in *.
  assert (L0 : l <> 0) by (apply or_num_nonzero; lia).
  assert (W : window_ok p l) by (apply window_ok_counts; eauto).
  destruct W as (P1 & (L1 & L2) & _).
  unfold order_pred, accept in M. rewrite Ts, Ds, Te, De in M.
  destruct (if JS.truthy (customer_id_of q) then _ else _) as [c|];
    [|discriminate].
  injection M as <-.
  assert (E : selected srv (matches (status_of q) c (Some a) (Some b)) = []).
  { unfold selected. apply filter_false. intros oc _. unfold matches.
    destruct (Z.leb_spec a (o_order_date (fst oc))),
      (Z.leb_spec (o_order_date (fst oc)) b); try lia;
      rewrite ?andb_false_r; reflexivity. }
  rewrite E. cbn [keyed_orders map order_by sort_rows List.length].
  change (Z.of_nat 0) with 0. rewrite (empty_envelope p l P1 L1).
  unfold window. rewrite skipn_nil, firstn_nil. repeat split.
Qed.

(** X28.  A page has rows exactly when it is one of the pages counted.
    When the orders listing answers, its page holds at least one row
    if and only if [currentPage] is at most [totalPages]; a page past
    the last one is an empty page, not an error, with no next page. *)
Theorem page_has_rows_iff_counted (srv : Server) (q : Query)
    key rows pg (tp : Z) :
  Orders.handler srv q = Listing key rows pg ->
  totalPages pg = JS.Int tp ->
  (rows <> [] <-> currentPage pg <= tp)
  /\ (tp < currentPage pg -> rows = [] /\ hasNext pg = false).
Proof.
  intros H T.
  apply orders_listing_inv in H.
  destruct H as (m & lim & off & _ & L & O & -> & E).
  set (p := Orders.page_of q) in *. set (l := Orders.limit_of q) in *.
  assert (L0 : l <> 0) by (apply or_num_nonzero; lia).
  assert (W : window_ok p l) by (apply window_ok_counts; eauto).
  destruct W as (P1 & (L1 & L2) & _).
  destruct (envelope_pages p l _ pg tp L1 E T) as (B & N).
  assert (Cp : currentPage pg = p) by (rewrite E; reflexivity).
  rewrite Cp. apply count_ok_inv in L, O.
  destruct L as (_ & ->), O as (_ & ->). unfold offset_of. fold p l.
  set (G := order_by true (tie srv) (keyed_orders (selected srv m))).
  assert (Len : List.length G = List.length (selected srv m)).
  { subst G. rewrite order_by_length. unfold keyed_orders.
    apply length_map. }
  pose proof (window_nonempty p l G P1 L1) as WN. rewrite Len in WN.
  assert (I : window (Z.to_nat l) (Z.to_nat ((p - 1) * l)) G <> []
              <-> p <= tp).
  { rewrite WN. split; intros; nia. }
  split; [exact I|]. intros Gt. split.
  - destruct (window _ _ G) as [|x w]; [reflexivity|].
    exfalso. assert (p <= tp) by (apply I; discriminate). lia.
  - rewrite N. apply Z.ltb_ge. lia.
Qed.

End EmptyPages.

(* ================================================================= *)
(** ** The statements at concrete requests *)

(** Witness of C1: the pending orders of the seed, page 1 of 10. *)
Lemma pagination_envelope_witness :
  exists rows pg,
    Orders.handler Fixture.seed_server Fixture.pending_request
      = Listing "orders" rows pg
    /\ 1 <= JS.or_num (JS.parseInt (Fixture.pending_request "page"%string)) 1
    /\ 1 <= JS.or_num (JS.parseInt (Fixture.pending_request "limit"%string)) 10
    /\ (exists tc tp,
          totalCount pg = JS.Int tc /\ 0 <= tc
          /\ totalPages pg = JS.Int tp
          /\ (tp - 1) * 10 < tc <= tp * 10
          /\ (tc = 0 -> tp = 0)
          /\ currentPage pg = 1
          /\ hasNext pg = (1 <? tp)
          /\ hasPrev pg = (1 <? 1)
          /\ pg = envelope 1 10 (JS.Int tc)).
Proof.
  do 2 eexists.
  split; [vm_compute; reflexivity|].
  split; [vm_compute; discriminate|].
  split; [vm_compute; discriminate|].
  refine (proj1 (pagination_envelope Orders.handler (or_introl eq_refl)
                   Fixture.seed_server Fixture.pending_request
                   "orders" _ _ eq_refl _ _));
    vm_compute; discriminate.
Defined.

(** Witness of C4: the customer listing of the seed, no search. *)
Lemma customer_aggregates_witness :
  NoDup (customer_ids Fixture.seed)
  /\ exists rows pg,
       Customers.handler Fixture.seed_server Fixture.plain_request
         = Listing "customers" rows pg
       /\ forall row, In row rows ->
            exists c,
              In c (customers Fixture.seed)
              /\ qualifies Fixture.plain_request c = true
              /\ field "order_count" row
                 = Some (VInt (Z.of_nat (List.length
                      (filter (fun o => c_id c =? o_customer_id o)
                              (orders Fixture.seed)))))
              /\ field "total_spent" row
                 = Some (VDec (fold_right (fun o acc => o_total o + acc) 0
                      (filter (fun o => c_id c =? o_customer_id o)
                              (orders Fixture.seed)))).
Proof.
  assert (N : NoDup (customer_ids Fixture.seed)).
  { vm_compute. repeat constructor; cbn; intuition discriminate. }
  split; [exact N|].
  do 2 eexists. split; [vm_compute; reflexivity|].
  intros row Hr.
  destruct (proj2 (customer_aggregates Fixture.seed_server Fixture.plain_request
                     "customers" _ _ N eq_refl) row Hr)
    as (c & Ic & Qc & _ & Hc & Ht & _).
  exists c. auto.
Defined.

(** Witness of C5: completed orders of January 2024 in the seed. *)
Lemma filters_conjunction_monotone_witness :
  exists rows pg,
    Orders.handler Fixture.seed_server Fixture.january_completed_request
      = Listing "orders" rows pg
    /\ (forall row, In row rows ->
          exists o c,
            row = Pg.order_row (o, c)
            /\ o_status o = "completed"%string
            /\ Fixture.day "2024-01-01" <= o_order_date o
            /\ o_order_date o <= Fixture.day "2024-01-31")
    /\ (forall name,
          In name ["status"; "customer_id"; "start_date"; "end_date"]%string ->
          exists rows' pg' n n',
            Orders.handler Fixture.seed_server
              (without name Fixture.january_completed_request)
              = Listing "orders" rows' pg'
            /\ totalCount pg = JS.Int n
            /\ totalCount pg' = JS.Int n'
            /\ n <= n').
Proof.
  do 2 eexists. split; [vm_compute; reflexivity|].
  pose proof (filters_conjunction_monotone Fixture.seed_server
                Fixture.january_completed_request "orders" _ _ eq_refl) as T.
  cbv zeta in T. destruct T as [R M]. split.
  - intros row Hr. destruct (R row Hr) as (o & c & _ & _ & _ & E & S & _ & F & T).
    exists o, c. split; [exact E|]. split; [apply S; reflexivity|].
    destruct (F eq_refl) as (d1 & E1 & L1), (T eq_refl) as (d2 & E2 & L2).
    vm_compute in E1, E2. injection E1 as <-. injection E2 as <-.
    split; assumption.
  - intros name Hn. apply (M name Fixture.seed_server Hn).
    repeat split; reflexivity.
Defined.

(** Witness of C9 as amended: customer 999 is not in the seed. *)
Lemma nonexistent_customer_empty_page_witness :
  exact_window (Fixture.unknown_customer_request "page"%string)
    (Fixture.unknown_customer_request "limit"%string) 1 10
  /\ forallb no_nul
       [JS.or_empty (Fixture.unknown_customer_request "status"%string);
        JS.or_empty (Fixture.unknown_customer_request "customer_id"%string);
        JS.or_empty (Fixture.unknown_customer_request "start_date"%string);
        JS.or_empty (Fixture.unknown_customer_request "end_date"%string)]
     = true
  /\ 1 <= JS.or_num (JS.parseInt (Fixture.unknown_customer_request "page"%string)) 1
  /\ 1 <= JS.or_num (JS.parseInt (Fixture.unknown_customer_request "limit"%string)) 10
  /\ Pg.int_in Fixture.seed_server "999" = Some 999
  /\ (forall c, In c (customers Fixture.seed) -> c_id c <> 999)
  /\ Orders.handler Fixture.seed_server Fixture.unknown_customer_request =
       Listing "orders" []
         {| currentPage := 1; totalPages := JS.Int 0; totalCount := JS.Int 0;
            hasNext := false; hasPrev := false |}.
Proof.
  assert (N : forall c, In c (customers Fixture.seed) -> c_id c <> 999).
  { intros c [<- | [<- | []]]; vm_compute; discriminate. }
  assert (X : exact_window (Fixture.unknown_customer_request "page"%string)
                (Fixture.unknown_customer_request "limit"%string) 1 10).
  { repeat split; try reflexivity; vm_compute; discriminate. }
  split; [exact X|]. split; [reflexivity|].
  split; [vm_compute; discriminate|].
  split; [vm_compute; discriminate|].
  split; [reflexivity|]. split; [exact N|].
  refine (nonexistent_customer_empty_page Fixture.seed_server
            Fixture.unknown_customer_request 999 X eq_refl _ _
            eq_refl eq_refl N _ _);
    try (vm_compute; discriminate).
Defined.

(** Witness of C10: four orders, one pending, a revenue of 300.00. *)
Lemma derived_metrics_witness :
  0 <= DashboardView.totalOrders Fixture.sample_metrics
  /\ DashboardView.denominator Fixture.sample_metrics = 4
  /\ DashboardView.averageOrderValue Fixture.sample_metrics
     = (Qmake 30000 100 / inject_Z 4)%Q
  /\ DashboardView.completionRate Fixture.sample_metrics
     = (inject_Z 3 / inject_Z 4 * inject_Z 100)%Q.
Proof.
  assert (H : 0 <= DashboardView.totalOrders Fixture.sample_metrics)
    by (vm_compute; discriminate).
  split; [exact H|].
  destruct (derived_metrics Fixture.sample_metrics H) as (D & _ & A & C & _).
  split; [exact D|]. split; [exact A | exact C].
Defined.

(** Witness of C7 as amended: revenues 500, 500 and 300, ten rows asked. *)
Lemma revenue_by_customer_ranking_witness :
  NoDup (customer_ids Fixture.tied_store)
  /\ ascii_only (JS.or_empty (Fixture.plain_request "limit"%string)) = true
  /\ 1 <= JS.or_num (JS.parseInt (Fixture.plain_request "limit"%string)) 10
  /\ JS.or_num (JS.parseInt (Fixture.plain_request "limit"%string)) 10
     <= max_safe_integer
  /\ (forall srv',
        same_data (Fixture.server Fixture.tied_store Fixture.now Fixture.keep) srv' ->
        revenues (Charts.revenue_by_customer srv' Fixture.plain_request)
        = [Some (VDec 50000); Some (VDec 50000); Some (VDec 30000)]).
Proof.
  assert (N : NoDup (customer_ids Fixture.tied_store)).
  { vm_compute. repeat constructor; cbn; intuition discriminate. }
  assert (L : 1 <= JS.or_num (JS.parseInt (Fixture.plain_request "limit"%string)) 10)
    by (vm_compute; discriminate).
  assert (M : JS.or_num (JS.parseInt (Fixture.plain_request "limit"%string)) 10
              <= max_safe_integer)
    by (vm_compute; discriminate).
  split; [exact N|]. split; [reflexivity|]. split; [exact L|]. split; [exact M|].
  intros srv' S.
  destruct (revenue_by_customer_ranking
              (Fixture.server Fixture.tied_store Fixture.now Fixture.keep)
              Fixture.plain_request N eq_refl L M)
    as (ranking & _ & _ & _ & R & _).
  rewrite (R srv' S). vm_compute. reflexivity.
Defined.

(** Witness of C8 as amended: the three orders of the seed, on three
    dates within the thirty days before 2024-02-01. *)
Lemma orders_over_time_series_witness :
  ascii_only (JS.or_empty (Fixture.plain_request "days"%string)) = true
  /\ within_calendar (Pg.today Fixture.seed_server)
       (JS.or_num (JS.parseInt (Fixture.plain_request "days"%string)) 30)
  /\ exists ds rows,
       Charts.orders_over_time Fixture.seed_server Fixture.plain_request
         = Series rows
       /\ List.length rows = List.length ds
       /\ StronglySorted Z.lt ds
       /\ List.length ds = 3%nat.
Proof.
  assert (C : within_calendar (Pg.today Fixture.seed_server)
                (JS.or_num (JS.parseInt (Fixture.plain_request "days"%string)) 30)).
  { repeat split; vm_compute; discriminate. }
  split; [reflexivity|]. split; [exact C|].
  destruct (orders_over_time_series Fixture.seed_server Fixture.plain_request
              eq_refl C) as (ds & E & S & _).
  exists ds. eexists. split; [exact E|].
  split; [apply length_map|]. split; [exact S|].
  apply (f_equal (fun r => match r with
                           | Series rows => List.length rows
                           | _ => O
                           end)) in E.
  rewrite length_map in E. rewrite <- E. vm_compute. reflexivity.
Defined.

(** Counterexample to C7: on the same data, with revenues 500, 500 and
    300, a server that keeps ties as they arrive answers X before Y and one
    that swaps them answers Y before X. *)
Lemma revenue_ranking_not_fixed :
  let s1 := Fixture.server Fixture.tied_store Fixture.now Fixture.keep in
  let s2 := Fixture.server Fixture.tied_store Fixture.now Fixture.swap in
  let row (name : string) (revenue count : Z) : Row :=
    [ ("name"%string, VText name);
      ("total_revenue"%string, VDec revenue);
      ("order_count"%string, VInt count) ] in
  same_data s1 s2
  /\ Charts.revenue_by_customer s1 Fixture.plain_request
     = Series [row "X"%string 50000 1; row "Y"%string 50000 2;
               row "Z"%string 30000 1]
  /\ Charts.revenue_by_customer s2 Fixture.plain_request
     = Series [row "Y"%string 50000 2; row "X"%string 50000 1;
               row "Z"%string 30000 1]
  /\ Charts.revenue_by_customer s1 Fixture.plain_request
     <> Charts.revenue_by_customer s2 Fixture.plain_request.
Proof.
  cbv zeta. split; [repeat split; reflexivity|].
  split; [vm_compute; reflexivity|]. split; [vm_compute; reflexivity|].
  vm_compute. discriminate.
Qed.

(** Counterexample to C8: with the current date 2024-02-01 and the default
    30 days, an order dated 2024-02-02 has a row in the series, although its
    date is after the current date and so outside the trailing window. *)
Lemma orders_over_time_future_row :
  let srv := Fixture.server Fixture.future_store Fixture.now Fixture.keep in
  let d := Fixture.day "2024-02-02" in
  Charts.orders_over_time srv Fixture.plain_request
    = Series [[ ("date"%string, VDate d);
                ("order_count"%string, VInt 1);
                ("revenue"%string, VDec 1000) ]]
  /\ Pg.today srv < d
  /\ ~ (Pg.today srv - 30 <= d <= Pg.today srv).
Proof.
  cbv zeta. split; [vm_compute; reflexivity|].
  split; [vm_compute; reflexivity|]. vm_compute. intros [_ H]. apply H. reflexivity.
Qed.

(** Counterexample to C9: customer 999 does not exist in the seed, yet the
    listing fails with status 500 when the page is -1 (a negative OFFSET),
    and so it does when the [customer_id] value is not an integer. *)
Lemma nonexistent_customer_failure :
  no_such_customer Fixture.seed_server Fixture.negative_page_request
  /\ Orders.handler Fixture.seed_server Fixture.negative_page_request
     = Failure 500 "Failed to fetch orders"
  /\ ~ empty_page (Orders.handler Fixture.seed_server Fixture.negative_page_request)
  /\ no_such_customer Fixture.seed_server Fixture.malformed_customer_request
  /\ Orders.handler Fixture.seed_server Fixture.malformed_customer_request
     = Failure 500 "Failed to fetch orders".
Proof.
  assert (N : forall q, q "customer_id"%string = Some "999"%string ->
                no_such_customer Fixture.seed_server q).
  { intros q E. unfold no_such_customer. rewrite E. split; [reflexivity|].
    intros c [<- | [<- | []]]; vm_compute; discriminate. }
  split; [apply N; reflexivity|].
  split; [vm_compute; reflexivity|].
  split.
  - intros (pg & E & _). vm_compute in E. discriminate.
  - split; [|vm_compute; reflexivity].
    split; [reflexivity|]. intros c _. vm_compute. discriminate.
Qed.

(** C6, at the failing input.  The claim says a customer qualifies exactly
    when its name or email contains the search text.  For the search text
    [_] the handler binds the pattern [%_%], in which [_] stands for any
    character: Bob is selected and counted, although neither his name nor
    his email contains an underscore. *)
Theorem search_underscore_matches_everything :
  let srv := Fixture.server Fixture.bob_store Fixture.now Fixture.keep in
  exists row pg,
    Customers.handler srv Fixture.underscore_request
      = Listing "customers" [row] pg
    /\ field "name" row = Some (VText "Bob")
    /\ field "email" row = Some (VText "bob@example.com")
    /\ totalCount pg = JS.Int 1
    /\ contains_ci "_" "Bob" = false
    /\ contains_ci "_" "bob@example.com" = false.
Proof.
  cbv zeta. do 2 eexists.
  split; [vm_compute; reflexivity|]. repeat split; reflexivity.
Qed.

(** The pending orders of the seed, page 1 of 10: the single order of B. *)
Example seed_pending_orders :
  exists row,
    Orders.handler Fixture.seed_server Fixture.pending_request
      = Listing "orders" [row]
          {| currentPage := 1; totalPages := JS.Int 1; totalCount := JS.Int 1;
             hasNext := false; hasPrev := false |}
    /\ field "customer_name" row = Some (VText "B")
    /\ field "total" row = Some (VDec 14950).
Proof.
  eexists. split; [vm_compute; reflexivity|]. split; reflexivity.
Qed.

(** With no orders the summary serves zeros and the average is 0. *)
Example no_orders_average :
  served (Fixture.server Fixture.empty_store Fixture.now Fixture.keep)
    = Some {| DashboardView.totalOrders := 0;
              DashboardView.totalCustomers := 0;
              DashboardView.totalRevenue := Qmake 0 100;
              DashboardView.pendingOrders := 0 |}
  /\ (DashboardView.averageOrderValue
        {| DashboardView.totalOrders := 0;
           DashboardView.totalCustomers := 0;
           DashboardView.totalRevenue := Qmake 0 100;
           DashboardView.pendingOrders := 0 |} == 0)%Q.
Proof. split; vm_compute; reflexivity. Qed.

(* ================================================================= *)
(** ** The further statements at concrete requests *)

(** Witness of X1: the pending orders of the seed, page 1 of 10. *)
Lemma orders_answer_or_failure_witness :
  exact_window (Fixture.pending_request "page"%string)
    (Fixture.pending_request "limit"%string)
    (Orders.page_of Fixture.pending_request)
    (Orders.limit_of Fixture.pending_request)
  /\ forallb no_nul
       [status_of Fixture.pending_request;
        customer_id_of Fixture.pending_request;
        start_date_of Fixture.pending_request;
        end_date_of Fixture.pending_request] = true
  /\ 1 <= Orders.page_of Fixture.pending_request
  /\ 1 <= Orders.limit_of Fixture.pending_request
  /\ exists rows pg,
       Orders.handler Fixture.seed_server Fixture.pending_request
       = Listing "orders" rows pg.
Proof.
  assert (X : exact_window (Fixture.pending_request "page"%string)
                (Fixture.pending_request "limit"%string)
                (Orders.page_of Fixture.pending_request)
                (Orders.limit_of Fixture.pending_request)).
  { repeat split; try reflexivity; vm_compute; discriminate. }
  assert (P : 1 <= Orders.page_of Fixture.pending_request)
    by (vm_compute; discriminate).
  assert (L : 1 <= Orders.limit_of Fixture.pending_request)
    by (vm_compute; discriminate).
  split; [exact X|]. split; [reflexivity|]. split; [exact P|]. split; [exact L|].
  apply (proj2 (orders_answer_or_failure Fixture.seed_server
                  Fixture.pending_request X eq_refl)).
  split; [exact P|]. split; [exact L|].
  repeat split; vm_compute; discriminate.
Defined.

(** Witness of X2: the customers of the seed whose name or email
    contains [example]. *)
Lemma customers_answer_or_failure_witness :
  exact_window (Samples.example_search "page"%string)
    (Samples.example_search "limit"%string)
    (Customers.page_of Samples.example_search)
    (Customers.limit_of Samples.example_search)
  /\ no_nul (search_of Samples.example_search) = true
  /\ 1 <= Customers.page_of Samples.example_search
  /\ 1 <= Customers.limit_of Samples.example_search
  /\ exists rows pg,
       Customers.handler Fixture.seed_server Samples.example_search
       = Listing "customers" rows pg.
Proof.
  assert (X : exact_window (Samples.example_search "page"%string)
                (Samples.example_search "limit"%string)
                (Customers.page_of Samples.example_search)
                (Customers.limit_of Samples.example_search)).
  { repeat split; try reflexivity; vm_compute; discriminate. }
  assert (P : 1 <= Customers.page_of Samples.example_search)
    by (vm_compute; discriminate).
  assert (L : 1 <= Customers.limit_of Samples.example_search)
    by (vm_compute; discriminate).
  split; [exact X|]. split; [reflexivity|]. split; [exact P|]. split; [exact L|].
  apply (proj2 (customers_answer_or_failure Fixture.seed_server
                  Samples.example_search X eq_refl)).
  split; [exact P|exact L].
Defined.

(** Witness of X3: the orders of the seed two per page; page 1 has a
    next page, page 2 holds the third order. *)
Lemma has_next_iff_next_page_witness :
  exists rows pg rows' pg',
    same_data Fixture.seed_server Fixture.seed_server
    /\ Orders.handler Fixture.seed_server Samples.two_per_page
       = Listing "orders" rows pg
    /\ Orders.handler Fixture.seed_server
         (with_page (currentPage pg + 1) Samples.two_per_page)
       = Listing "orders" rows' pg'
    /\ (hasNext pg = true <-> rows' <> [])
    /\ currentPage pg' = currentPage pg + 1
    /\ totalCount pg' = totalCount pg
    /\ hasPrev pg' = true.
Proof.
  assert (S : same_data Fixture.seed_server Fixture.seed_server)
    by (repeat split; reflexivity).
  do 4 eexists. split; [exact S|].
  split; [vm_compute; reflexivity|].
  split; [vm_compute; reflexivity|].
  refine (has_next_iff_next_page Fixture.seed_server Fixture.seed_server
            Samples.two_per_page "orders" _ _ "orders" _ _ S eq_refl eq_refl).
Defined.

(** Witness of X4: the two customers of the seed, one per page, the
    second page answered by a server that orders ties the other way. *)
Lemma customer_pages_cover_witness :
  let served (k : nat) :=
    if Nat.eqb k 2
    then Fixture.server Fixture.seed Fixture.now Fixture.swap
    else Fixture.seed_server in
  NoDup (customer_ids Fixture.seed)
  /\ NoDup (map c_created_at (customers Fixture.seed))
  /\ Z.of_nat (List.length (customers Fixture.seed)) <= max_safe_integer
  /\ same_data Fixture.seed_server (served 1%nat)
  /\ same_data Fixture.seed_server (served 2%nat)
  /\ exists rows pg,
       Customers.handler Fixture.seed_server Samples.one_per_page
         = Listing "customers" rows pg
       /\ totalPages pg = JS.Int 2
       /\ exists all : list Customer,
            Permutation all
              (filter (qualifies Samples.one_per_page) (customers Fixture.seed))
            /\ StronglySorted newest_first all
            /\ totalCount pg = JS.Int (Z.of_nat (List.length all))
            /\ flat_map
                 (fun k => rows_of (Customers.handler (served k)
                                      (with_page (Z.of_nat k)
                                                 Samples.one_per_page)))
                 (seq 1 (Z.to_nat 2))
               = map (fun c => Pg.customer_row c (orders_of Fixture.seed c)) all.
Proof.
  cbv zeta.
  assert (N : NoDup (customer_ids Fixture.seed)).
  { vm_compute. repeat constructor; cbn; intuition discriminate. }
  assert (D : NoDup (map c_created_at (customers Fixture.seed))).
  { vm_compute. repeat constructor; cbn; intuition discriminate. }
  assert (B : Z.of_nat (List.length (customers Fixture.seed)) <= max_safe_integer)
    by (vm_compute; discriminate).
  assert (S : forall k,
             same_data Fixture.seed_server
               (if Nat.eqb k 2
                then Fixture.server Fixture.seed Fixture.now Fixture.swap
                else Fixture.seed_server)).
  { intros k. destruct (Nat.eqb k 2); repeat split; reflexivity. }
  split; [exact N|]. split; [exact D|]. split; [exact B|].
  split; [exact (S 1%nat)|]. split; [exact (S 2%nat)|].
  do 2 eexists. split; [vm_compute; reflexivity|].
  split; [vm_compute; reflexivity|].
  exact (customer_pages_cover Fixture.seed_server _ Samples.one_per_page
           "customers" _ _ 2 N D B S eq_refl eq_refl).
Defined.

(** Witness of X5: the pending orders of the seed. *)
Lemma orders_page_newest_first_witness :
  exists rows pg,
    Orders.handler Fixture.seed_server Fixture.pending_request
      = Listing "orders" rows pg
    /\ exists page : list (Order * Customer),
         rows = map Pg.order_row page
         /\ StronglySorted newest_order_first page
         /\ forall o c, In (o, c) page ->
              In o (orders Fixture.seed) /\ In c (customers Fixture.seed)
              /\ o_customer_id o = c_id c.
Proof.
  do 2 eexists. split; [vm_compute; reflexivity|].
  exact (orders_page_newest_first Fixture.seed_server Fixture.pending_request
           "orders" _ _ eq_refl).
Defined.

(** Witness of X6: the seed, where every order has its customer. *)
Lemma listing_count_vs_total_orders_witness :
  NoDup (customer_ids Fixture.seed)
  /\ unfiltered Fixture.plain_request
  /\ exists rows pg m,
       Orders.handler Fixture.seed_server Fixture.plain_request
         = Listing "orders" rows pg
       /\ Dashboard.handler Fixture.seed_server = Summary m
       /\ exists tc n,
            totalCount pg = JS.Int tc /\ totalOrders m = JS.Int n
            /\ tc = Z.of_nat (List.length
                                (filter (has_customer Fixture.seed)
                                        (orders Fixture.seed)))
            /\ tc <= n
            /\ (tc = n <->
                forall o, In o (orders Fixture.seed) ->
                          has_customer Fixture.seed o = true).
Proof.
  assert (N : NoDup (customer_ids Fixture.seed)).
  { vm_compute. repeat constructor; cbn; intuition discriminate. }
  assert (U : unfiltered Fixture.plain_request)
    by (repeat split; reflexivity).
  split; [exact N|]. split; [exact U|].
  do 3 eexists. split; [vm_compute; reflexivity|].
  split; [vm_compute; reflexivity|].
  exact (listing_count_vs_total_orders Fixture.seed_server Fixture.plain_request
           "orders" _ _ _ N U eq_refl eq_refl).
Defined.


(** Witness of X10: the breakdown and the summary of the seed. *)
Lemma revenue_breakdown_matches_summary_witness :
  exists rows m,
    Breakdown.revenue_breakdown Fixture.seed_server = Series rows
    /\ Dashboard.handler Fixture.seed_server = Summary m
    /\ totalOrders m = JS.Int (column_sum "order_count" rows)
    /\ pendingOrders m
       = JS.Int (column_sum "order_count" (rows_with_status is_pending rows))
    /\ totalRevenue m
       = Some (Qmake (column_sum "total_revenue"
                        (rows_with_status is_realised rows)) 100).
Proof.
  do 2 eexists. split; [vm_compute; reflexivity|].
  split; [vm_compute; reflexivity|].
  exact (revenue_breakdown_matches_summary Fixture.seed_server _ _
           eq_refl eq_refl).
Defined.

(** Witness of X12: the pending orders of the seed in the table. *)
Lemma orders_shown_range_witness :
  exists rows pg,
    Api.getOrders Fixture.seed_server Samples.pending_filters
      = Listing "orders" rows pg
    /\ exists info : Api.PaginationInfo,
         Api.paginationInfo pg = Some info
         /\ Z.of_nat (List.length rows)
            = Z.max 0 (OrdersTable.showing_to info
                         (OrdersTable.activePageSize Samples.pending_filters)
                       - OrdersTable.showing_from info
                           (OrdersTable.activePageSize Samples.pending_filters)
                       + 1).
Proof.
  do 2 eexists. split; [vm_compute; reflexivity|].
  exact (orders_shown_range Fixture.seed_server Samples.pending_filters
           "orders" _ _ eq_refl).
Defined.

(** Witness of X13: the first page of the customers of the seed. *)
Lemma customers_shown_range_witness :
  NoDup (customer_ids Fixture.seed)
  /\ exists rows pg,
       CustomersTable.fetchCustomers Fixture.seed_server
         (Some 1) (Some EmptyString)
         = Listing "customers" rows pg
       /\ exists info : Api.PaginationInfo,
            Api.paginationInfo pg = Some info
            /\ Z.of_nat (List.length rows)
               = Z.max 0 (CustomersTable.showing_to info
                          - CustomersTable.showing_from info + 1).
Proof.
  assert (N : NoDup (customer_ids Fixture.seed)).
  { vm_compute. repeat constructor; cbn; intuition discriminate. }
  split; [exact N|].
  do 2 eexists. split; [vm_compute; reflexivity|].
  exact (customers_shown_range Fixture.seed_server 1 EmptyString
           "customers" _ _ N eq_refl).
Defined.

(** Witness of X16: four orders, one of them pending, and no trend. *)
Lemma insights_cards_witness :
  0 <= DashboardView.totalOrders Fixture.sample_metrics
  /\ let cards :=
       DashboardTrend.insights (fun d => d) (fun _ => "$"%string)
         (fun _ _ => "0"%string) (Some Fixture.sample_metrics) None 7 in
     List.length cards = 2%nat
     /\ (DashboardTrend.tone
           (DashboardTrend.fulfillment_card (fun _ _ => "0"%string)
              Fixture.sample_metrics) = DashboardTrend.Warning
         <-> DashboardView.denominator Fixture.sample_metrics
             <= 4 * DashboardView.pendingOrders Fixture.sample_metrics).
Proof.
  assert (T : 0 <= DashboardView.totalOrders Fixture.sample_metrics)
    by (vm_compute; discriminate).
  split; [exact T|].
  destruct (insights_cards (fun d => d) (fun _ => "$"%string)
              (fun _ _ => "0"%string) Fixture.sample_metrics None 7 T)
    as (_ & L & W & _).
  split; [exact L|exact W].
Defined.

(** Witness of X17: the summary of the seed. *)
Lemma served_rates_bounded_witness :
  exists m,
    served Fixture.seed_server = Some m
    /\ 0 <= DashboardView.pendingOrders m <= DashboardView.totalOrders m
    /\ (0 <= DashboardView.completionRate m <= inject_Z 100)%Q
    /\ (0 <= DashboardTrend.pendingRatio m <= 1)%Q.
Proof.
  eexists. split; [vm_compute; reflexivity|].
  exact (served_rates_bounded Fixture.seed_server _ eq_refl).
Defined.

(** Witness of X18: a password with [=] signs in it. *)
Lemma env_line_assignment_witness :
  ascii_only Samples.password_line = true
  /\ JSString.trim Samples.password_line
     = ("DB_PASSWORD" ++ String "=" "pa=ss==")%string
  /\ JS.truthy "DB_PASSWORD" = true
  /\ no_char "=" "DB_PASSWORD" = true
  /\ JSString.startsWith "#" "DB_PASSWORD" = false
  /\ String.eqb "DB_PASSWORD" "__proto__" = false
  /\ Env.get (Env.parse_line [] Samples.password_line) "DB_PASSWORD"
     = Some "pa=ss=="%string.
Proof.
  repeat (split; [reflexivity|]).
  refine (proj1 (proj2 (env_line_assignment [] Samples.password_line
                          "DB_PASSWORD" "pa=ss==" eq_refl eq_refl eq_refl
                          eq_refl eq_refl _))).
  discriminate.
Defined.

(** Witness of X20: a value between single quotes, after a blank. *)
Lemma strip_quotes_pair_witness :
  (Env.single_quote = Env.double_quote \/ Env.single_quote = Env.single_quote)
  /\ blank " " = true
  /\ blank EmptyString = true
  /\ Env.stripQuotes
       (" " ++ String Env.single_quote ("a b" ++ String Env.single_quote EmptyString)
        ++ EmptyString)
     = "a b"%string.
Proof.
  split; [right; reflexivity|]. split; [reflexivity|]. split; [reflexivity|].
  exact (strip_quotes_pair Env.single_quote "a b" " " EmptyString
           (or_intror eq_refl) eq_refl eq_refl).
Defined.

(** Witness of X21: the host assigned twice. *)
Lemma env_last_assignment_witness :
  ascii_only "DB_HOST=db.internal" = true
  /\ no_char Env.newline "DB_HOST=db.internal" = true
  /\ JSString.trim "DB_HOST=db.internal"
     = ("DB_HOST" ++ String "=" "db.internal")%string
  /\ JS.truthy "DB_HOST" = true
  /\ no_char "=" "DB_HOST" = true
  /\ JSString.startsWith "#" "DB_HOST" = false
  /\ String.eqb "DB_HOST" "__proto__" = false
  /\ Env.get (Env.parse ("DB_HOST=localhost"
                         ++ String Env.newline "DB_HOST=db.internal"))
       "DB_HOST"
     = Some "db.internal"%string.
Proof.
  repeat (split; [reflexivity|]).
  refine (env_last_assignment "DB_HOST=localhost" "DB_HOST=db.internal"
            "DB_HOST" "db.internal" eq_refl eq_refl eq_refl eq_refl eq_refl
            eq_refl _).
  discriminate.
Defined.

(** Witness of X23: the three orders of the seed, on three dates. *)
Lemma averages_over_days_with_orders_witness :
  exists rows,
    Charts.orders_over_time Fixture.seed_server Fixture.plain_request
      = Series rows
    /\ exists data,
         map (ChartsView.load_day Samples.day_text) rows = map Some data
         /\ List.length data
            = List.length
                (nodup Z.eq_dec
                   (map o_order_date
                      (in_window Fixture.seed_server Fixture.plain_request)))
         /\ (ChartsView.averageOrders data = None
             <-> in_window Fixture.seed_server Fixture.plain_request = [])
         /\ forall avg, ChartsView.averageOrders data = Some avg ->
              (ChartsView.orders avg * inject_Z (Z.of_nat (List.length data))
               == inject_Z (Z.of_nat
                    (List.length
                       (in_window Fixture.seed_server Fixture.plain_request))))%Q
              /\ (ChartsView.revenue avg
                  * inject_Z (Z.of_nat (List.length data))
                  == Pg.sum_total
                       (in_window Fixture.seed_server Fixture.plain_request)
                     # 100)%Q.
Proof.
  eexists. split; [vm_compute; reflexivity|].
  exact (averages_over_days_with_orders Samples.day_text Fixture.seed_server
           Fixture.plain_request _ eq_refl).
Defined.

(** Witness of X24: [ example ] typed into the box on page 3. *)
Lemma search_box_request_witness :
  let q := query_of (CustomersTable.request
                       (CustomersTable.handleSearch Samples.typed_search)) in
  ascii_only (CustomersTable.searchInput Samples.typed_search) = true
  /\ Customers.page_of q = 1
  /\ Customers.limit_of q = 10
  /\ search_of q = "example"%string.
Proof.
  cbv zeta.
  destruct (search_box_request Samples.typed_search eq_refl)
    as (P & L & S & _).
  split; [reflexivity|]. split; [exact P|]. split; [exact L|].
  rewrite S. reflexivity.
Defined.

(** Witness of X25: a plain status and one written to break out of a
    literal give the same texts. *)
Lemma values_stay_out_of_statements_witness :
  same_supplied Fixture.pending_request Samples.hostile_request
  /\ text_of (fst (Orders.statements Fixture.pending_request))
     = text_of (fst (Orders.statements Samples.hostile_request))
  /\ text_of (snd (Orders.statements Fixture.pending_request))
     = text_of (snd (Orders.statements Samples.hostile_request))
  /\ params_of (fst (Orders.statements Samples.hostile_request))
     = [Pg.PText "x' OR '1'='1"; Pg.PNum 10; Pg.PNum 0].
Proof.
  assert (S : same_supplied Fixture.pending_request Samples.hostile_request)
    by (repeat split; reflexivity).
  split; [exact S|].
  destruct (values_stay_out_of_statements Fixture.pending_request
              Samples.hostile_request S) as (A & B & _).
  split; [exact A|]. split; [exact B|]. reflexivity.
Defined.

(** Witness of X26: a limit of -3 on the store of the three ranked
    customers. *)
Lemma revenue_answer_or_failure_witness :
  let srv := Fixture.server Fixture.tied_store Fixture.now Fixture.keep in
  ascii_only (JS.or_empty (Samples.negative_limit_request "limit"%string)) = true
  /\ safe_integer (Charts.limit_of Samples.negative_limit_request)
  /\ Charts.limit_of Samples.negative_limit_request < 0
  /\ Charts.revenue_by_customer srv Samples.negative_limit_request
     = Failure 500 "Failed to fetch revenue by customer data".
Proof.
  cbv zeta.
  assert (S : safe_integer (Charts.limit_of Samples.negative_limit_request))
    by (split; vm_compute; discriminate).
  assert (N : Charts.limit_of Samples.negative_limit_request < 0)
    by (vm_compute; reflexivity).
  split; [reflexivity|]. split; [exact S|]. split; [exact N|].
  exact (proj2 (proj1 (proj2 (revenue_answer_or_failure
                                (Fixture.server Fixture.tied_store Fixture.now
                                   Fixture.keep)
                                Samples.negative_limit_request eq_refl S)))
           N).
Defined.

(** Witness of X27: February first to January first. *)
Lemma inverted_date_range_empty_witness :
  exists rows pg,
    Orders.handler Fixture.seed_server Samples.inverted_range_request
      = Listing "orders" rows pg
    /\ JS.truthy (start_date_of Samples.inverted_range_request) = true
    /\ Pg.date_in Fixture.seed_server
         (start_date_of Samples.inverted_range_request)
       = Some (Fixture.day "2024-02-01")
    /\ JS.truthy (end_date_of Samples.inverted_range_request) = true
    /\ Pg.date_in Fixture.seed_server
         (end_date_of Samples.inverted_range_request)
       = Some (Fixture.day "2024-01-01")
    /\ Fixture.day "2024-01-01" < Fixture.day "2024-02-01"
    /\ rows = []
    /\ totalCount pg = JS.Int 0
    /\ totalPages pg = JS.Int 0
    /\ hasNext pg = false.
Proof.
  do 2 eexists. split; [vm_compute; reflexivity|].
  split; [reflexivity|]. split; [vm_compute; reflexivity|].
  split; [reflexivity|]. split; [vm_compute; reflexivity|].
  split; [vm_compute; reflexivity|].
  refine (inverted_date_range_empty Fixture.seed_server
            Samples.inverted_range_request
            (Fixture.day "2024-02-01") (Fixture.day "2024-01-01")
            "orders" _ _ eq_refl eq_refl _ eq_refl _ _);
    vm_compute; reflexivity.
Defined.

(** Witness of X28: the third page of the three orders of the seed, two
    per page. *)
Lemma page_has_rows_iff_counted_witness :
  exists rows pg,
    Orders.handler Fixture.seed_server Samples.past_the_end_request
      = Listing "orders" rows pg
    /\ totalPages pg = JS.Int 2
    /\ (rows <> [] <-> currentPage pg <= 2)
    /\ (2 < currentPage pg -> rows = [] /\ hasNext pg = false).
Proof.
  do 2 eexists. split; [vm_compute; reflexivity|].
  split; [vm_compute; reflexivity|].
  exact (page_has_rows_iff_counted Fixture.seed_server
           Samples.past_the_end_request "orders" _ _ 2 eq_refl eq_refl).
Defined.
